(** * OpenDeepResearcher: the [AgenticResearcher] class of [researcher.py]

    A shallow embedding of the research loop, its two capability adapters
    ([search_with_exa], [get_full_content]), the result formatter
    ([format_search_results]) and the conversation driver
    ([run_research_iteration]), followed by the properties proved of them.

    Conventions of the embedding.
    - The instance attributes that the methods mutate ([messages],
      [research_iterations], [search_history], [content_retrieval_history])
      are the fields of [State]; methods are computations in the monad [M],
      which threads the state and an exception, and in which, as in Python,
      the mutations made before a [raise] survive it.
    - An exception is represented by its text [str(e)]: every handler of the
      class is [except Exception as e] and uses [e] only through [str(e)].
    - The three external services and the wall clock are the fields of
      [World]; each is indexed by the number of external interactions made
      so far ([tick]), so that they may answer differently on every call.
    - The progress callback is a sink that does not raise: [update_progress]
      appends the event to the [progress] log of the state.
    - Python [str] is [string], one character per code point; lengths and
      slices count characters. Python [int] is [Z]; lengths are [N].
    - Provider answers are given by their shape, as far as the methods look
      at it: objects and mappings with the members that are tested for. *)

From Stdlib Require Import String Ascii List ZArith NArith Lia Bool DecimalString.
Import ListNotations.
Local Open Scope string_scope.

(** ** Python values and primitives *)

Module Py.

(** The scalar values that occur as fields of provider responses and as
    tool inputs. *)
Inductive pyval : Type :=
| PNone
| PStr (s : string)
| PInt (z : Z).

(** A mapping or the attribute table of an object, by name. *)
Definition fields := list (string * pyval).

(** The result of evaluating an expression: a value or a raised exception,
    carried as [str(e)]. *)
Inductive outcome (A : Type) : Type :=
| Ok (a : A)
| Raise (e : string).
Arguments Ok {A} a.
Arguments Raise {A} e.

Definition nl : string := String (ascii_of_nat 10) EmptyString.
Definition dq : string := String (ascii_of_nat 34) EmptyString.

Definition str_of_N (n : N) : string := NilZero.string_of_uint (N.to_uint n).
Definition str_of_Z (z : Z) : string := NilZero.string_of_int (Z.to_int z).

(** [str(v)], which is also what an f-string interpolates. *)
Definition str (v : pyval) : string :=
  match v with
  | PNone => "None"
  | PStr s => s
  | PInt z => str_of_Z z
  end.

(** Truth value, as tested by [if v:] and [v or d]. *)
Definition truthy (v : pyval) : bool :=
  match v with
  | PNone => false
  | PStr EmptyString => false
  | PStr _ => true
  | PInt z => negb (Z.eqb z 0)
  end.

Definition eqb (v w : pyval) : bool :=
  match v, w with
  | PNone, PNone => true
  | PStr s, PStr t => String.eqb s t
  | PInt a, PInt b => Z.eqb a b
  | _, _ => false
  end.

(** [len(s)] of a [str]. *)
Fixpoint slen (s : string) : N :=
  match s with
  | EmptyString => 0%N
  | String _ s' => N.succ (slen s')
  end.

(** [s[:n]] of a [str], for [n >= 0]. *)
Fixpoint slice_to (n : N) (s : string) : string :=
  match s with
  | EmptyString => EmptyString
  | String c s' =>
      if N.eqb n 0 then EmptyString else String c (slice_to (N.pred n) s')
  end.

Definition type_name (v : pyval) : string :=
  match v with
  | PNone => "NoneType"
  | PStr _ => "str"
  | PInt _ => "int"
  end.

(** [len(v)]: a [TypeError] unless [v] is a [str]. *)
Definition len (v : pyval) : outcome N :=
  match v with
  | PStr s => Ok (slen s)
  | _ => Raise ("object of type '" ++ type_name v ++ "' has no len()")
  end.

(** [v[:n]]: a [TypeError] unless [v] is a [str]. *)
Definition slice (n : N) (v : pyval) : outcome string :=
  match v with
  | PStr s => Ok (slice_to n s)
  | _ => Raise ("'" ++ type_name v ++ "' object is not subscriptable")
  end.

(** [k in d] and [d[k]] of a mapping; [hasattr(o, k)] and [o.k] of an
    object. *)
Fixpoint lookup (k : string) (d : fields) : option pyval :=
  match d with
  | [] => None
  | (k', v) :: d' => if String.eqb k k' then Some v else lookup k d'
  end.

(** [d.get(k, default)] and [getattr(o, k, default)]. *)
Definition get (k : string) (default : pyval) (d : fields) : pyval :=
  match lookup k d with
  | Some v => v
  | None => default
  end.

(** [sep.join(parts)]. *)
Definition join (sep : string) (parts : list string) : string :=
  String.concat sep parts.

(** [range(n)]. *)
Definition range (n : Z) : list Z := map Z.of_nat (seq 0 (Z.to_nat n)).

(** [enumerate(l)]. *)
Definition enumerate {A : Type} (l : list A) : list (Z * A) :=
  combine (range (Z.of_nat (length l))) l.

(** Timestamps are [datetime.now().isoformat()] strings, compared as
    strings. *)
Definition str_gt (a b : string) : bool := String.ltb b a.

End Py.

Import Py.

(** ** Shapes of the providers' answers *)

(** One search result: a mapping or an object with attributes. *)
Inductive Entry : Type :=
| EDict (d : fields)
| EObj (attrs : fields).

(** The value found under [results]: a list of entries, or [None]. *)
Inductive ResultsVal : Type :=
| RList (l : list Entry)
| RNone.

(** What [exa_client.search_and_contents] returns: an object ([Some] when it
    has a [results] attribute) or a mapping ([Some] when it has the key). *)
Inductive SearchResponse : Type :=
| SObj (results : option ResultsVal)
| SDict (results : option ResultsVal).

(** The [data] member of a scrape response. *)
Inductive ScrapeData : Type :=
| DObj (markdown : option pyval)
| DDict (d : fields)
| DOther.

(** What [firecrawl_client.scrape_url] returns: an object (its [markdown]
    and [data] attributes, when present) or a mapping (its [data] and
    [markdown] keys, when present). *)
Inductive ScrapeResponse : Type :=
| FObj (markdown : option pyval) (data : option ScrapeData)
| FDict (data : option ScrapeData) (markdown : option pyval).

(** ** Conversation *)

(** A content block of a model response: of type [text], of type
    [tool_use], or of another type. *)
Inductive Block : Type :=
| TextBlock (text : string)
| ToolUse (name : string) (input : fields) (id : string)
| OtherBlock.

Inductive Role : Type := User | Assistant.

(** The [content] of a message: a prompt string, the raw blocks of a model
    response, or the one-element list holding a tool result. *)
Inductive Content : Type :=
| CText (s : string)
| CBlocks (bs : list Block)
| CToolResult (tool_use_id : string) (content : string).

Record Message : Type := mkMessage { role : Role; content : Content }.

(** A tool of the manifest: name, description, properties and the required
    ones. *)
Record Tool : Type := mkTool {
  tool_name : string;
  tool_description : string;
  tool_properties : list (string * string);
  tool_required : list string }.

(** The arguments of [claude_client.messages.create]. *)
Record ModelRequest : Type := mkRequest {
  req_model : string;
  req_max_tokens : Z;
  req_system : string;
  req_messages : list Message;
  req_tools : option (list Tool) }.

(** The keyword arguments of [exa_client.search_and_contents]. *)
Record SearchParams : Type := mkSearchParams {
  sp_query : pyval;
  sp_type : string;
  sp_category : string;
  sp_num_results : Z;
  sp_max_characters : Z;
  sp_start_published_date : option pyval;
  sp_end_published_date : option pyval }.

(** ** Session records *)

Record SearchRecord : Type := mkSearchRecord {
  s_query : pyval;
  s_timestamp : string;
  s_error : option string;
  s_num_results : N;
  s_start_date : pyval;
  s_end_date : pyval }.

Record FetchRecord : Type := mkFetchRecord {
  c_url : pyval;
  c_timestamp : string;
  c_success : bool;
  c_content_length : option N;
  c_error : option string }.

Record IterationRecord : Type := mkIteration {
  it_iteration : Z;
  it_query : string;
  it_response : string;
  it_search_queries : list SearchRecord;
  it_content_retrievals : list FetchRecord;
  it_timestamp : string }.

(** The second component of what [run_research_loop] returns; the keys
    [model] and [final_report] exist on the success path only, [error] on
    the failure path only. *)
Record ResearchData : Type := mkResearchData {
  rd_query : string;
  rd_model : option string;
  rd_iterations : list IterationRecord;
  rd_search_history : list SearchRecord;
  rd_content_retrieval_history : list FetchRecord;
  rd_final_report : option string;
  rd_error : option string;
  rd_timestamp : string }.

(** ** Progress events *)

Inductive ProgressType : Type :=
| PInfo | PSearch | PContent | PIteration | PFinalReport | PError.

Record ProgressEvent : Type := mkEvent {
  ev_message : string;
  ev_type : ProgressType;
  ev_iteration_num : option Z;
  ev_total_iterations : option Z }.

(** ** The world, the configuration and the state *)

Record World : Type := mkWorld {
  now_isoformat : nat -> string;
  claude : nat -> ModelRequest -> outcome (list Block);
  exa : nat -> SearchParams -> outcome SearchResponse;
  firecrawl : nat -> pyval -> outcome ScrapeResponse }.

(** The attributes set by [__init__] and never assigned afterwards;
    [current_date] is the date that [__init__] formats into the system
    prompt. *)
Record Config : Type := mkConfig {
  model : string;
  results_per_search : Z;
  current_date : string }.

Record State : Type := mkState {
  messages : list Message;
  research_iterations : list IterationRecord;
  search_history : list SearchRecord;
  content_retrieval_history : list FetchRecord;
  progress : list ProgressEvent;
  tick : nat }.

(** The state that [__init__] leaves. *)
Definition init_state : State := mkState [] [] [] [] [] 0.

(** ** The monad of methods *)

Definition M (A : Type) : Type := State -> outcome A * State.

Definition ret {A : Type} (a : A) : M A := fun st => (Ok a, st).

Definition bind {A B : Type} (m : M A) (k : A -> M B) : M B :=
  fun st =>
    match m st with
    | (Ok a, st') => k a st'
    | (Raise e, st') => (Raise e, st')
    end.

Definition raise {A : Type} (e : string) : M A := fun st => (Raise e, st).

(** [try: body  except Exception as e: handler(str(e))]. *)
Definition try_except {A : Type} (body : M A) (handler : string -> M A) : M A :=
  fun st =>
    match body st with
    | (Ok a, st') => (Ok a, st')
    | (Raise e, st') => handler e st'
    end.

(** Evaluation of a pure expression that may raise. *)
Definition lift {A : Type} (o : outcome A) : M A := fun st => (o, st).

Definition modify (f : State -> State) : M unit := fun st => (Ok tt, f st).

Definition gets {A : Type} (f : State -> A) : M A := fun st => (Ok (f st), st).

Declare Scope py_scope.
Delimit Scope py_scope with py.
Notation "x <- m ;; k" := (bind m (fun x => k))
  (at level 61, m at next level, right associativity) : py_scope.
Notation "m ;;; k" := (bind m (fun _ => k))
  (at level 61, right associativity) : py_scope.
Local Open Scope py_scope.

(** [for x in l: body(x)]. *)
Fixpoint for_each {A : Type} (l : list A) (body : A -> M unit) : M unit :=
  match l with
  | [] => ret tt
  | x :: l' => body x ;;; for_each l' body
  end.

(** One interaction with the outside: the answer of [f] at the current tick. *)
Definition external {A : Type} (f : nat -> outcome A) : M A :=
  fun st =>
    (f (tick st),
     mkState (messages st) (research_iterations st) (search_history st)
             (content_retrieval_history st) (progress st) (S (tick st))).

(** [datetime.now().isoformat()]. *)
Definition now (w : World) : M string :=
  external (fun t => Ok (now_isoformat w t)).

Definition append_message (m : Message) : M unit :=
  modify (fun st =>
    mkState (messages st ++ [m]) (research_iterations st) (search_history st)
            (content_retrieval_history st) (progress st) (tick st)).

Definition set_messages (ms : list Message) : M unit :=
  modify (fun st =>
    mkState ms (research_iterations st) (search_history st)
            (content_retrieval_history st) (progress st) (tick st)).

Definition append_iteration (r : IterationRecord) : M unit :=
  modify (fun st =>
    mkState (messages st) (research_iterations st ++ [r]) (search_history st)
            (content_retrieval_history st) (progress st) (tick st)).

Definition append_search (r : SearchRecord) : M unit :=
  modify (fun st =>
    mkState (messages st) (research_iterations st) (search_history st ++ [r])
            (content_retrieval_history st) (progress st) (tick st)).

Definition append_retrieval (r : FetchRecord) : M unit :=
  modify (fun st =>
    mkState (messages st) (research_iterations st) (search_history st)
            (content_retrieval_history st ++ [r]) (progress st) (tick st)).

(** [update_progress(message, progress_type, iteration_num, total_iterations)]. *)
Definition update_progress (message : string) (progress_type : ProgressType)
    (iteration_num total_iterations : option Z) : M unit :=
  modify (fun st =>
    mkState (messages st) (research_iterations st) (search_history st)
            (content_retrieval_history st)
            (progress st ++
               [mkEvent message progress_type iteration_num total_iterations])
            (tick st)).

(** ** Capability adapters *)

(** The defensive count of [search_with_exa]: [len] of the [results]
    attribute or key when there is one, else [0]. *)
Definition results_len (r : ResultsVal) : outcome N :=
  match r with
  | RList l => Ok (N.of_nat (length l))
  | RNone => Raise "object of type 'NoneType' has no len()"
  end.

Definition count_results (results : SearchResponse) : outcome N :=
  match results with
  | SObj (Some r) => results_len r
  | SObj None => Ok 0%N
  | SDict (Some r) => results_len r
  | SDict None => Ok 0%N
  end.

(** [search_with_exa(query, num_results, start_date, end_date)]. *)
Definition search_with_exa (cfg : Config) (w : World) (query : pyval)
    (num_results : option Z) (start_date end_date : pyval)
  : M (option SearchResponse) :=
  let num_results :=
    match num_results with
    | None => results_per_search cfg
    | Some n => n
    end in
  update_progress ("Searching for: " ++ str query) PSearch None None ;;;
  try_except
    (let search_params :=
       mkSearchParams query "keyword" "research paper" num_results 5000
         (if truthy start_date then Some start_date else None)
         (if truthy end_date then Some end_date else None) in
     results <- external (fun t => exa w t search_params) ;;
     current_time <- now w ;;
     result_count <- lift (count_results results) ;;
     append_search
       (mkSearchRecord query current_time None result_count
                       start_date end_date) ;;;
     update_progress
       ("Found " ++ str_of_N result_count ++ " results for '" ++ str query
          ++ "'") PSearch None None ;;;
     ret (Some results))
    (fun e =>
     update_progress ("Search error: " ++ e) PError None None ;;;
     t <- now w ;;
     append_search (mkSearchRecord query t (Some e) 0 start_date end_date) ;;;
     ret None).

Definition error_retrieving_content : string := "Error retrieving content".

(** The shape-sniffing of [get_full_content]: where the markdown is looked
    for, with the marker left when it is found nowhere. *)
Definition scraped_markdown (response : ScrapeResponse) : pyval :=
  let default := PStr error_retrieving_content in
  match response with
  | FObj (Some md) _ => md
  | FObj None (Some (DObj (Some md))) => md
  | FObj None (Some (DObj None)) => default
  | FObj None (Some (DDict d)) =>
      match lookup "markdown" d with
      | Some md => md
      | None => default
      end
  | FObj None (Some DOther) => default
  | FObj None None => default
  | FDict (Some (DDict d)) _ => get "markdown" default d
  | FDict _ (Some md) => md
  | FDict _ None => default
  end.

(** The maximal length of what [get_full_content] returns. *)
Definition max_content : N := 100000.

(** [get_full_content(url)]. *)
Definition get_full_content (w : World) (url : pyval) : M string :=
  update_progress ("Retrieving content from: " ++ str url) PContent
                  None None ;;;
  try_except
    (response <- external (fun t => firecrawl w t url) ;;
     let content := scraped_markdown response in
     t <- now w ;;
     n <- lift (len content) ;;
     append_retrieval
       (mkFetchRecord url t
          (negb (Py.eqb content (PStr error_retrieving_content)))
          (Some n) None) ;;;
     update_progress
       ("Retrieved " ++ str_of_N n ++ " characters from article")
       PContent None None ;;;
     lift (slice max_content content))
    (fun e =>
     update_progress ("Content retrieval error: " ++ e) PError None None ;;;
     t <- now w ;;
     append_retrieval (mkFetchRecord url t false None (Some e)) ;;;
     ret error_retrieving_content).

(** ** Result formatter *)

Definition no_search_results : string := "No search results found.".
Definition no_results_for_query : string :=
  "No results found for the given query.".

(** The excerpt of a [text] field: cut at 2000 characters and marked when
    it was longer. *)
Definition excerpt (text : pyval) : outcome string :=
  match len text with
  | Raise e => Raise e
  | Ok n =>
      if (2000 <? n)%N then
        match slice 2000 text with
        | Raise e => Raise e
        | Ok s => Ok (s ++ "...")
        end
      else Ok (str text)
  end.

(** The four header lines and the excerpt, from the fields of a mapping
    (read with [get] and [in]) or of an object (read with [getattr] and
    [hasattr]). *)
Definition article_lines (f : fields) : outcome string :=
  let lines :=
    "Title: " ++ str (get "title" (PStr "N/A") f) ++ nl ++
    "URL: " ++ str (get "url" (PStr "N/A") f) ++ nl ++
    "Published: " ++ str (get "publishedDate" (PStr "N/A") f) ++ nl ++
    "Author: " ++ str (get "author" (PStr "N/A") f) ++ nl in
  match lookup "text" f with
  | None => Ok lines
  | Some text =>
      match excerpt text with
      | Raise e => Raise e
      | Ok c => Ok (lines ++ "Content excerpt:" ++ nl ++ c ++ nl ++ nl)
      end
  end.

Definition article_header (idx : Z) : string :=
  "--- Article " ++ str_of_Z (idx + 1) ++ " ---" ++ nl.

(** The body of the [try] of the per-article loop. *)
Definition format_article (idx : Z) (result : Entry) : outcome string :=
  match result with
  | EDict d =>
      match article_lines d with
      | Raise e => Raise e
      | Ok t => Ok (article_header idx ++ t)
      end
  | EObj attrs =>
      match article_lines attrs with
      | Raise e => Raise e
      | Ok t => Ok (article_header idx ++ t)
      end
  end.

Definition article_placeholder (idx : Z) : string :=
  article_header idx ++ "[Error formatting this result]" ++ nl ++ nl.

(** One turn of the per-article loop: what is appended to [formatted]. *)
Definition format_block (ir : Z * Entry) : string :=
  match format_article (fst ir) (snd ir) with
  | Ok t => t
  | Raise _ => article_placeholder (fst ir)
  end.

(** [enumerate(results)]: a [TypeError] when [results] is [None]. *)
Definition iterate (r : ResultsVal) : outcome (list Entry) :=
  match r with
  | RList l => Ok l
  | RNone => Raise "'NoneType' object is not iterable"
  end.

(** [format_search_results(search_response)]. The first [try] either
    leaves [results] ([inr]) or returns from the method ([inl]). *)
Definition format_search_results (search_response : option SearchResponse)
  : M string :=
  match search_response with
  | None => ret no_search_results
  | Some response =>
      r <- try_except
             (match response with
              | SObj (Some r) => ret (inr r)
              | SDict (Some r) => ret (inr r)
              | _ =>
                  update_progress "Unexpected search response format" PError
                                  None None ;;;
                  ret (inr (RList []))
              end)
             (fun e =>
              update_progress ("Error processing search response: " ++ e)
                              PError None None ;;;
              ret (inl "Error processing search results.")) ;;
      match r with
      | inl early => ret early
      | inr results =>
          entries <- lift (iterate results) ;;
          let formatted := map format_block (enumerate entries) in
          match formatted with
          | [] => ret no_results_for_query
          | _ => ret (join nl formatted)
          end
      end
  end.

(** ** Conversation driver *)

Definition system_prompt (cfg : Config) : string :=
  "You are a research assistant specializing in scientific literature analysis.
        Your task is to thoroughly research topics through multiple iterations, analyzing search results,
        identifying knowledge gaps, and formulating follow-up queries to deepen understanding.

        Today's date is " ++ current_date cfg ++ ".

        You have two tools at your disposal:
        1. web_search - Use this to find scientific papers on a topic, along with some of their contents.
           You can specify date ranges for your searches when needed, but only add dates if truly needed for the search.
        2. get_full_content - Use this to retrieve the full content in Markdown of a specific article when search results contain promising articles that require deeper analysis.

        Always analyze sources critically.
        ".

(** The two-tool manifest sent with the first request of an iteration. *)
Definition research_tools : list Tool :=
  [ mkTool "web_search"
      "Search for scientific papers and articles with optional date filtering"
      [ ("query", "The search query. Should ideally be under 5 words.");
        ("start_date",
         "Optional start date in ISO format (YYYY-MM-DDTHH:MM:SS.SSSZ)");
        ("end_date",
         "Optional end date in ISO format (YYYY-MM-DDTHH:MM:SS.SSSZ)") ]
      [ "query" ];
    mkTool "get_article_content"
      "Retrieve the full content of a scientific article by URL"
      [ ("url", "The URL of the article to retrieve") ]
      [ "url" ] ].

(** [initialize_conversation(user_query)]. *)
Definition initialize_conversation (user_query : string) : M unit :=
  set_messages
    [ mkMessage User
        (CText ("I want to thoroughly research: '" ++ user_query ++
                "'. Please search for relevant scientific literature on this topic.")) ].

(** The texts of the blocks of type [text], in order. *)
Fixpoint text_items (content_list : list Block) : list string :=
  match content_list with
  | [] => []
  | TextBlock t :: rest => t :: text_items rest
  | _ :: rest => text_items rest
  end.

(** [extract_text_content(content_list)]. *)
Definition extract_text_content (content_list : list Block) : M string :=
  try_except
    (ret (join nl (text_items content_list)))
    (fun e =>
     update_progress ("Failed to extract text content: " ++ e) PError
                     None None ;;;
     ret "Error extracting content from Claude's response").

(** The follow-up completion of a tool branch: no tool manifest. *)
Definition analysis_request (cfg : Config) (ms : list Message) : ModelRequest :=
  mkRequest (model cfg) 4000 (system_prompt cfg) ms None.

(** The [web_search] branch of the loop over [response.content], up to its
    [return analysis_text]. *)
Definition handle_web_search (cfg : Config) (w : World)
    (response : list Block) (input : fields) (id : string) : M string :=
  let search_query := get "query" (PStr EmptyString) input in
  let start_date := get "start_date" PNone input in
  let end_date := get "end_date" PNone input in
  let tool_use_id := id in
  let date_range_str :=
    if truthy start_date || truthy end_date then
      " with date range: " ++
      str (if truthy start_date then start_date else PStr "any") ++ " to " ++
      str (if truthy end_date then end_date else PStr "present")
    else EmptyString in
  update_progress
    ("Claude is searching for: '" ++ str search_query ++ "'" ++ date_range_str)
    PSearch None None ;;;
  append_message (mkMessage Assistant (CBlocks response)) ;;;
  search_results <- search_with_exa cfg w search_query None start_date end_date ;;
  formatted_results <- format_search_results search_results ;;
  result_count <-
    match search_results with
    | None => ret 0%N
    | Some r => lift (count_results r)
    end ;;
  update_progress
    ("Found " ++ str_of_N result_count ++ " papers. Claude is analyzing...")
    PInfo None None ;;;
  append_message (mkMessage User (CToolResult tool_use_id formatted_results)) ;;;
  update_progress "Claude is analyzing search results..." PInfo None None ;;;
  ms <- gets messages ;;
  analysis_response <- external (fun t => claude w t (analysis_request cfg ms)) ;;
  analysis_text <- extract_text_content analysis_response ;;
  append_message (mkMessage Assistant (CBlocks analysis_response)) ;;;
  ret analysis_text.

(** The [get_article_content] branch, up to its [return analysis_text]. *)
Definition handle_get_article_content (cfg : Config) (w : World)
    (response : list Block) (input : fields) (id : string) : M string :=
  let article_url := get "url" (PStr EmptyString) input in
  let tool_use_id := id in
  update_progress "Claude is retrieving full article content..." PContent
                  None None ;;;
  append_message (mkMessage Assistant (CBlocks response)) ;;;
  article_content <- get_full_content w article_url ;;
  update_progress "Article retrieved. Claude is analyzing..." PInfo None None ;;;
  append_message (mkMessage User (CToolResult tool_use_id article_content)) ;;;
  update_progress "Claude is analyzing article content..." PInfo None None ;;;
  ms <- gets messages ;;
  analysis_response <- external (fun t => claude w t (analysis_request cfg ms)) ;;
  analysis_text <- extract_text_content analysis_response ;;
  append_message (mkMessage Assistant (CBlocks analysis_response)) ;;;
  ret analysis_text.

(** [for content_item in response.content: ...]: [Some] text when a branch
    returned from the method, [None] when the loop ran to its end (in which
    case [tool_use_detected] is still [False], since both branches that set
    it return). *)
Fixpoint dispatch (cfg : Config) (w : World) (response items : list Block)
  : M (option string) :=
  match items with
  | [] => ret None
  | content_item :: rest =>
      match content_item with
      | ToolUse name input id =>
          if String.eqb name "web_search" then
            analysis_text <- handle_web_search cfg w response input id ;;
            ret (Some analysis_text)
          else if String.eqb name "get_article_content" then
            analysis_text <- handle_get_article_content cfg w response input id ;;
            ret (Some analysis_text)
          else dispatch cfg w response rest
      | _ => dispatch cfg w response rest
      end
  end.

(** The body of the [try] of [run_research_iteration]. *)
Definition run_research_iteration_body (cfg : Config) (w : World) : M string :=
  update_progress "Requesting Claude's analysis..." PInfo None None ;;;
  ms <- gets messages ;;
  response <-
    external (fun t =>
      claude w t
        (mkRequest (model cfg) 4000 (system_prompt cfg) ms
                   (Some research_tools))) ;;
  claude_initial_response <- extract_text_content response ;;
  update_progress "Claude is analyzing the research topic..." PInfo
                  None None ;;;
  returned <- dispatch cfg w response response ;;
  match returned with
  | Some analysis_text => ret analysis_text
  | None =>
      update_progress "Claude is formulating research strategy..." PInfo
                      None None ;;;
      append_message (mkMessage Assistant (CBlocks response)) ;;;
      ret claude_initial_response
  end.

(** [run_research_iteration()]. *)
Definition run_research_iteration (cfg : Config) (w : World) : M string :=
  try_except
    (run_research_iteration_body cfg w)
    (fun e =>
     update_progress ("Error during research iteration: " ++ e) PError
                     None None ;;;
     ret ("An error occurred: " ++ e)).

(** ** Research loop controller *)

(** [l[-1]]: an [IndexError] on the empty list. *)
Fixpoint last_item {A : Type} (l : list A) : outcome A :=
  match l with
  | [] => Raise "list index out of range"
  | [x] => Ok x
  | _ :: l' => last_item l'
  end.

Definition next_prompt (user_query : string) : string :=
  "
                Based on what you've learned so far about " ++ user_query ++ ", please:

                1. Identify a key gap in our current understanding
                2. Formulate a specific follow-up search query to address this gap or retrieve a full article if needed
                   (You can specify date ranges for your search if relevant)
                3. Execute the search or content retrieval and analyze the results
                ".

Definition final_prompt (user_query : string) (max_iterations : Z) : string :=
  "
        We've completed " ++ str_of_Z max_iterations ++ " iterations of research on " ++ dq ++ user_query ++ dq ++ ".

        Please synthesize all the information you've gathered into a lengthy comprehensive research report (at least five pages).
        This should not be a summary but rather a comprehensive literature review.

        You must include proper citations to the sources you've used.

        Your report should:
        1. Have a clear introduction stating the research question
        2. Organize findings into logical sections with headings
        3. Provide detailed, lengthy descriptions about the current state of knowledge with numbers, evidence, and quotes from papers
        4. Identify remaining questions or areas for future research
        5. Conclude with key takeaways
        6. Have a complete untruncated references list
        7. Be in Markdown format with all sources linked using something like [source](link)
        ".

(** The records attributed to iteration [i] (0-based): the whole histories
    for the first one, and afterwards the records whose timestamp is greater
    than the timestamp of the last stored iteration. *)
Definition iteration_slices (i : Z)
  : M (list SearchRecord * list FetchRecord) :=
  if (i =? 0)%Z then
    iteration_searches <- gets search_history ;;
    iteration_content_retrievals <- gets content_retrieval_history ;;
    ret (iteration_searches, iteration_content_retrievals)
  else
    its <- gets research_iterations ;;
    last <- lift (last_item its) ;;
    let last_iteration_time := it_timestamp last in
    sh <- gets search_history ;;
    ch <- gets content_retrieval_history ;;
    ret (filter (fun s => str_gt (s_timestamp s) last_iteration_time) sh,
         filter (fun c => str_gt (c_timestamp c) last_iteration_time) ch).

(** The body of [for i in range(max_iterations)]. *)
Definition research_step (cfg : Config) (w : World) (user_query : string)
    (max_iterations : Z) (i : Z) : M unit :=
  update_progress
    ("Research iteration " ++ str_of_Z (i + 1) ++ "/" ++ str_of_Z max_iterations)
    PIteration (Some (i + 1)%Z) (Some max_iterations) ;;;
  claude_response <- run_research_iteration cfg w ;;
  current_time <- now w ;;
  slices <- iteration_slices i ;;
  append_iteration
    (mkIteration (i + 1) user_query claude_response (fst slices) (snd slices)
                 current_time) ;;;
  if (i <? max_iterations - 1)%Z then
    append_message (mkMessage User (CText (next_prompt user_query)))
  else ret tt.

(** [run_research_loop] from its start to the end of its [for] loop. *)
Definition run_iterations (cfg : Config) (w : World) (user_query : string)
    (max_iterations : Z) : M unit :=
  update_progress ("Starting research on: '" ++ user_query ++ "'") PInfo
                  None None ;;;
  update_progress
    ("Planning " ++ str_of_Z max_iterations ++ " research iterations") PInfo
    None None ;;;
  initialize_conversation user_query ;;;
  for_each (range max_iterations) (research_step cfg w user_query max_iterations).

Definition final_report_error (e : string) : string :=
  "An error occurred while generating the final report: " ++ e.

(** [run_research_loop] from the end of its [for] loop: the final prompt
    and the synthesis under [try]. *)
Definition final_synthesis (cfg : Config) (w : World) (user_query : string)
    (max_iterations : Z) : M (string * ResearchData) :=
  update_progress "Generating comprehensive research report..." PFinalReport
                  None None ;;;
  append_message
    (mkMessage User (CText (final_prompt user_query max_iterations))) ;;;
  try_except
    (ms <- gets messages ;;
     final_report_response <-
       external (fun t =>
         claude w t (mkRequest (model cfg) 8192 (system_prompt cfg) ms None)) ;;
     report <- extract_text_content final_report_response ;;
     its <- gets research_iterations ;;
     sh <- gets search_history ;;
     ch <- gets content_retrieval_history ;;
     t <- now w ;;
     let research_data :=
       mkResearchData user_query (Some (model cfg)) its sh ch (Some report)
                      None t in
     update_progress "Research complete!" PInfo None None ;;;
     ret (report, research_data))
    (fun e =>
     update_progress ("Error generating final report: " ++ e) PError
                     None None ;;;
     its <- gets research_iterations ;;
     sh <- gets search_history ;;
     ch <- gets content_retrieval_history ;;
     t <- now w ;;
     ret (final_report_error e,
          mkResearchData user_query None its sh ch None (Some e) t)).

(** [run_research_loop(user_query, max_iterations)]. *)
Definition run_research_loop (cfg : Config) (w : World) (user_query : string)
    (max_iterations : Z) : M (string * ResearchData) :=
  run_iterations cfg w user_query max_iterations ;;;
  final_synthesis cfg w user_query max_iterations.

(** ** Notions used by the statements *)

(** The clock answers with strictly greater strings at later readings. *)
Definition strictly_increasing (w : World) : Prop :=
  forall a b : nat, a < b ->
    String.ltb (now_isoformat w a) (now_isoformat w b) = true.

(** [stamped w lo hi l]: the timestamps [l] were read from the clock of [w]
    at readings [lo <= t1 < t2 < ... < hi], in this order. *)
Inductive stamped (w : World) : nat -> nat -> list string -> Prop :=
| stamped_nil : forall lo hi, lo <= hi -> stamped w lo hi []
| stamped_cons : forall lo hi t l,
    lo <= t -> stamped w (S t) hi l ->
    stamped w lo hi (now_isoformat w t :: l).

(** [step w st st']: from [st] to [st'] the iteration ledger is untouched
    and each history grew at its end, by records stamped at readings of the
    clock made in between. *)
Record step (w : World) (st st' : State) : Prop := mkStep {
  step_iterations : research_iterations st' = research_iterations st;
  step_tick : tick st <= tick st';
  step_searches : exists ns,
    search_history st' = (search_history st ++ ns)%list /\
    stamped w (tick st) (tick st') (map s_timestamp ns);
  step_retrievals : exists nc,
    content_retrieval_history st' = (content_retrieval_history st ++ nc)%list /\
    stamped w (tick st) (tick st') (map c_timestamp nc) }.

(** [keeps R m]: whatever the outcome of [m], the states before and after
    it are related by [R]. *)
Definition keeps {A : Type} (R : State -> State -> Prop) (m : M A) : Prop :=
  forall st, R st (snd (m st)).

(** [returns m]: [m] raises in no state. *)
Definition returns {A : Type} (m : M A) : Prop :=
  forall st, exists a, fst (m st) = Ok a.

(** A state in which nothing was recorded yet, as [__init__] leaves it. *)
Definition fresh (st : State) : Prop :=
  research_iterations st = [] /\ search_history st = [] /\
  content_retrieval_history st = [].

(** The ledger after [k] turns of the loop: the slices of the iterations,
    put end to end, are the two histories; and once an iteration is stored,
    every record of the histories was stamped before the last iteration
    was. *)
Definition ledger_ok (w : World) (k : nat) (st : State) : Prop :=
  concat (map it_search_queries (research_iterations st)) = search_history st /\
  concat (map it_content_retrievals (research_iterations st)) =
    content_retrieval_history st /\
  match k with
  | O => fresh st
  | S _ =>
      exists last tl,
        last_item (research_iterations st) = Ok last /\
        it_timestamp last = now_isoformat w tl /\
        tl < tick st /\
        stamped w 0 tl (map s_timestamp (search_history st)) /\
        stamped w 0 tl (map c_timestamp (content_retrieval_history st))
  end.

(** The keyword arguments that [search_with_exa] builds. *)
Definition search_params_of (cfg : Config) (query : pyval)
    (num_results : option Z) (start_date end_date : pyval) : SearchParams :=
  mkSearchParams query "keyword" "research paper"
    (match num_results with
     | None => results_per_search cfg
     | Some n => n
     end) 5000
    (if truthy start_date then Some start_date else None)
    (if truthy end_date then Some end_date else None).

(** The request of the final synthesis, made in state [st]: the conversation
    so far, closed by the final prompt; a larger budget; no tool manifest. *)
Definition synthesis_request (cfg : Config) (user_query : string)
    (max_iterations : Z) (st : State) : ModelRequest :=
  mkRequest (model cfg) 8192 (system_prompt cfg)
    (messages st ++ [mkMessage User (CText (final_prompt user_query max_iterations))])
    None.

(** The first request of an iteration, made in state [st]: the conversation
    so far and the two-tool manifest. *)
Definition iteration_request (cfg : Config) (st : State) : ModelRequest :=
  mkRequest (model cfg) 4000 (system_prompt cfg) (messages st)
            (Some research_tools).

(** The [results] of a search response, when it has any. *)
Definition response_results (r : SearchResponse) : option ResultsVal :=
  match r with
  | SObj x => x
  | SDict x => x
  end.

(** A null input, or a response with no entry: its [results] are the empty
    list, or it has none. *)
Definition null_or_empty (r : option SearchResponse) : bool :=
  match r with
  | None => true
  | Some response =>
      match response_results response with
      | None => true
      | Some (RList []) => true
      | Some _ => false
      end
  end.

(** A block of type [tool_use] that names a tool of the manifest: the blocks
    on which [dispatch] acts. *)
Definition is_tool_invocation (b : Block) : bool :=
  match b with
  | ToolUse name _ _ =>
      String.eqb name "web_search" || String.eqb name "get_article_content"
  | _ => false
  end.

(** The number of tool-result messages in a conversation. *)
Fixpoint tool_results (ms : list Message) : list (string * string) :=
  match ms with
  | [] => []
  | mkMessage _ (CToolResult id c) :: rest => (id, c) :: tool_results rest
  | _ :: rest => tool_results rest
  end.

(** The state in which the driver is called at turn [i] of the loop: the
    turn has been announced on the progress log. *)
Definition announced (max_iterations i : Z) (st : State) : State :=
  snd (update_progress
         ("Research iteration " ++ str_of_Z (i + 1) ++ "/" ++
            str_of_Z max_iterations)
         PIteration (Some (i + 1)%Z) (Some max_iterations) st).

(** ** Example inputs *)

Fixpoint nines (n : nat) : string :=
  match n with
  | O => EmptyString
  | S n' => String "9" (nines n')
  end.

(** A clock that reads a longer fraction of the second each time. *)
Definition example_clock (n : nat) : string :=
  "2025-01-01T00:00:00." ++ nines n.

Fixpoint copies (n : nat) (c : ascii) : string :=
  match n with
  | O => EmptyString
  | S n' => String c (copies n' c)
  end.

(** A document of 150,000 characters. *)
Definition example_document : string := copies (N.to_nat 150000) "a".

Definition example_good_entry : Entry :=
  EDict [("title", PStr "Metformin and the liver");
         ("url", PStr "https://example.org/a");
         ("text", PStr "Metformin is a biguanide.")].

(** An entry whose [text] is [None]: [len] fails on it. *)
Definition example_bad_entry : Entry :=
  EObj [("title", PStr "Untitled"); ("text", PNone)].

(** A response with a text block and two tool invocations. *)
Definition example_response : list Block :=
  [TextBlock "I will search first.";
   ToolUse "web_search" [("query", PStr "metformin liver")] "toolu_1";
   ToolUse "get_article_content" [("url", PStr "https://example.org/a")]
           "toolu_2"].

(** A world in which the model invokes two tools at once when it is offered
    tools, analyses when it is not, and fails on the final synthesis. *)
Definition example_world : World :=
  mkWorld example_clock
    (fun _ req =>
       match req_tools req with
       | Some _ => Ok example_response
       | None =>
           if (req_max_tokens req =? 8192)%Z then Raise "overloaded"
           else Ok [TextBlock "analysis"]
       end)
    (fun _ _ => Ok (SObj (Some (RList [example_bad_entry; example_good_entry]))))
    (fun _ _ => Ok (FObj (Some (PStr example_document)) None)).

(** A world in which every service fails. *)
Definition failing_world : World :=
  mkWorld example_clock
    (fun _ _ => Raise "overloaded")
    (fun _ _ => Raise "connection refused")
    (fun _ _ => Raise "timeout").

Definition example_config : Config :=
  mkConfig "claude-3-5-sonnet-latest" 5 "Wednesday, January 01, 2025".

Definition example_query : string := "effects of metformin on liver health".

(** ** Notions used by the further statements *)

Definition other_role (r : Role) : Role :=
  match r with
  | User => Assistant
  | Assistant => User
  end.

Definition role_eqb (a b : Role) : bool :=
  match a, b with
  | User, User => true
  | Assistant, Assistant => true
  | _, _ => false
  end.

(** The messages take turns: their roles alternate, the first one being
    [expected]. *)
Fixpoint alternates (expected : Role) (ms : list Message) : bool :=
  match ms with
  | [] => true
  | m :: rest =>
      role_eqb (role m) expected && alternates (other_role expected) rest
  end.

(** The role whose turn it is after [ms], when it was the turn of [expected]
    before. *)
Fixpoint turn_after (expected : Role) (ms : list Message) : Role :=
  match ms with
  | [] => expected
  | _ :: rest => turn_after (other_role expected) rest
  end.

(** The model answers every request. *)
Definition never_fails (w : World) : Prop :=
  forall t req, exists response, claude w t req = Ok response.

(** The [iteration] events of a progress log, each with its iteration
    number and its total. *)
Fixpoint iteration_events (evs : list ProgressEvent)
  : list (option Z * option Z) :=
  match evs with
  | [] => []
  | e :: rest =>
      match ev_type e with
      | PIteration =>
          (ev_iteration_num e, ev_total_iterations e) :: iteration_events rest
      | _ => iteration_events rest
      end
  end.

(** From [st] to [st'] no [iteration] event was logged. *)
Definition same_turns (st st' : State) : Prop :=
  iteration_events (progress st') = iteration_events (progress st).

(** The message with which [initialize_conversation] seeds a run. *)
Definition initial_message (user_query : string) : Message :=
  mkMessage User
    (CText ("I want to thoroughly research: '" ++ user_query ++
            "'. Please search for relevant scientific literature on this topic.")).

(** The members of a search result, whichever its shape. *)
Definition entry_fields (result : Entry) : fields :=
  match result with
  | EDict d => d
  | EObj attrs => attrs
  end.

Definition is_str (v : pyval) : bool :=
  match v with
  | PStr _ => true
  | _ => false
  end.

(** The input is a response whose [results] is [None]. *)
Definition results_is_none (r : option SearchResponse) : bool :=
  match r with
  | Some response =>
      match response_results response with
      | Some RNone => true
      | _ => false
      end
  | None => false
  end.

Definition is_text_block (b : Block) : bool :=
  match b with
  | TextBlock _ => true
  | _ => false
  end.

(** The provider fails every search. *)
Definition searches_always_fail (w : World) : Prop :=
  forall t params, exists e, exa w t params = Raise e.

(** Every record of the search history carries an error and counts 0
    results. *)
Definition all_searches_failed (st : State) : Prop :=
  Forall (fun r => s_error r <> None /\ s_num_results r = 0%N)
         (search_history st).

(** From [st] to [st'] no search was recorded as a success. *)
Definition keeps_failures (st st' : State) : Prop :=
  all_searches_failed st -> all_searches_failed st'.

(** ** The statistics panel of [main.py] *)

(** [len(research_data.get('iterations', []))]. *)
Definition metric_iterations (research_data : ResearchData) : N :=
  N.of_nat (length (rd_iterations research_data)).

(** [sum(s.get('num_results', 0) for s in
    research_data.get('search_history', []))]. *)
Definition metric_papers_found (research_data : ResearchData) : N :=
  fold_left N.add (map s_num_results (rd_search_history research_data)) 0%N.

(** [len(research_data.get('content_retrieval_history', []))]. *)
Definition metric_articles_retrieved (research_data : ResearchData) : N :=
  N.of_nat (length (rd_content_retrieval_history research_data)).

(** [len(research_data.get('search_history', []))]. *)
Definition metric_searches (research_data : ResearchData) : N :=
  N.of_nat (length (rd_search_history research_data)).

(** ** The session state of [main.py] *)

(** The values that the script stores under the keys of
    [st.session_state]: a boolean, an integer, the list of debug messages,
    or [None] (which also stands for the report and the research data that
    are still to come). *)
Inductive SessionValue : Type :=
| SBool (b : bool)
| SInt (z : Z)
| SList (l : list string)
| SNone.

(** [st.session_state], by key. *)
Definition Session := list (string * SessionValue).

(** [key in st.session_state] and [st.session_state[key]]. *)
Fixpoint get_item (key : string) (session : Session) : option SessionValue :=
  match session with
  | [] => None
  | (k, v) :: rest => if String.eqb key k then Some v else get_item key rest
  end.

(** [st.session_state[key] = v]. *)
Fixpoint set_item (key : string) (v : SessionValue) (session : Session)
  : Session :=
  match session with
  | [] => [(key, v)]
  | (k, x) :: rest =>
      if String.eqb key k then (k, v) :: rest
      else (k, x) :: set_item key v rest
  end.

(** [sub in s], of two strings. *)
Fixpoint contains (sub s : string) : bool :=
  if String.prefix sub s then true
  else
    match s with
    | EmptyString => false
    | String _ s' => contains sub s'
    end.

(** The keys and defaults of the block [if key not in st.session_state:
    st.session_state.key = default] at the head of the script. *)
Definition session_defaults : list (string * SessionValue) :=
  [("research_started", SBool false);
   ("research_complete", SBool false);
   ("research_data", SNone);
   ("final_report", SNone);
   ("current_iteration", SInt 0);
   ("debug_messages", SList []);
   ("error_occurred", SBool false);
   ("research_in_progress", SBool false)].

(** The head of the script: each key that is missing gets its default. *)
Definition initialize_session (session : Session) : Session :=
  fold_left
    (fun s kd =>
       match get_item (fst kd) s with
       | Some _ => s
       | None => set_item (fst kd) (snd kd) s
       end)
    session_defaults session.

(** The keys that the "New Research" button clears. *)
Definition cleared_keys : list string :=
  ["research_started"; "research_complete"; "research_data"; "final_report";
   "current_iteration"; "debug_messages"; "error_occurred";
   "research_in_progress"].

(** The value that the button gives to [key]. *)
Definition cleared_value (key : string) : SessionValue :=
  if contains "started" key || contains "complete" key ||
     contains "occurred" key || contains "progress" key
  then SBool false
  else if String.eqb key "current_iteration" then SInt 0
  else if String.eqb key "debug_messages" then SList []
  else SNone.

(** The loop of the "New Research" button. *)
Definition new_research (session : Session) : Session :=
  fold_left (fun s key => set_item key (cleared_value key) s)
            cleared_keys session.

(** ** Further example inputs *)

(** A world in which the model invokes two tools at once when it is offered
    tools and answers in plain text when it is not, the final synthesis
    included; the search finds one paper and the scrape a short page. *)
Definition steady_world : World :=
  mkWorld example_clock
    (fun _ req =>
       match req_tools req with
       | Some _ => Ok example_response
       | None => Ok [TextBlock "analysis"]
       end)
    (fun _ _ => Ok (SDict (Some (RList [example_good_entry]))))
    (fun _ _ =>
       Ok (FDict (Some (DDict [("markdown", PStr "# Metformin")])) None)).

(** A response in plain text that also holds a [tool_use] block naming no
    tool of the manifest. *)
Definition plain_response : list Block :=
  [TextBlock "Nothing to search.";
   ToolUse "get_full_content" [("url", PStr "https://example.org/a")]
           "toolu_9";
   TextBlock "Done."].

(** A world whose model never invokes a tool of the manifest, whose search
    answers with [results] set to [None] and whose scrape answers with
    [markdown] set to [None]. *)
Definition odd_world : World :=
  mkWorld example_clock
    (fun _ _ => Ok plain_response)
    (fun _ _ => Ok (SDict (Some RNone)))
    (fun _ _ => Ok (FObj (Some PNone) None)).

(** A world whose search and scrape answer with objects that have none of
    the members looked for. *)
Definition blank_world : World :=
  mkWorld example_clock
    (fun _ _ => Raise "overloaded")
    (fun _ _ => Ok (SObj None))
    (fun _ _ => Ok (FObj None (Some DOther))).

(** A world whose model invokes tools while both providers are down. *)
Definition offline_world : World :=
  mkWorld example_clock (claude steady_world)
    (fun _ _ => Raise "connection refused")
    (fun _ _ => Raise "timeout").

(** ** The monad: composition rules *)

Section Rules.

Variable R : State -> State -> Prop.
Hypothesis R_refl : forall st, R st st.
Hypothesis R_trans : forall a b c, R a b -> R b c -> R a c.

Lemma keeps_ret {A} (a : A) : keeps R (ret a).
Proof. intro st. apply R_refl. Qed.

Lemma keeps_lift {A} (o : outcome A) : keeps R (lift o).
Proof. intro st. apply R_refl. Qed.

Lemma keeps_gets {A} (f : State -> A) : keeps R (gets f).
Proof. intro st. apply R_refl. Qed.

Lemma keeps_bind {A B} (m : M A) (k : A -> M B) :
  keeps R m -> (forall a, keeps R (k a)) -> keeps R (bind m k).
Proof.
  intros Hm Hk st. unfold bind.
  specialize (Hm st). destruct (m st) as [[a|e] st1]; cbn [snd] in *.
  - eapply R_trans; [exact Hm | apply Hk].
  - exact Hm.
Qed.

Lemma keeps_try_except {A} (body : M A) (handler : string -> M A) :
  keeps R body -> (forall e, keeps R (handler e)) ->
  keeps R (try_except body handler).
Proof.
  intros Hb Hh st. unfold try_except.
  specialize (Hb st). destruct (body st) as [[a|e] st1]; cbn [snd] in *.
  - exact Hb.
  - eapply R_trans; [exact Hb | apply Hh].
Qed.

Lemma keeps_for_each {A} (l : list A) (body : A -> M unit) :
  (forall x, keeps R (body x)) -> keeps R (for_each l body).
Proof.
  intros Hb. induction l as [|x l IH]; cbn [for_each].
  - apply keeps_ret.
  - apply keeps_bind; [apply Hb | intros _; exact IH].
Qed.

End Rules.

Lemma returns_ret {A} (a : A) : returns (ret a).
Proof. intro st. exists a. reflexivity. Qed.

Lemma returns_gets {A} (f : State -> A) : returns (gets f).
Proof. intro st. eexists. reflexivity. Qed.

Lemma returns_modify (f : State -> State) : returns (modify f).
Proof. intro st. exists tt. reflexivity. Qed.

Lemma returns_bind {A B} (m : M A) (k : A -> M B) :
  returns m -> (forall a, returns (k a)) -> returns (bind m k).
Proof.
  intros Hm Hk st. unfold bind.
  destruct (Hm st) as [a Ha]. destruct (m st) as [o st1]; cbn [fst] in Ha.
  subst o. apply Hk.
Qed.

Lemma returns_try_except {A} (body : M A) (handler : string -> M A) :
  (forall e, returns (handler e)) -> returns (try_except body handler).
Proof.
  intros Hh st. unfold try_except.
  destruct (body st) as [[a|e] st1].
  - exists a. reflexivity.
  - apply Hh.
Qed.

Lemma returns_for_each {A} (l : list A) (body : A -> M unit) :
  (forall x, returns (body x)) -> returns (for_each l body).
Proof.
  intros Hb. induction l as [|x l IH]; cbn [for_each].
  - apply returns_ret.
  - apply returns_bind; [apply Hb | intros _; exact IH].
Qed.

(** ** Stamps and steps *)

Lemma stamped_le w lo hi l : stamped w lo hi l -> lo <= hi.
Proof. induction 1; lia. Qed.

Lemma stamped_weaken w lo hi l :
  stamped w lo hi l -> forall lo' hi', lo' <= lo -> hi <= hi' ->
  stamped w lo' hi' l.
Proof.
  induction 1 as [lo hi Hle | lo hi t l Hlo Hl IH]; intros lo' hi' H1 H2.
  - constructor. lia.
  - constructor; [lia | apply IH; lia].
Qed.

Lemma stamped_app w lo mid hi l1 l2 :
  stamped w lo mid l1 -> stamped w mid hi l2 -> stamped w lo hi (l1 ++ l2).
Proof.
  induction 1 as [lo mid Hle | lo mid t l Hlo Hl IH]; intros H2; cbn [app].
  - eapply stamped_weaken; [exact H2 | lia | lia].
  - constructor; [exact Hlo | apply IH; exact H2].
Qed.

Lemma stamped_single w lo hi t :
  lo <= t < hi -> stamped w lo hi [now_isoformat w t].
Proof. intros [H1 H2]. constructor; [exact H1 | constructor; lia]. Qed.

Lemma step_refl w st : step w st st.
Proof.
  constructor; [reflexivity | lia | exists [] | exists []];
    (split; [now rewrite app_nil_r | constructor; lia]).
Qed.

Lemma step_trans w a b c : step w a b -> step w b c -> step w a c.
Proof.
  intros [Hi1 Ht1 (ns1 & Hs1 & Hn1) (nc1 & Hc1 & Hm1)]
         [Hi2 Ht2 (ns2 & Hs2 & Hn2) (nc2 & Hc2 & Hm2)].
  constructor.
  - congruence.
  - lia.
  - exists (ns1 ++ ns2)%list. split.
    + rewrite Hs2, Hs1. now rewrite app_assoc.
    + rewrite map_app. eapply stamped_app; eassumption.
  - exists (nc1 ++ nc2)%list. split.
    + rewrite Hc2, Hc1. now rewrite app_assoc.
    + rewrite map_app. eapply stamped_app; eassumption.
Qed.

(** A state change that leaves ledger and histories alone and does not turn
    the clock back is a step. *)
Lemma step_frame w st st' :
  research_iterations st' = research_iterations st ->
  search_history st' = search_history st ->
  content_retrieval_history st' = content_retrieval_history st ->
  tick st <= tick st' ->
  step w st st'.
Proof.
  intros Hi Hs Hc Ht.
  constructor; [exact Hi | exact Ht | exists [] | exists []];
    (split; [now rewrite app_nil_r | constructor; exact Ht]).
Qed.

Lemma keeps_update_progress w msg ty a b :
  keeps (step w) (update_progress msg ty a b).
Proof. intro st. apply step_frame; cbn; auto. Qed.

Lemma keeps_append_message w m : keeps (step w) (append_message m).
Proof. intro st. apply step_frame; cbn; auto. Qed.

Lemma keeps_set_messages w ms : keeps (step w) (set_messages ms).
Proof. intro st. apply step_frame; cbn; auto. Qed.

Lemma keeps_external w {A} (f : nat -> outcome A) :
  keeps (step w) (external f).
Proof. intro st. apply step_frame; cbn; auto. Qed.

Lemma keeps_now w : keeps (step w) (now w).
Proof. apply keeps_external. Qed.

Lemma returns_update_progress msg ty a b :
  returns (update_progress msg ty a b).
Proof. apply returns_modify. Qed.

Lemma returns_append_message m : returns (append_message m).
Proof. apply returns_modify. Qed.

Lemma returns_now w : returns (now w).
Proof. intro st. eexists. reflexivity. Qed.

(** Decomposition of a computation into its parts, rule by rule. *)
Ltac keeps_step w :=
  first
    [ apply (keeps_bind (step w) (step_trans w)); [ | intro ]
    | apply (keeps_try_except (step w) (step_trans w)); [ | intro ]
    | apply (keeps_ret (step w) (step_refl w))
    | apply (keeps_lift (step w) (step_refl w))
    | apply (keeps_gets (step w) (step_refl w))
    | apply keeps_update_progress
    | apply keeps_append_message
    | apply keeps_set_messages
    | apply keeps_now
    | apply keeps_external ].

Ltac returns_step :=
  first
    [ apply returns_bind; [ | intro ]
    | apply returns_try_except; intro
    | apply returns_ret
    | apply returns_gets
    | apply returns_update_progress
    | apply returns_append_message
    | apply returns_now
    | apply returns_modify ].

(** ** The search adapter *)

Ltac run_monad :=
  cbv beta iota zeta delta
    [bind ret raise try_except lift modify gets external now
     update_progress append_message set_messages append_iteration
     append_search append_retrieval];
  cbn [tick messages research_iterations search_history
       content_retrieval_history progress fst snd].

Lemma search_with_exa_raises cfg w query num_results start_date end_date st e :
  exa w (tick st)
      (search_params_of cfg query num_results start_date end_date) = Raise e ->
  search_with_exa cfg w query num_results start_date end_date st =
  (Ok None,
   mkState (messages st) (research_iterations st)
     (search_history st ++
        [mkSearchRecord query (now_isoformat w (S (tick st))) (Some e) 0
                        start_date end_date])
     (content_retrieval_history st)
     (progress st ++
        [mkEvent ("Searching for: " ++ str query) PSearch None None] ++
        [mkEvent ("Search error: " ++ e) PError None None])
     (S (S (tick st)))).
Proof.
  intros He. unfold search_with_exa, search_params_of in *. run_monad.
  rewrite He. run_monad. rewrite <- app_assoc. reflexivity.
Qed.

(** Whatever the provider does, a search returns, appends exactly one
    record, stamped at the last reading of the clock it made, and what it
    returns is [None] or a response that can be counted. *)
Lemma search_with_exa_spec cfg w query num_results start_date end_date st :
  exists r rec t evs,
    search_with_exa cfg w query num_results start_date end_date st =
    (Ok r,
     mkState (messages st) (research_iterations st)
       (search_history st ++ [rec]) (content_retrieval_history st)
       (progress st ++ evs) (S t)) /\
    s_timestamp rec = now_isoformat w t /\ tick st < t /\
    s_query rec = query /\
    (r = None \/
     exists response n, r = Some response /\ count_results response = Ok n).
Proof.
  unfold search_with_exa. run_monad.
  destruct (exa w (tick st) _) as [response|e]; run_monad.
  - destruct (count_results response) as [n|e] eqn:Hn; run_monad.
    + do 4 eexists. rewrite <- app_assoc. split; [reflexivity|].
      cbn. repeat split; try lia. right. eauto.
    + do 4 eexists. rewrite <- app_assoc. split; [reflexivity|].
      cbn. repeat split; try lia. now left.
  - do 4 eexists. rewrite <- app_assoc. split; [reflexivity|].
    cbn. repeat split; try lia. now left.
Qed.

Lemma returns_search_with_exa cfg w query num_results start_date end_date :
  returns (search_with_exa cfg w query num_results start_date end_date).
Proof.
  intro st.
  destruct (search_with_exa_spec cfg w query num_results start_date end_date st)
    as (r & rec & t & evs & Heq & _).
  rewrite Heq. cbn [fst]. eauto.
Qed.

Lemma keeps_search_with_exa cfg w query num_results start_date end_date :
  keeps (step w)
        (search_with_exa cfg w query num_results start_date end_date).
Proof.
  intro st.
  destruct (search_with_exa_spec cfg w query num_results start_date end_date st)
    as (r & rec & t & evs & Heq & Hts & Ht & _).
  rewrite Heq. cbn [snd]. constructor; cbn.
  - reflexivity.
  - lia.
  - exists [rec]. split; [reflexivity|]. cbn. rewrite Hts.
    apply stamped_single. lia.
  - exists []. split; [now rewrite app_nil_r | constructor; lia].
Qed.

(** ** The fetch adapter *)

(** A fetch returns whatever the provider does, and appends exactly one
    record, stamped at the last reading of the clock it made. *)
Lemma get_full_content_spec w url st :
  exists r rec t evs,
    get_full_content w url st =
    (Ok r,
     mkState (messages st) (research_iterations st) (search_history st)
       (content_retrieval_history st ++ [rec]) (progress st ++ evs) (S t)) /\
    c_timestamp rec = now_isoformat w t /\ tick st < t /\ c_url rec = url.
Proof.
  unfold get_full_content. run_monad.
  destruct (firecrawl w (tick st) url) as [response|e]; run_monad.
  - destruct (scraped_markdown response) as [ |s|z]; cbn [len slice]; run_monad;
      do 4 eexists; rewrite <- app_assoc; (split; [reflexivity|]);
      cbn; repeat split; lia.
  - do 4 eexists. rewrite <- app_assoc. split; [reflexivity|].
    cbn. repeat split; lia.
Qed.

Lemma returns_get_full_content w url : returns (get_full_content w url).
Proof.
  intro st.
  destruct (get_full_content_spec w url st) as (r & rec & t & evs & Heq & _).
  rewrite Heq. cbn [fst]. eauto.
Qed.

Lemma keeps_get_full_content w url : keeps (step w) (get_full_content w url).
Proof.
  intro st.
  destruct (get_full_content_spec w url st)
    as (r & rec & t & evs & Heq & Hts & Ht & _).
  rewrite Heq. cbn [snd]. constructor; cbn.
  - reflexivity.
  - lia.
  - exists []. split; [now rewrite app_nil_r | constructor; lia].
  - exists [rec]. split; [reflexivity|]. cbn. rewrite Hts.
    apply stamped_single. lia.
Qed.

(** ** The result formatter *)

Lemma keeps_format_search_results w r : keeps (step w) (format_search_results r).
Proof.
  unfold format_search_results. destruct r as [response|].
  - keeps_step w.
    + keeps_step w.
      * destruct response as [[r|]|[r|]]; repeat keeps_step w.
      * repeat keeps_step w.
    + destruct a as [early|results]; [keeps_step w|].
      keeps_step w; [keeps_step w|].
      destruct (map format_block (enumerate a)); keeps_step w.
  - keeps_step w.
Qed.

(** On a response whose results are a list, the formatter leaves the state
    alone and renders block by block. *)
Lemma format_search_results_list response l st :
  response_results response = Some (RList l) ->
  format_search_results (Some response) st =
  (Ok (match map format_block (enumerate l) with
       | [] => no_results_for_query
       | _ :: _ => join nl (map format_block (enumerate l))
       end), st).
Proof.
  intros H. unfold format_search_results.
  destruct response as [x|x]; cbn [response_results] in H; subst x;
    run_monad; cbn [iterate];
    destruct (map format_block (enumerate l)); reflexivity.
Qed.

(** A response that could be counted can be formatted, and formatting
    touches the progress log only. *)
Lemma format_search_results_counted response n st :
  count_results response = Ok n ->
  exists text evs,
    format_search_results (Some response) st =
    (Ok text,
     mkState (messages st) (research_iterations st) (search_history st)
       (content_retrieval_history st) (progress st ++ evs) (tick st)).
Proof.
  intros H.
  destruct st as [ms its sh ch pr tk].
  destruct response as [[[l|]|]|[[l|]|]]; cbn in H; try discriminate.
  - rewrite (format_search_results_list (SObj (Some (RList l))) l _ eq_refl).
    eexists. exists []. cbn. now rewrite app_nil_r.
  - unfold format_search_results. run_monad. cbn. eauto.
  - rewrite (format_search_results_list (SDict (Some (RList l))) l _ eq_refl).
    eexists. exists []. cbn. now rewrite app_nil_r.
  - unfold format_search_results. run_monad. cbn. eauto.
Qed.

Lemma nth_error_combine_seq {A} (l : list A) : forall k i x,
  nth_error l i = Some x ->
  nth_error (combine (map Z.of_nat (seq k (length l))) l) i =
  Some (Z.of_nat (k + i), x).
Proof.
  induction l as [|y l IH]; intros k i x H.
  - destruct i; discriminate.
  - destruct i as [|i]; cbn in *.
    + injection H as ->. now rewrite Nat.add_0_r.
    + rewrite (IH (S k) i x H). do 3 f_equal. lia.
Qed.

Lemma nth_error_enumerate {A} (l : list A) i x :
  nth_error l i = Some x -> nth_error (enumerate l) i = Some (Z.of_nat i, x).
Proof.
  intros H. unfold enumerate, range. rewrite Nat2Z.id.
  now rewrite (nth_error_combine_seq l 0 i x H).
Qed.

Lemma length_enumerate {A} (l : list A) : length (enumerate l) = length l.
Proof.
  unfold enumerate, range. rewrite Nat2Z.id.
  rewrite length_combine, length_map, length_seq. lia.
Qed.

Lemma append_cancel_l (s a b : string) : (s ++ a = s ++ b)%string -> a = b.
Proof.
  induction s as [|c s IH]; cbn; intros H; [exact H|].
  injection H as H. auto.
Qed.

(** A rendered block is never the placeholder. *)
Lemma format_article_not_placeholder idx x t :
  format_article idx x = Ok t -> t <> article_placeholder idx.
Proof.
  assert (Hl : forall f t', article_lines f = Ok t' ->
             article_header idx ++ t' <> article_placeholder idx).
  { intros f t' H E. unfold article_placeholder in E.
    apply append_cancel_l in E. unfold article_lines in H.
    destruct (lookup "text" f) as [v|].
    - destruct (excerpt v); [|discriminate]. injection H as <-.
      cbn in E. discriminate.
    - injection H as <-. cbn in E. discriminate. }
  unfold format_article.
  destruct x as [d|attrs].
  - destruct (article_lines d) eqn:E; [|discriminate].
    intros H. injection H as <-. eapply Hl; eassumption.
  - destruct (article_lines attrs) eqn:E; [|discriminate].
    intros H. injection H as <-. eapply Hl; eassumption.
Qed.

(** ** The conversation driver *)

Lemma extract_text_content_eq content_list st :
  extract_text_content content_list st =
  (Ok (join nl (text_items content_list)), st).
Proof. reflexivity. Qed.

Lemma keeps_extract_text_content w bs : keeps (step w) (extract_text_content bs).
Proof. unfold extract_text_content. repeat keeps_step w. Qed.

Lemma tool_results_app ms1 ms2 :
  tool_results (ms1 ++ ms2) = (tool_results ms1 ++ tool_results ms2)%list.
Proof.
  induction ms1 as [|[r [s|bs|id c]] ms1 IH]; cbn; [reflexivity | | |];
    now rewrite ?IH.
Qed.

Lemma keeps_handle_web_search cfg w response input id :
  keeps (step w) (handle_web_search cfg w response input id).
Proof.
  unfold handle_web_search.
  keeps_step w; [keeps_step w|].
  keeps_step w; [keeps_step w|].
  keeps_step w; [apply keeps_search_with_exa|].
  keeps_step w; [apply keeps_format_search_results|].
  keeps_step w; [destruct a1; keeps_step w|].
  repeat keeps_step w.
Qed.

Lemma keeps_handle_get_article_content cfg w response input id :
  keeps (step w) (handle_get_article_content cfg w response input id).
Proof.
  unfold handle_get_article_content.
  keeps_step w; [keeps_step w|].
  keeps_step w; [keeps_step w|].
  keeps_step w; [apply keeps_get_full_content|].
  repeat keeps_step w.
Qed.

Lemma keeps_dispatch cfg w response items :
  keeps (step w) (dispatch cfg w response items).
Proof.
  induction items as [|item rest IH]; cbn [dispatch]; [keeps_step w|].
  destruct item as [t|name input id| ]; try exact IH.
  destruct (String.eqb name "web_search").
  { keeps_step w; [apply keeps_handle_web_search | keeps_step w]. }
  destruct (String.eqb name "get_article_content").
  { keeps_step w; [apply keeps_handle_get_article_content | keeps_step w]. }
  exact IH.
Qed.

Lemma keeps_run_research_iteration_body cfg w :
  keeps (step w) (run_research_iteration_body cfg w).
Proof.
  unfold run_research_iteration_body.
  keeps_step w; [keeps_step w|].
  keeps_step w; [keeps_step w|].
  keeps_step w; [keeps_step w|].
  keeps_step w; [apply keeps_extract_text_content|].
  keeps_step w; [keeps_step w|].
  keeps_step w; [apply keeps_dispatch|].
  destruct a4; repeat keeps_step w.
Qed.

Lemma keeps_run_research_iteration cfg w :
  keeps (step w) (run_research_iteration cfg w).
Proof.
  unfold run_research_iteration.
  keeps_step w; [apply keeps_run_research_iteration_body|].
  repeat keeps_step w.
Qed.

Lemma returns_run_research_iteration cfg w :
  returns (run_research_iteration cfg w).
Proof. unfold run_research_iteration. repeat returns_step. Qed.

(** An iteration ends in a text and a state one step away. *)
Lemma run_research_iteration_spec cfg w st :
  exists text st',
    run_research_iteration cfg w st = (Ok text, st') /\ step w st st'.
Proof.
  destruct (returns_run_research_iteration cfg w st) as [text H].
  pose proof (keeps_run_research_iteration cfg w st) as K.
  destruct (run_research_iteration cfg w st) as [o st']. cbn in H, K.
  subst o. eauto.
Qed.

(** ** The clock *)

Lemma ltb_asym (a b : string) : String.ltb a b = true -> String.ltb b a = false.
Proof.
  unfold String.ltb. rewrite (String.compare_antisym b a).
  destruct (String.compare a b); cbn; congruence.
Qed.

Lemma ltb_irrefl (a : string) : String.ltb a a = false.
Proof.
  destruct (String.ltb a a) eqn:E; [|reflexivity].
  pose proof (ltb_asym a a E). congruence.
Qed.

Lemma clock_injective w a b :
  strictly_increasing w -> now_isoformat w a = now_isoformat w b -> a = b.
Proof.
  intros Hw E.
  destruct (Nat.lt_total a b) as [H|[H|H]]; [|exact H|].
  - pose proof (Hw a b H) as L. rewrite E, ltb_irrefl in L. discriminate.
  - pose proof (Hw b a H) as L. rewrite E, ltb_irrefl in L. discriminate.
Qed.

Lemma stamped_in w lo hi l :
  stamped w lo hi l ->
  forall s, In s l -> exists t, lo <= t < hi /\ s = now_isoformat w t.
Proof.
  induction 1 as [lo hi Hle | lo hi t l Hlo Hl IH]; intros s Hin.
  - destruct Hin.
  - destruct Hin as [<-|Hin].
    + exists t. split; [|reflexivity]. apply stamped_le in Hl. lia.
    + destruct (IH s Hin) as (t' & Ht' & ->). exists t'. split; [lia|reflexivity].
Qed.

Lemma stamped_NoDup w lo hi l :
  strictly_increasing w -> stamped w lo hi l -> NoDup l.
Proof.
  intros Hw. induction 1 as [lo hi Hle | lo hi t l Hlo Hl IH].
  - constructor.
  - constructor; [|exact IH].
    intros Hin. destruct (stamped_in _ _ _ _ Hl _ Hin) as (t' & Ht' & E).
    apply (clock_injective w t t' Hw) in E. lia.
Qed.

(** Records stamped before a reading are not later than it; records stamped
    after it are. *)
Lemma filter_stamped_before {A} w (ts : A -> string) lo tl l :
  strictly_increasing w -> stamped w lo tl (map ts l) ->
  filter (fun r => str_gt (ts r) (now_isoformat w tl)) l = [].
Proof.
  intros Hw. revert lo. induction l as [|r l IH]; intros lo H; [reflexivity|].
  cbn [map] in H. inversion H as [|lo' hi' t l' Hlo Hl]; subst.
  apply stamped_le in Hl as Hlt.
  cbn [filter]. unfold str_gt at 1.
  match goal with E : now_isoformat w t = ts r |- _ => rewrite <- E end.
  rewrite (ltb_asym _ _ (Hw t tl ltac:(lia))).
  apply (IH (S t)). exact Hl.
Qed.

Lemma filter_stamped_after {A} w (ts : A -> string) tl hi l :
  strictly_increasing w -> stamped w (S tl) hi (map ts l) ->
  filter (fun r => str_gt (ts r) (now_isoformat w tl)) l = l.
Proof.
  intros Hw. remember (S tl) as lo eqn:Elo.
  assert (Hlo : tl < lo) by lia. clear Elo. revert lo Hlo.
  induction l as [|r l IH]; intros lo Hlo H; [reflexivity|].
  cbn [map] in H. inversion H as [|lo' hi' t l' Ht Hl]; subst.
  cbn [filter]. unfold str_gt at 1.
  match goal with E : now_isoformat w t = ts r |- _ => rewrite <- E end.
  rewrite (Hw tl t ltac:(lia)). f_equal.
  apply (IH (S t)); [lia | exact Hl].
Qed.

(** ** The research loop *)

Lemma last_item_app {A} (l : list A) (x : A) : last_item (l ++ [x]) = Ok x.
Proof.
  induction l as [|y l IH]; [reflexivity|].
  cbn [app last_item]. rewrite IH.
  destruct (l ++ [x])%list eqn:E; [|reflexivity].
  now destruct l.
Qed.

Lemma last_item_nonempty {A} (l : list A) :
  l <> [] -> exists x, last_item l = Ok x.
Proof.
  intros H. destruct (exists_last H) as (l' & x & ->).
  exists x. apply last_item_app.
Qed.

Lemma iteration_slices_first st :
  iteration_slices 0 st =
  (Ok (search_history st, content_retrieval_history st), st).
Proof. reflexivity. Qed.

Lemma iteration_slices_later i st last :
  i <> 0%Z -> last_item (research_iterations st) = Ok last ->
  iteration_slices i st =
  (Ok (filter (fun s => str_gt (s_timestamp s) (it_timestamp last))
              (search_history st),
       filter (fun c => str_gt (c_timestamp c) (it_timestamp last))
              (content_retrieval_history st)), st).
Proof.
  intros Hi Hl. unfold iteration_slices.
  destruct (Z.eqb_spec i 0) as [E|_]; [contradiction|].
  run_monad. rewrite Hl. reflexivity.
Qed.

(** One turn of the loop, given what the driver and the attribution do. *)
Lemma research_step_eq cfg w user_query max_iterations i st text st1 ss cs :
  run_research_iteration cfg w
    (snd (update_progress
            ("Research iteration " ++ str_of_Z (i + 1) ++ "/" ++
               str_of_Z max_iterations)
            PIteration (Some (i + 1)%Z) (Some max_iterations) st)) =
    (Ok text, st1) ->
  (forall st1', research_iterations st1' = research_iterations st1 ->
                search_history st1' = search_history st1 ->
                content_retrieval_history st1' = content_retrieval_history st1 ->
                iteration_slices i st1' = (Ok (ss, cs), st1')) ->
  exists st2,
    research_step cfg w user_query max_iterations i st = (Ok tt, st2) /\
    research_iterations st2 =
      (research_iterations st1 ++
       [mkIteration (i + 1) user_query text ss cs
                    (now_isoformat w (tick st1))])%list /\
    search_history st2 = search_history st1 /\
    content_retrieval_history st2 = content_retrieval_history st1 /\
    tick st2 = S (tick st1).
Proof.
  intros Hrun Hsl. unfold research_step.
  unfold bind at 1. unfold update_progress at 1, modify at 1.
  unfold update_progress, modify in Hrun. cbn [snd] in Hrun.
  unfold bind at 1. rewrite Hrun.
  unfold bind at 1, now at 1, external at 1.
  unfold bind at 1. rewrite Hsl by reflexivity.
  run_monad.
  destruct (i <? max_iterations - 1)%Z; run_monad; eexists;
    (split; [reflexivity|]); cbn; auto.
Qed.

(** A turn of the loop returns and appends one iteration record, numbered
    from 1, that holds the text with which the driver returned. *)
Lemma research_step_returns cfg w user_query max_iterations i st :
  i = 0%Z \/ research_iterations st <> [] ->
  exists st2 r text st1,
    research_step cfg w user_query max_iterations i st = (Ok tt, st2) /\
    run_research_iteration cfg w (announced max_iterations i st) =
      (Ok text, st1) /\
    research_iterations st2 = (research_iterations st ++ [r])%list /\
    it_iteration r = (i + 1)%Z /\
    it_response r = text.
Proof.
  intros Hi.
  destruct (run_research_iteration_spec cfg w (announced max_iterations i st))
    as (text & st1 & Hrun & Hst).
  assert (Hits : research_iterations st1 = research_iterations st).
  { rewrite (step_iterations _ _ _ Hst). reflexivity. }
  assert (Hsl : exists ss cs, forall st1',
             research_iterations st1' = research_iterations st1 ->
             search_history st1' = search_history st1 ->
             content_retrieval_history st1' = content_retrieval_history st1 ->
             iteration_slices i st1' = (Ok (ss, cs), st1')).
  { destruct (Z.eq_dec i 0) as [->|Hne].
    - do 2 eexists. intros st1' _ E2 E3.
      rewrite iteration_slices_first, E2, E3. reflexivity.
    - destruct Hi as [Hi|Hi]; [contradiction|].
      destruct (last_item_nonempty (research_iterations st1)) as [last Hl];
        [congruence|].
      do 2 eexists. intros st1' E1 E2 E3.
      rewrite (iteration_slices_later i st1' last Hne) by congruence.
      rewrite E2, E3. reflexivity. }
  destruct Hsl as (ss & cs & Hsl).
  destruct (research_step_eq cfg w user_query max_iterations i st text st1
              ss cs Hrun Hsl) as (st2 & Heq & Hi2 & _).
  exists st2. eexists. exists text, st1.
  split; [exact Heq|]. split; [exact Hrun|]. rewrite Hi2, Hits.
  repeat split.
Qed.

Lemma loop_ledger cfg w user_query max_iterations : forall n k st,
  k = 0 \/ research_iterations st <> [] ->
  exists st' new,
    for_each (map Z.of_nat (seq k n))
             (research_step cfg w user_query max_iterations) st =
      (Ok tt, st') /\
    research_iterations st' = (research_iterations st ++ new)%list /\
    map it_iteration new = map (fun i => Z.of_nat i + 1)%Z (seq k n).
Proof.
  induction n as [|n IH]; intros k st Hk.
  - exists st, []. cbn. rewrite app_nil_r. auto.
  - cbn [seq map for_each].
    destruct (research_step_returns cfg w user_query max_iterations
                (Z.of_nat k) st) as (st2 & r & _ & _ & Heq & _ & Hits & Hnum & _).
    { destruct Hk as [->|Hk]; auto. }
    destruct (IH (S k) st2) as (st' & new & Hloop & Hits' & Hnums).
    { right. rewrite Hits. now destruct (research_iterations st). }
    exists st', (r :: new). unfold bind. rewrite Heq, Hloop.
    split; [reflexivity|]. split.
    + rewrite Hits', Hits, <- app_assoc. reflexivity.
    + cbn [map]. now rewrite Hnum, Hnums.
Qed.

Lemma concat_snoc {A} (ls : list (list A)) (l : list A) :
  concat (ls ++ [l]) = (concat ls ++ l)%list.
Proof. rewrite concat_app. cbn. now rewrite app_nil_r. Qed.

(** A turn of the loop attributes to the new iteration exactly the records
    that the driver appended during it. *)
Lemma research_step_ledger cfg w user_query max_iterations k st :
  strictly_increasing w -> ledger_ok w k st ->
  exists st2,
    research_step cfg w user_query max_iterations (Z.of_nat k) st =
      (Ok tt, st2) /\
    ledger_ok w (S k) st2.
Proof.
  intros Hw (Hcs & Hcc & Hk).
  set (st0 := snd (update_progress
            ("Research iteration " ++ str_of_Z (Z.of_nat k + 1) ++ "/" ++
               str_of_Z max_iterations)
            PIteration (Some (Z.of_nat k + 1)%Z) (Some max_iterations) st)).
  destruct (run_research_iteration_spec cfg w st0) as (text & st1 & Hrun & Hst).
  destruct Hst as [Hits Htick (ns & Hs & Hns) (nc & Hc & Hnc)].
  cbn in Hits, Htick, Hs, Hc, Hns, Hnc.
  assert (Hsl : forall st1',
             research_iterations st1' = research_iterations st1 ->
             search_history st1' = search_history st1 ->
             content_retrieval_history st1' = content_retrieval_history st1 ->
             iteration_slices (Z.of_nat k) st1' = (Ok (ns, nc), st1')).
  { intros st1' E1 E2 E3. destruct k as [|k].
    - destruct Hk as (_ & Hs0 & Hc0).
      change (Z.of_nat 0) with 0%Z.
      rewrite iteration_slices_first, E2, E3, Hs, Hc, Hs0, Hc0. reflexivity.
    - destruct Hk as (last & tl & Hl & Hts & Htl & Hold_s & Hold_c).
      rewrite (iteration_slices_later (Z.of_nat (S k)) st1' last)
        by (try lia; congruence).
      rewrite E2, E3, Hs, Hc, Hts, !filter_app.
      rewrite (filter_stamped_before w s_timestamp 0 tl _ Hw Hold_s).
      rewrite (filter_stamped_before w c_timestamp 0 tl _ Hw Hold_c).
      rewrite (filter_stamped_after w s_timestamp tl (tick st1) ns Hw)
        by (eapply stamped_weaken; [exact Hns | lia | lia]).
      rewrite (filter_stamped_after w c_timestamp tl (tick st1) nc Hw)
        by (eapply stamped_weaken; [exact Hnc | lia | lia]).
      reflexivity. }
  destruct (research_step_eq cfg w user_query max_iterations (Z.of_nat k) st
              text st1 ns nc Hrun Hsl) as (st2 & Heq & Hi2 & Hs2 & Hc2 & Ht2).
  exists st2. split; [exact Heq|].
  assert (Hold : stamped w 0 (tick st) (map s_timestamp (search_history st)) /\
                 stamped w 0 (tick st)
                         (map c_timestamp (content_retrieval_history st))).
  { destruct k as [|k].
    - destruct Hk as (_ & -> & ->). split; constructor; lia.
    - destruct Hk as (last & tl & _ & _ & Htl & Hold_s & Hold_c).
      split; eapply stamped_weaken; eauto; lia. }
  destruct Hold as [Hold_s Hold_c].
  unfold ledger_ok. rewrite Hi2, Hits, !map_app. cbn [map].
  rewrite !concat_snoc. cbn [it_search_queries it_content_retrievals].
  rewrite Hcs, Hcc, Hs2, Hc2, Hs, Hc. split; [reflexivity|].
  split; [reflexivity|].
  eexists. exists (tick st1). rewrite last_item_app.
  split; [reflexivity|]. cbn [it_timestamp]. split; [reflexivity|].
  split; [lia|]. rewrite !map_app.
  split; eapply stamped_app; eassumption.
Qed.

Lemma loop_ledger_ok cfg w user_query max_iterations :
  strictly_increasing w ->
  forall n k st, ledger_ok w k st ->
  exists st',
    for_each (map Z.of_nat (seq k n))
             (research_step cfg w user_query max_iterations) st =
      (Ok tt, st') /\
    ledger_ok w (k + n) st'.
Proof.
  intros Hw. induction n as [|n IH]; intros k st Hk.
  - exists st. rewrite Nat.add_0_r. auto.
  - cbn [seq map for_each].
    destruct (research_step_ledger cfg w user_query max_iterations k st Hw Hk)
      as (st2 & Heq & Hk2).
    destruct (IH (S k) st2 Hk2) as (st' & Hloop & Hk').
    exists st'. unfold bind. rewrite Heq, Hloop.
    split; [reflexivity|]. now rewrite Nat.add_succ_r.
Qed.

(** What a ledger in order says of the histories. *)
Lemma ledger_ok_partition w k st :
  strictly_increasing w -> ledger_ok w k st ->
  concat (map it_search_queries (research_iterations st)) = search_history st /\
  concat (map it_content_retrievals (research_iterations st)) =
    content_retrieval_history st /\
  NoDup (search_history st) /\ NoDup (content_retrieval_history st).
Proof.
  intros Hw (Hcs & Hcc & Hk). split; [exact Hcs|]. split; [exact Hcc|].
  destruct k as [|k].
  - destruct Hk as (_ & -> & ->). split; constructor.
  - destruct Hk as (last & tl & _ & _ & _ & Hs & Hc).
    split; eapply NoDup_map_inv; eapply stamped_NoDup; eassumption.
Qed.

(** The loop is entered in a state that differs from the initial one by the
    conversation and the progress log only. *)
Lemma run_iterations_eq cfg w user_query max_iterations st :
  exists st0,
    run_iterations cfg w user_query max_iterations st =
      for_each (range max_iterations)
               (research_step cfg w user_query max_iterations) st0 /\
    research_iterations st0 = research_iterations st /\
    search_history st0 = search_history st /\
    content_retrieval_history st0 = content_retrieval_history st /\
    tick st0 = tick st.
Proof.
  unfold run_iterations, initialize_conversation. run_monad.
  eexists. split; [reflexivity|]. cbn. auto.
Qed.

(** The synthesis raises in no state, and hands out the ledger and the
    histories as they stand. *)
Lemma final_synthesis_spec cfg w user_query max_iterations st :
  exists report data st',
    final_synthesis cfg w user_query max_iterations st =
      (Ok (report, data), st') /\
    rd_iterations data = research_iterations st /\
    rd_search_history data = search_history st /\
    rd_content_retrieval_history data = content_retrieval_history st.
Proof.
  unfold final_synthesis. run_monad.
  destruct (claude w (tick st) _) as [response|e]; run_monad;
    do 3 eexists; (split; [reflexivity|]); cbn; auto.
Qed.

Lemma final_synthesis_raises cfg w user_query max_iterations st e :
  claude w (tick st) (synthesis_request cfg user_query max_iterations st) =
    Raise e ->
  exists st',
    final_synthesis cfg w user_query max_iterations st =
      (Ok (final_report_error e,
           mkResearchData user_query None (research_iterations st)
             (search_history st) (content_retrieval_history st) None (Some e)
             (now_isoformat w (S (tick st)))), st') /\
    research_iterations st' = research_iterations st /\
    search_history st' = search_history st /\
    content_retrieval_history st' = content_retrieval_history st /\
    In (mkEvent ("Error generating final report: " ++ e) PError None None)
       (progress st').
Proof.
  intros He. unfold final_synthesis, synthesis_request in *. run_monad.
  rewrite He. run_monad.
  eexists. split; [reflexivity|]. cbn. repeat split.
  apply in_or_app. right. now left.
Qed.

Lemma run_iterations_returns cfg w user_query max_iterations st :
  exists st1 new,
    run_iterations cfg w user_query max_iterations st = (Ok tt, st1) /\
    research_iterations st1 = (research_iterations st ++ new)%list /\
    map it_iteration new = map (fun i => i + 1)%Z (range max_iterations).
Proof.
  destruct (run_iterations_eq cfg w user_query max_iterations st)
    as (st0 & Heq & Hi & _).
  destruct (loop_ledger cfg w user_query max_iterations
              (Z.to_nat max_iterations) 0 st0 (or_introl eq_refl))
    as (st1 & new & Hloop & Hits & Hnum).
  exists st1, new. rewrite Heq. unfold range.
  split; [exact Hloop|]. split; [congruence|].
  rewrite Hnum, map_map. reflexivity.
Qed.

Lemma run_research_loop_returns cfg w user_query max_iterations :
  returns (run_research_loop cfg w user_query max_iterations).
Proof.
  intro st. unfold run_research_loop, bind.
  destruct (run_iterations_returns cfg w user_query max_iterations st)
    as (st1 & new & Heq & _).
  rewrite Heq.
  destruct (final_synthesis_spec cfg w user_query max_iterations st1)
    as (report & data & st' & Hf & _).
  rewrite Hf. cbn. eauto.
Qed.

(** ** One tool per call *)

(** The [web_search] branch makes one search and feeds back one tool
    result, whether or not the follow-up completion then fails. *)
Lemma handle_web_search_spec cfg w response input id st :
  exists o st' rec c,
    handle_web_search cfg w response input id st = (o, st') /\
    search_history st' = (search_history st ++ [rec])%list /\
    s_query rec = get "query" (PStr EmptyString) input /\
    content_retrieval_history st' = content_retrieval_history st /\
    research_iterations st' = research_iterations st /\
    tool_results (messages st') = (tool_results (messages st) ++ [(id, c)])%list.
Proof.
  unfold handle_web_search. run_monad.
  match goal with
  | |- context [search_with_exa ?a ?b ?q ?n ?sd ?ed ?s] =>
      destruct (search_with_exa_spec a b q n sd ed s)
        as (r & rec & t & evs & Heq & _ & _ & Hq & Hr);
      rewrite Heq
  end.
  run_monad.
  destruct Hr as [->|(resp & n & -> & Hn)].
  - unfold format_search_results. run_monad.
    match goal with
    | |- context [claude w ?t ?req] => destruct (claude w t req) as [analysis|e]
    end; run_monad;
      do 4 eexists; (split; [reflexivity|]); cbn;
      rewrite ?tool_results_app; cbn; rewrite ?app_nil_r; auto.
  - match goal with
    | |- context [format_search_results (Some resp) ?s] =>
        destruct (format_search_results_counted resp n s Hn)
          as (text & evs' & Hf); rewrite Hf
    end.
    run_monad. rewrite Hn. run_monad.
    match goal with
    | |- context [claude w ?t ?req] => destruct (claude w t req) as [analysis|e]
    end; run_monad;
      do 4 eexists; (split; [reflexivity|]); cbn;
      rewrite ?tool_results_app; cbn; rewrite ?app_nil_r; auto.
Qed.

(** The [get_article_content] branch makes one fetch and feeds back one
    tool result, whether or not the follow-up completion then fails. *)
Lemma handle_get_article_content_spec cfg w response input id st :
  exists o st' rec c,
    handle_get_article_content cfg w response input id st = (o, st') /\
    content_retrieval_history st' =
      (content_retrieval_history st ++ [rec])%list /\
    c_url rec = get "url" (PStr EmptyString) input /\
    search_history st' = search_history st /\
    research_iterations st' = research_iterations st /\
    tool_results (messages st') = (tool_results (messages st) ++ [(id, c)])%list.
Proof.
  unfold handle_get_article_content. run_monad.
  match goal with
  | |- context [get_full_content ?a ?u ?s] =>
      destruct (get_full_content_spec a u s)
        as (r & rec & t & evs & Heq & _ & _ & Hu);
      rewrite Heq
  end.
  run_monad.
  match goal with
  | |- context [claude w ?t ?req] => destruct (claude w t req) as [analysis|e]
  end; run_monad;
    do 4 eexists; (split; [reflexivity|]); cbn;
    rewrite ?tool_results_app; cbn; rewrite ?app_nil_r; auto.
Qed.

(** Blocks that are not tool invocations are passed over. *)
Lemma dispatch_skip cfg w response pre items :
  forallb (fun b => negb (is_tool_invocation b)) pre = true ->
  dispatch cfg w response (pre ++ items) = dispatch cfg w response items.
Proof.
  induction pre as [|b pre IH]; intros H; [reflexivity|].
  cbn [forallb] in H. apply andb_true_iff in H as [Hb Hpre].
  cbn [app dispatch]. destruct b as [t|name input id| ]; auto.
  cbn [is_tool_invocation] in Hb. apply negb_true_iff, orb_false_iff in Hb.
  destruct Hb as [-> ->]. auto.
Qed.

(** What the driver does once the model has answered. *)
Lemma run_research_iteration_answered cfg w st response :
  claude w (tick st) (iteration_request cfg st) = Ok response ->
  run_research_iteration cfg w st =
  try_except
    (returned <- dispatch cfg w response response ;;
     match returned with
     | Some analysis_text => ret analysis_text
     | None =>
         update_progress "Claude is formulating research strategy..." PInfo
                         None None ;;;
         append_message (mkMessage Assistant (CBlocks response)) ;;;
         ret (join nl (text_items response))
     end)
    (fun e =>
     update_progress ("Error during research iteration: " ++ e) PError
                     None None ;;;
     ret ("An error occurred: " ++ e))
    (mkState (messages st) (research_iterations st) (search_history st)
       (content_retrieval_history st)
       (progress st ++
          [mkEvent "Requesting Claude's analysis..." PInfo None None] ++
          [mkEvent "Claude is analyzing the research topic..." PInfo
                   None None])
       (S (tick st))).
Proof.
  intros H. unfold run_research_iteration, run_research_iteration_body.
  unfold iteration_request in H.
  unfold try_except at 1. unfold bind at 1. unfold update_progress at 1.
  unfold modify at 1. unfold bind at 1, gets at 1. unfold bind at 1.
  unfold external at 1. cbn [tick messages]. rewrite H.
  unfold bind at 1. rewrite extract_text_content_eq.
  unfold bind at 1. unfold update_progress at 1, modify at 1.
  cbn [messages research_iterations search_history content_retrieval_history
       progress tick].
  rewrite <- app_assoc. reflexivity.
Qed.

(** ** Properties of the research loop *)

(** C1. If the completion requested for the final synthesis raises [e],
    [run_research_loop] does not raise: it returns the error report
    ["An error occurred while generating the final report: e"] together
    with a partial research-data record that carries [e] as its [error] and
    holds the iteration records, the search history and the
    content-retrieval history exactly as they stood when the loop ended;
    the attributes themselves are left as they stood too. Whatever the
    services do, the method returns. *)
Theorem synthesis_failure_returns_partial_session
    cfg w user_query max_iterations st st1 e :
  run_iterations cfg w user_query max_iterations st = (Ok tt, st1) ->
  claude w (tick st1) (synthesis_request cfg user_query max_iterations st1) =
    Raise e ->
  (exists st2,
     run_research_loop cfg w user_query max_iterations st =
       (Ok (final_report_error e,
            mkResearchData user_query None (research_iterations st1)
              (search_history st1) (content_retrieval_history st1) None
              (Some e) (now_isoformat w (S (tick st1)))), st2) /\
     research_iterations st2 = research_iterations st1 /\
     search_history st2 = search_history st1 /\
     content_retrieval_history st2 = content_retrieval_history st1) /\
  returns (run_research_loop cfg w user_query max_iterations).
Proof.
  intros Hloop He. split; [|apply run_research_loop_returns].
  destruct (final_synthesis_raises cfg w user_query max_iterations st1 e He)
    as (st2 & Hf & Hi & Hs & Hc & _).
  exists st2. unfold run_research_loop, bind. rewrite Hloop, Hf. auto.
Qed.

Lemma synthesis_failure_witness :
  (exists st2,
     run_research_loop example_config example_world example_query 3 init_state =
       (Ok (final_report_error "overloaded",
            mkResearchData example_query None
              (research_iterations
                 (snd (run_iterations example_config example_world
                         example_query 3 init_state)))
              (search_history
                 (snd (run_iterations example_config example_world
                         example_query 3 init_state)))
              (content_retrieval_history
                 (snd (run_iterations example_config example_world
                         example_query 3 init_state)))
              None (Some "overloaded")
              (now_isoformat example_world
                 (S (tick (snd (run_iterations example_config example_world
                                  example_query 3 init_state)))))), st2) /\
     research_iterations st2 =
       research_iterations
         (snd (run_iterations example_config example_world example_query 3
                 init_state)) /\
     search_history st2 =
       search_history
         (snd (run_iterations example_config example_world example_query 3
                 init_state)) /\
     content_retrieval_history st2 =
       content_retrieval_history
         (snd (run_iterations example_config example_world example_query 3
                 init_state))) /\
  returns (run_research_loop example_config example_world example_query 3).
Proof.
  apply (synthesis_failure_returns_partial_session example_config
           example_world example_query 3 init_state
           (snd (run_iterations example_config example_world example_query 3
                   init_state))
           "overloaded").
  - vm_compute. reflexivity.
  - vm_compute. reflexivity.
Defined.

(** C2. If the provider's search call raises [e], whatever the query and
    the other arguments, [search_with_exa] does not raise: it returns
    [None], having appended to the search history exactly one record whose
    [error] is [e] and whose [num_results] is 0; the ledger, the other
    history and the conversation are untouched and the fault is reported as
    an [error] progress event. *)
Theorem search_fault_is_contained
    cfg w query num_results start_date end_date st e :
  exa w (tick st)
      (search_params_of cfg query num_results start_date end_date) = Raise e ->
  exists st' rec,
    search_with_exa cfg w query num_results start_date end_date st =
      (Ok None, st') /\
    search_history st' = (search_history st ++ [rec])%list /\
    s_query rec = query /\ s_error rec = Some e /\ s_num_results rec = 0%N /\
    content_retrieval_history st' = content_retrieval_history st /\
    research_iterations st' = research_iterations st /\
    messages st' = messages st /\
    In (mkEvent ("Search error: " ++ e) PError None None) (progress st').
Proof.
  intros He.
  rewrite (search_with_exa_raises cfg w query num_results start_date end_date
             st e He).
  do 2 eexists. split; [reflexivity|]. cbn. repeat split.
  apply in_or_app. right. right. now left.
Qed.

Lemma search_fault_witness :
  exists st' rec,
    search_with_exa example_config failing_world (PStr "metformin liver") None
                    PNone PNone init_state = (Ok None, st') /\
    search_history st' = (search_history init_state ++ [rec])%list /\
    s_query rec = PStr "metformin liver" /\
    s_error rec = Some "connection refused" /\ s_num_results rec = 0%N /\
    content_retrieval_history st' = content_retrieval_history init_state /\
    research_iterations st' = research_iterations init_state /\
    messages st' = messages init_state /\
    In (mkEvent ("Search error: " ++ "connection refused") PError None None)
       (progress st').
Proof.
  apply (search_fault_is_contained example_config failing_world
           (PStr "metformin liver") None PNone PNone init_state
           "connection refused").
  reflexivity.
Defined.

Lemma compare_nines a : forall b, a < b ->
  String.compare (nines a) (nines b) = Lt.
Proof.
  induction a as [|a IH]; intros [|b] H; try lia; [reflexivity|].
  cbn [nines String.compare].
  change (Ascii.compare "9" "9") with Eq. cbn iota. apply IH. lia.
Qed.

Lemma example_clock_increasing : strictly_increasing example_world.
Proof.
  intros a b H. cbn [now_isoformat example_world].
  unfold example_clock, String.ltb.
  assert (E : forall x y,
            String.compare ("2025-01-01T00:00:00." ++ x)
                           ("2025-01-01T00:00:00." ++ y) =
            String.compare x y) by reflexivity.
  rewrite E, (compare_nines a b H). reflexivity.
Qed.

(** C4. In a world whose clock is strictly increasing, a run that starts
    from a fresh instance attributes every record of the two histories to
    exactly one iteration: the slices stored in the iteration records, put
    end to end in the order of the iterations, are the search history and
    the content-retrieval history themselves (nothing is dropped, nothing
    is attributed twice), and no history holds the same record twice. *)
Theorem attribution_partitions_histories cfg w user_query max_iterations st :
  strictly_increasing w -> fresh st ->
  exists report data st',
    run_research_loop cfg w user_query max_iterations st =
      (Ok (report, data), st') /\
    concat (map it_search_queries (rd_iterations data)) =
      rd_search_history data /\
    concat (map it_content_retrievals (rd_iterations data)) =
      rd_content_retrieval_history data /\
    NoDup (rd_search_history data) /\
    NoDup (rd_content_retrieval_history data).
Proof.
  intros Hw (Hi & Hs & Hc).
  destruct (run_iterations_eq cfg w user_query max_iterations st)
    as (st0 & Heq & Hi0 & Hs0 & Hc0 & _).
  assert (H0 : ledger_ok w 0 st0).
  { unfold ledger_ok, fresh. rewrite Hi0, Hs0, Hc0, Hi, Hs, Hc. cbn. auto. }
  destruct (loop_ledger_ok cfg w user_query max_iterations Hw
              (Z.to_nat max_iterations) 0 st0 H0) as (st1 & Hloop & H1).
  destruct (ledger_ok_partition w _ st1 Hw H1) as (P1 & P2 & P3 & P4).
  destruct (final_synthesis_spec cfg w user_query max_iterations st1)
    as (report & data & st' & Hf & Di & Ds & Dc).
  exists report, data, st'. unfold run_research_loop, bind.
  rewrite Heq. fold (range max_iterations) in Hloop. rewrite Hloop, Hf.
  rewrite Di, Ds, Dc. auto.
Qed.

Lemma attribution_witness :
  exists report data st',
    run_research_loop example_config example_world example_query 3 init_state =
      (Ok (report, data), st') /\
    concat (map it_search_queries (rd_iterations data)) =
      rd_search_history data /\
    concat (map it_content_retrievals (rd_iterations data)) =
      rd_content_retrieval_history data /\
    NoDup (rd_search_history data) /\
    NoDup (rd_content_retrieval_history data).
Proof.
  apply (attribution_partitions_histories example_config example_world
           example_query 3 init_state).
  - exact example_clock_increasing.
  - repeat split.
Defined.

(** C5. For every iteration count [N >= 0], hence for every count of the
    configured range 3..15, the loop of [run_research_loop] returns having
    appended exactly [N] iteration records, numbered 1..N in this order; the
    final prompt is issued only then, and the record that the run returns
    holds the ledger so extended. *)
Theorem loop_appends_N_iterations cfg w user_query max_iterations st :
  (0 <= max_iterations)%Z ->
  exists st1 new,
    run_iterations cfg w user_query max_iterations st = (Ok tt, st1) /\
    research_iterations st1 = (research_iterations st ++ new)%list /\
    Z.of_nat (length new) = max_iterations /\
    map it_iteration new = map Z.succ (range max_iterations) /\
    exists report data st2,
      final_synthesis cfg w user_query max_iterations st1 =
        (Ok (report, data), st2) /\
      run_research_loop cfg w user_query max_iterations st =
        (Ok (report, data), st2) /\
      rd_iterations data = (research_iterations st ++ new)%list.
Proof.
  intros HN.
  destruct (run_iterations_returns cfg w user_query max_iterations st)
    as (st1 & new & Heq & Hits & Hnum).
  exists st1, new. split; [exact Heq|]. split; [exact Hits|]. split.
  { rewrite <- (length_map it_iteration), Hnum, length_map. unfold range.
    rewrite length_map, length_seq. lia. }
  split.
  { rewrite Hnum. apply map_ext. intros. lia. }
  destruct (final_synthesis_spec cfg w user_query max_iterations st1)
    as (report & data & st2 & Hf & Di & _).
  exists report, data, st2. unfold run_research_loop, bind.
  rewrite Heq, Hf. split; [reflexivity|]. split; [reflexivity|]. congruence.
Qed.

Lemma loop_appends_witness :
  exists st1 new,
    run_iterations example_config failing_world example_query 3 init_state =
      (Ok tt, st1) /\
    research_iterations st1 = (research_iterations init_state ++ new)%list /\
    Z.of_nat (length new) = 3%Z /\
    map it_iteration new = map Z.succ (range 3) /\
    exists report data st2,
      final_synthesis example_config failing_world example_query 3 st1 =
        (Ok (report, data), st2) /\
      run_research_loop example_config failing_world example_query 3
                        init_state = (Ok (report, data), st2) /\
      rd_iterations data = (research_iterations init_state ++ new)%list.
Proof.
  apply (loop_appends_N_iterations example_config failing_world example_query
           3 init_state).
  lia.
Defined.

(** ** Properties of the formatter *)

(** C6, as stated, fails: there is no single string that the formatter
    returns both on a null input and on a result set with no entry. *)
Lemma no_single_no_results_string :
  ~ exists s : string,
      forall r st, null_or_empty r = true ->
                   fst (format_search_results r st) = Ok s.
Proof.
  intros (s & H).
  pose proof (H None init_state eq_refl) as H1.
  pose proof (H (Some (SObj (Some (RList [])))) init_state eq_refl) as H2.
  cbv in H1, H2. rewrite <- H1 in H2. discriminate H2.
Qed.

(** C6, amended. On a null input the formatter returns the fixed string
    ["No search results found."]; on a response with no entry (its results
    are the empty list, or it has none) it returns the fixed string
    ["No results found for the given query."]. It raises in neither case,
    and neither string is empty. *)
Theorem no_results_message_by_case r st :
  null_or_empty r = true ->
  exists st',
    format_search_results r st =
      (Ok (match r with
           | None => no_search_results
           | Some _ => no_results_for_query
           end), st') /\
    no_search_results <> EmptyString /\
    no_results_for_query <> EmptyString.
Proof.
  intros H.
  assert (Hne : no_search_results <> EmptyString /\
                no_results_for_query <> EmptyString) by (split; discriminate).
  destruct r as [[[[[|x l]|]|]|[[[|x l]|]|]]|]; cbn in H; try discriminate;
    eexists; (split; [reflexivity | exact Hne]).
Qed.

Lemma no_results_message_witness :
  exists st',
    format_search_results (Some (SDict (Some (RList [])))) init_state =
      (Ok no_results_for_query, st') /\
    no_search_results <> EmptyString /\
    no_results_for_query <> EmptyString.
Proof.
  apply (no_results_message_by_case (Some (SDict (Some (RList [])))) init_state).
  reflexivity.
Defined.

(** C7. On a response whose results are a non-empty list, the formatter
    returns the blocks of the entries, one per entry and in their order,
    joined by newlines. The block of an entry on which the per-article
    formatting raises is the placeholder carrying the entry's ordinal; the
    block of any other entry is its full rendering, whatever the other
    entries are, and a full rendering is never the placeholder. *)
Theorem format_isolates_faulty_entry response l st :
  response_results response = Some (RList l) -> l <> [] ->
  exists blocks,
    format_search_results (Some response) st = (Ok (join nl blocks), st) /\
    length blocks = length l /\
    forall i x, nth_error l i = Some x ->
      (forall e, format_article (Z.of_nat i) x = Raise e ->
                 nth_error blocks i = Some (article_placeholder (Z.of_nat i))) /\
      (forall t, format_article (Z.of_nat i) x = Ok t ->
                 nth_error blocks i = Some t /\
                 t <> article_placeholder (Z.of_nat i)).
Proof.
  intros Hr Hl. exists (map format_block (enumerate l)).
  rewrite (format_search_results_list response l st Hr).
  split.
  { destruct (map format_block (enumerate l)) eqn:E; [|reflexivity].
    apply (f_equal (@length string)) in E.
    rewrite length_map, length_enumerate in E.
    destruct l; [contradiction | discriminate]. }
  split; [now rewrite length_map, length_enumerate|].
  intros i x Hx.
  assert (Hb : nth_error (map format_block (enumerate l)) i =
               Some (format_block (Z.of_nat i, x))).
  { rewrite nth_error_map, (nth_error_enumerate l i x Hx). reflexivity. }
  unfold format_block in Hb. cbn [fst snd] in Hb.
  split.
  - intros e He. rewrite He in Hb. exact Hb.
  - intros t Ht. rewrite Ht in Hb. split; [exact Hb|].
    eapply format_article_not_placeholder. exact Ht.
Qed.

Lemma format_isolates_witness :
  exists blocks,
    format_search_results
      (Some (SObj (Some (RList [example_bad_entry; example_good_entry]))))
      init_state = (Ok (join nl blocks), init_state) /\
    length blocks = length [example_bad_entry; example_good_entry] /\
    forall i x,
      nth_error [example_bad_entry; example_good_entry] i = Some x ->
      (forall e, format_article (Z.of_nat i) x = Raise e ->
                 nth_error blocks i = Some (article_placeholder (Z.of_nat i))) /\
      (forall t, format_article (Z.of_nat i) x = Ok t ->
                 nth_error blocks i = Some t /\
                 t <> article_placeholder (Z.of_nat i)).
Proof.
  apply (format_isolates_faulty_entry
           (SObj (Some (RList [example_bad_entry; example_good_entry])))
           [example_bad_entry; example_good_entry] init_state).
  - reflexivity.
  - discriminate.
Defined.

(** ** Properties of the fetch adapter *)

Lemma slen_slice_to s : forall n, slen (slice_to n s) = N.min n (slen s).
Proof.
  induction s as [|c s IH]; intros n; cbn [slice_to slen]; [lia|].
  destruct (N.eqb_spec n 0) as [->|Hn]; cbn [slen]; [lia|].
  rewrite IH. lia.
Qed.

(** A fetch whose provider answers with a markdown text. *)
Lemma get_full_content_success w url st response s :
  firecrawl w (tick st) url = Ok response ->
  scraped_markdown response = PStr s ->
  get_full_content w url st =
  (Ok (slice_to max_content s),
   mkState (messages st) (research_iterations st) (search_history st)
     (content_retrieval_history st ++
        [mkFetchRecord url (now_isoformat w (S (tick st)))
           (negb (String.eqb s error_retrieving_content)) (Some (slen s)) None])
     (progress st ++
        [mkEvent ("Retrieving content from: " ++ str url) PContent None None] ++
        [mkEvent ("Retrieved " ++ str_of_N (slen s) ++
                    " characters from article") PContent None None])
     (S (S (tick st)))).
Proof.
  intros Hf Hs. unfold get_full_content. run_monad.
  rewrite Hf. run_monad. rewrite Hs. cbn [len slice Py.eqb]. run_monad.
  rewrite <- app_assoc. reflexivity.
Qed.

(** C8. When the provider answers a fetch with a markdown text [s], the
    fetch returns [s] cut to its first 100,000 characters: what it returns
    is never longer than that, and is exactly 100,000 characters long when
    [s] is 150,000 characters long. *)
Theorem fetch_truncates_content w url st response s :
  firecrawl w (tick st) url = Ok response ->
  scraped_markdown response = PStr s ->
  exists st',
    get_full_content w url st = (Ok (slice_to max_content s), st') /\
    slen (slice_to max_content s) = N.min 100000 (slen s) /\
    (slen (slice_to max_content s) <= 100000)%N /\
    (slen s = 150000%N -> slen (slice_to max_content s) = 100000%N).
Proof.
  intros Hf Hs. rewrite (get_full_content_success w url st response s Hf Hs).
  eexists. split; [reflexivity|].
  rewrite slen_slice_to. unfold max_content. repeat split; lia.
Qed.

Lemma fetch_truncates_witness :
  exists st',
    get_full_content example_world (PStr "https://example.org/a") init_state =
      (Ok (slice_to max_content example_document), st') /\
    slen (slice_to max_content example_document) =
      N.min 100000 (slen example_document) /\
    (slen (slice_to max_content example_document) <= 100000)%N /\
    (slen example_document = 150000%N ->
     slen (slice_to max_content example_document) = 100000%N).
Proof.
  apply (fetch_truncates_content example_world (PStr "https://example.org/a")
           init_state (FObj (Some (PStr example_document)) None)
           example_document).
  - reflexivity.
  - reflexivity.
Defined.

(** C10. When the provider answers a fetch with a markdown text of more
    than 100,000 characters, the record appended to the content-retrieval
    history is a success whose [content_length] is the full length of the
    text, above 100,000, while the text returned to the caller is 100,000
    characters long: the logged and the returned lengths differ. *)
Theorem fetch_logs_full_length w url st response s :
  firecrawl w (tick st) url = Ok response ->
  scraped_markdown response = PStr s ->
  (100000 < slen s)%N ->
  exists st' r rec,
    get_full_content w url st = (Ok r, st') /\
    content_retrieval_history st' =
      (content_retrieval_history st ++ [rec])%list /\
    c_url rec = url /\ c_success rec = true /\ c_error rec = None /\
    c_content_length rec = Some (slen s) /\
    slen r = 100000%N /\
    c_content_length rec <> Some (slen r).
Proof.
  intros Hf Hs Hlen.
  rewrite (get_full_content_success w url st response s Hf Hs).
  do 3 eexists. split; [reflexivity|]. cbn.
  assert (Hr : slen (slice_to max_content s) = 100000%N).
  { rewrite slen_slice_to. unfold max_content. lia. }
  repeat split.
  - destruct (String.eqb_spec s error_retrieving_content) as [->|_];
      [|reflexivity].
    vm_compute in Hlen. discriminate Hlen.
  - exact Hr.
  - rewrite Hr. intros E. injection E as E. lia.
Qed.

Lemma fetch_logs_witness :
  exists st' r rec,
    get_full_content example_world (PStr "https://example.org/b")
      init_state = (Ok r, st') /\
    content_retrieval_history st' =
      (content_retrieval_history init_state ++ [rec])%list /\
    c_url rec = PStr "https://example.org/b" /\ c_success rec = true /\
    c_error rec = None /\
    c_content_length rec = Some (slen example_document) /\
    slen r = 100000%N /\
    c_content_length rec <> Some (slen r).
Proof.
  apply (fetch_logs_full_length example_world (PStr "https://example.org/b")
           init_state
           (FObj (Some (PStr example_document)) None) example_document).
  - reflexivity.
  - reflexivity.
  - vm_compute. reflexivity.
Defined.

(** ** Properties of the conversation driver *)

(** C9. Let the model answer the first request of an iteration with blocks
    among which [ToolUse name input id] is the first tool invocation (a
    [tool_use] block naming a tool of the manifest), whatever blocks, tool
    invocations included, come after it. Then the call of the driver
    returns having executed that invocation and no other: the tool named by
    it made exactly one record, for the query or the url of its input, the
    other history did not change, and exactly one tool result was fed back
    into the conversation, bound to [id]. *)
Theorem first_tool_invocation_only cfg w st pre name input id rest :
  claude w (tick st) (iteration_request cfg st) =
    Ok (pre ++ ToolUse name input id :: rest)%list ->
  forallb (fun b => negb (is_tool_invocation b)) pre = true ->
  is_tool_invocation (ToolUse name input id) = true ->
  exists text st',
    run_research_iteration cfg w st = (Ok text, st') /\
    (exists c,
       tool_results (messages st') =
         (tool_results (messages st) ++ [(id, c)])%list) /\
    ((name = "web_search" /\
      exists rec,
        search_history st' = (search_history st ++ [rec])%list /\
        s_query rec = get "query" (PStr EmptyString) input /\
        content_retrieval_history st' = content_retrieval_history st) \/
     (name = "get_article_content" /\
      exists rec,
        content_retrieval_history st' =
          (content_retrieval_history st ++ [rec])%list /\
        c_url rec = get "url" (PStr EmptyString) input /\
        search_history st' = search_history st)).
Proof.
  intros Hresp Hpre Hname.
  rewrite (run_research_iteration_answered cfg w st _ Hresp).
  set (response := (pre ++ ToolUse name input id :: rest)%list).
  unfold try_except, bind. unfold response at 2.
  rewrite (dispatch_skip cfg w response pre _ Hpre). cbn [dispatch].
  cbn [is_tool_invocation] in Hname.
  destruct (String.eqb_spec name "web_search") as [->|Hws].
  - unfold bind.
    match goal with
    | |- context [handle_web_search cfg w response input id ?s] =>
        destruct (handle_web_search_spec cfg w response input id s)
          as (o & st' & rec & c & Heq & Hs & Hq & Hc & _ & Hm);
        rewrite Heq
    end.
    cbn in Hs, Hc, Hm.
    destruct o as [text|e]; run_monad; do 2 eexists;
      (split; [reflexivity|]); cbn; (split; [eauto|]); left; eauto.
  - cbn [orb] in Hname. rewrite Hname. unfold bind.
    apply String.eqb_eq in Hname. subst name.
    match goal with
    | |- context [handle_get_article_content cfg w response input id ?s] =>
        destruct (handle_get_article_content_spec cfg w response input id s)
          as (o & st' & rec & c & Heq & Hc & Hu & Hs & _ & Hm);
        rewrite Heq
    end.
    cbn in Hs, Hc, Hm.
    destruct o as [text|e]; run_monad; do 2 eexists;
      (split; [reflexivity|]); cbn; (split; [eauto|]); right; eauto.
Qed.

Lemma first_tool_invocation_witness :
  exists text st',
    run_research_iteration example_config example_world init_state =
      (Ok text, st') /\
    (exists c,
       tool_results (messages st') =
         (tool_results (messages init_state) ++ [("toolu_1", c)])%list) /\
    (("web_search" = "web_search" /\
      exists rec,
        search_history st' = (search_history init_state ++ [rec])%list /\
        s_query rec =
          get "query" (PStr EmptyString) [("query", PStr "metformin liver")] /\
        content_retrieval_history st' =
          content_retrieval_history init_state) \/
     ("web_search" = "get_article_content" /\
      exists rec,
        content_retrieval_history st' =
          (content_retrieval_history init_state ++ [rec])%list /\
        c_url rec =
          get "url" (PStr EmptyString) [("query", PStr "metformin liver")] /\
        search_history st' = search_history init_state)).
Proof.
  apply (first_tool_invocation_only example_config example_world init_state
           [TextBlock "I will search first."] "web_search"
           [("query", PStr "metformin liver")] "toolu_1"
           [ToolUse "get_article_content"
                    [("url", PStr "https://example.org/a")] "toolu_2"]).
  - reflexivity.
  - reflexivity.
  - reflexivity.
Defined.


(** ** Further properties of the search adapter *)

Lemma search_with_exa_counted cfg w query num_results start_date end_date st
    response n :
  exa w (tick st)
      (search_params_of cfg query num_results start_date end_date) =
    Ok response ->
  count_results response = Ok n ->
  search_with_exa cfg w query num_results start_date end_date st =
  (Ok (Some response),
   mkState (messages st) (research_iterations st)
     (search_history st ++
        [mkSearchRecord query (now_isoformat w (S (tick st))) None n
                        start_date end_date])
     (content_retrieval_history st)
     (progress st ++
        [mkEvent ("Searching for: " ++ str query) PSearch None None] ++
        [mkEvent ("Found " ++ str_of_N n ++ " results for '" ++ str query ++
                    "'") PSearch None None])
     (S (S (tick st)))).
Proof.
  intros He Hn. unfold search_with_exa, search_params_of in *. run_monad.
  rewrite He. run_monad. rewrite Hn. run_monad.
  rewrite <- app_assoc. reflexivity.
Qed.

Lemma search_with_exa_uncounted cfg w query num_results start_date end_date st
    response e :
  exa w (tick st)
      (search_params_of cfg query num_results start_date end_date) =
    Ok response ->
  count_results response = Raise e ->
  search_with_exa cfg w query num_results start_date end_date st =
  (Ok None,
   mkState (messages st) (research_iterations st)
     (search_history st ++
        [mkSearchRecord query (now_isoformat w (S (S (tick st)))) (Some e) 0
                        start_date end_date])
     (content_retrieval_history st)
     (progress st ++
        [mkEvent ("Searching for: " ++ str query) PSearch None None] ++
        [mkEvent ("Search error: " ++ e) PError None None])
     (S (S (S (tick st))))).
Proof.
  intros He Hn. unfold search_with_exa, search_params_of in *. run_monad.
  rewrite He. run_monad. rewrite Hn. run_monad.
  rewrite <- app_assoc. reflexivity.
Qed.

(** X1. When the provider answers a search with a response whose results
    are a list, of either shape, the search returns that response itself
    and appends exactly one record, without error, whose [num_results] is
    the number of entries of the list and whose query and dates are the
    arguments as they were passed, dates that were left out of the request
    included. *)
Theorem search_success_is_recorded
    cfg w query num_results start_date end_date st response l :
  exa w (tick st)
      (search_params_of cfg query num_results start_date end_date) =
    Ok response ->
  response_results response = Some (RList l) ->
  exists st',
    search_with_exa cfg w query num_results start_date end_date st =
      (Ok (Some response), st') /\
    search_history st' =
      (search_history st ++
       [mkSearchRecord query (now_isoformat w (S (tick st))) None
                       (N.of_nat (length l)) start_date end_date])%list /\
    content_retrieval_history st' = content_retrieval_history st /\
    research_iterations st' = research_iterations st /\
    messages st' = messages st.
Proof.
  intros He Hl.
  assert (Hn : count_results response = Ok (N.of_nat (length l))).
  { destruct response as [x|x]; cbn in Hl; subst x; reflexivity. }
  rewrite (search_with_exa_counted cfg w query num_results start_date end_date
             st response _ He Hn).
  eexists. split; [reflexivity|]. cbn. auto.
Qed.

Lemma search_success_witness :
  exists st',
    search_with_exa example_config steady_world (PStr "metformin liver") None
                    (PStr "2020-01-01T00:00:00.000Z") PNone init_state =
      (Ok (Some (SDict (Some (RList [example_good_entry])))), st') /\
    search_history st' =
      (search_history init_state ++
       [mkSearchRecord (PStr "metformin liver")
          (now_isoformat steady_world (S (tick init_state))) None
          (N.of_nat (length [example_good_entry]))
          (PStr "2020-01-01T00:00:00.000Z") PNone])%list /\
    content_retrieval_history st' = content_retrieval_history init_state /\
    research_iterations st' = research_iterations init_state /\
    messages st' = messages init_state.
Proof.
  apply (search_success_is_recorded example_config steady_world
           (PStr "metformin liver") None (PStr "2020-01-01T00:00:00.000Z")
           PNone init_state (SDict (Some (RList [example_good_entry])))
           [example_good_entry]).
  - reflexivity.
  - reflexivity.
Defined.

(** X2. When the provider answers a search with a response whose [results]
    is [None], the count inside the [try] fails and the search is handled
    as a failed one although the provider call succeeded: [None] is
    returned and the one record appended carries the text of the
    [TypeError] and [num_results] 0. *)
Theorem search_uncountable_is_failure
    cfg w query num_results start_date end_date st response :
  exa w (tick st)
      (search_params_of cfg query num_results start_date end_date) =
    Ok response ->
  response_results response = Some RNone ->
  exists st',
    search_with_exa cfg w query num_results start_date end_date st =
      (Ok None, st') /\
    search_history st' =
      (search_history st ++
       [mkSearchRecord query (now_isoformat w (S (S (tick st))))
          (Some "object of type 'NoneType' has no len()") 0
          start_date end_date])%list /\
    content_retrieval_history st' = content_retrieval_history st /\
    In (mkEvent ("Search error: " ++ "object of type 'NoneType' has no len()")
                PError None None) (progress st').
Proof.
  intros He Hl.
  assert (Hn : count_results response =
               Raise "object of type 'NoneType' has no len()").
  { destruct response as [x|x]; cbn in Hl; subst x; reflexivity. }
  rewrite (search_with_exa_uncounted cfg w query num_results start_date
             end_date st response _ He Hn).
  eexists. split; [reflexivity|]. cbn. repeat split.
  apply in_or_app. right. right. now left.
Qed.

Lemma search_uncountable_witness :
  exists st',
    search_with_exa example_config odd_world (PStr "metformin liver") None
                    PNone PNone init_state = (Ok None, st') /\
    search_history st' =
      (search_history init_state ++
       [mkSearchRecord (PStr "metformin liver")
          (now_isoformat odd_world (S (S (tick init_state))))
          (Some "object of type 'NoneType' has no len()") 0
          PNone PNone])%list /\
    content_retrieval_history st' = content_retrieval_history init_state /\
    In (mkEvent ("Search error: " ++ "object of type 'NoneType' has no len()")
                PError None None) (progress st').
Proof.
  apply (search_uncountable_is_failure example_config odd_world
           (PStr "metformin liver") None PNone PNone init_state
           (SDict (Some RNone))).
  - reflexivity.
  - reflexivity.
Defined.

(** X3. When the provider answers a search with a response that has no
    [results] member at all, the search is recorded as a success with 0
    results and the response is returned; it is the formatter that then
    reports the unexpected shape, as an [error] progress event, while
    rendering the fixed no-results string. *)
Theorem search_without_results_member
    cfg w query num_results start_date end_date st response :
  exa w (tick st)
      (search_params_of cfg query num_results start_date end_date) =
    Ok response ->
  response_results response = None ->
  exists st1 st2,
    search_with_exa cfg w query num_results start_date end_date st =
      (Ok (Some response), st1) /\
    search_history st1 =
      (search_history st ++
       [mkSearchRecord query (now_isoformat w (S (tick st))) None 0
                       start_date end_date])%list /\
    format_search_results (Some response) st1 =
      (Ok no_results_for_query, st2) /\
    progress st2 =
      (progress st1 ++
       [mkEvent "Unexpected search response format" PError None None])%list /\
    search_history st2 = search_history st1.
Proof.
  intros He Hl.
  assert (Hn : count_results response = Ok 0%N).
  { destruct response as [x|x]; cbn in Hl; subst x; reflexivity. }
  rewrite (search_with_exa_counted cfg w query num_results start_date end_date
             st response _ He Hn).
  do 2 eexists. split; [reflexivity|]. split; [reflexivity|].
  destruct response as [x|x]; cbn in Hl; subst x;
    (split; [reflexivity|]); split; reflexivity.
Qed.

Lemma search_without_results_witness :
  exists st1 st2,
    search_with_exa example_config blank_world (PStr "metformin liver") None
                    PNone PNone init_state = (Ok (Some (SObj None)), st1) /\
    search_history st1 =
      (search_history init_state ++
       [mkSearchRecord (PStr "metformin liver")
          (now_isoformat blank_world (S (tick init_state))) None 0
          PNone PNone])%list /\
    format_search_results (Some (SObj None)) st1 =
      (Ok no_results_for_query, st2) /\
    progress st2 =
      (progress st1 ++
       [mkEvent "Unexpected search response format" PError None None])%list /\
    search_history st2 = search_history st1.
Proof.
  apply (search_without_results_member example_config blank_world
           (PStr "metformin liver") None PNone PNone init_state (SObj None)).
  - reflexivity.
  - reflexivity.
Defined.

(** The three ways in which a search ends. *)
Lemma search_with_exa_cases cfg w query num_results start_date end_date st :
  exists r rec st',
    search_with_exa cfg w query num_results start_date end_date st =
      (Ok r, st') /\
    search_history st' = (search_history st ++ [rec])%list /\
    content_retrieval_history st' = content_retrieval_history st /\
    research_iterations st' = research_iterations st /\
    messages st' = messages st /\
    s_query rec = query /\
    s_start_date rec = start_date /\ s_end_date rec = end_date /\
    ((exists response n,
        r = Some response /\ count_results response = Ok n /\
        s_error rec = None /\ s_num_results rec = n) \/
     (exists e, r = None /\ s_error rec = Some e /\ s_num_results rec = 0%N)).
Proof.
  destruct (exa w (tick st)
              (search_params_of cfg query num_results start_date end_date))
    as [response|e] eqn:He.
  - destruct (count_results response) as [n|e] eqn:Hn.
    + rewrite (search_with_exa_counted cfg w query num_results start_date
                 end_date st response n He Hn).
      do 3 eexists. split; [reflexivity|]. cbn. repeat split. left.
      exists response, n. cbn. auto.
    + rewrite (search_with_exa_uncounted cfg w query num_results start_date
                 end_date st response e He Hn).
      do 3 eexists. split; [reflexivity|]. cbn. repeat split. right.
      exists e. cbn. auto.
  - rewrite (search_with_exa_raises cfg w query num_results start_date
               end_date st e He).
    do 3 eexists. split; [reflexivity|]. cbn. repeat split. right.
    exists e. cbn. auto.
Qed.

(** X4. Whether the provider raises or answers, and whatever the
    arguments are, a search returns without raising, having appended
    exactly one record for its query and dates and touched neither the
    conversation, nor the ledger, nor the other history. A record that
    carries an error counts 0 results and goes with a returned [None]: a
    search that returns a response has recorded no error. *)
Theorem search_always_records_once
    cfg w query num_results start_date end_date st :
  exists r rec st',
    search_with_exa cfg w query num_results start_date end_date st =
      (Ok r, st') /\
    search_history st' = (search_history st ++ [rec])%list /\
    content_retrieval_history st' = content_retrieval_history st /\
    research_iterations st' = research_iterations st /\
    messages st' = messages st /\
    s_query rec = query /\
    s_start_date rec = start_date /\ s_end_date rec = end_date /\
    (s_error rec <> None -> r = None /\ s_num_results rec = 0%N) /\
    (r <> None -> s_error rec = None).
Proof.
  destruct (search_with_exa_cases cfg w query num_results start_date end_date
              st)
    as (r & rec & st' & Heq & Hs & Hc & Hi & Hm & Hq & Hsd & Hed & Hcase).
  exists r, rec, st'. repeat (split; [assumption|]).
  destruct Hcase as [(response & n & -> & _ & He & _)|(e & -> & He & Hn)];
    rewrite He.
  - split; [intros H; now contradiction H | reflexivity].
  - split; [intros _; split; [reflexivity | exact Hn] |].
    intros H. now contradiction H.
Qed.

(** Every block begins with the dashes of its header. *)
Lemma format_block_nonempty ir : format_block ir <> EmptyString.
Proof.
  unfold format_block, format_article, article_placeholder, article_header.
  destruct ir as [idx [d|attrs]]; cbn [fst snd].
  - destruct (article_lines d); cbn; discriminate.
  - destruct (article_lines attrs); cbn; discriminate.
Qed.

Lemma join_nonempty sep b bs : b <> EmptyString -> join sep (b :: bs) <> EmptyString.
Proof.
  intros Hb. unfold join. cbn [String.concat].
  destruct b as [|c b]; [contradiction|].
  destruct bs; cbn; discriminate.
Qed.

(** Whenever the formatter returns, what it returns is not empty. *)
Lemma format_search_results_nonempty r st text st' :
  format_search_results r st = (Ok text, st') -> text <> EmptyString.
Proof.
  destruct r as [response|]; [|intros H; injection H as <- _; discriminate].
  destruct (response_results response) as [[l|]|] eqn:Hr.
  - rewrite (format_search_results_list response l st Hr).
    intros H. injection H as <- _.
    destruct (enumerate l) as [|ir irs]; cbn [map]; [discriminate|].
    apply join_nonempty, format_block_nonempty.
  - destruct response as [x|x]; cbn in Hr; subst x; discriminate.
  - destruct response as [x|x]; cbn in Hr; subst x;
      intros H; injection H as <- _; discriminate.
Qed.

(** X5. What a search returns can always be formatted: applied to the
    result of [search_with_exa], in the state that it leaves,
    [format_search_results] does not raise, in any world, and changes
    neither history. *)
Theorem search_then_format_returns
    cfg w query num_results start_date end_date st :
  exists r st1 text st2,
    search_with_exa cfg w query num_results start_date end_date st =
      (Ok r, st1) /\
    format_search_results r st1 = (Ok text, st2) /\
    text <> EmptyString /\
    search_history st2 = search_history st1 /\
    content_retrieval_history st2 = content_retrieval_history st1 /\
    messages st2 = messages st1.
Proof.
  destruct (search_with_exa_cases cfg w query num_results start_date end_date
              st)
    as (r & rec & st1 & Heq & _ & _ & _ & _ & _ & _ & _ & Hcase).
  exists r, st1.
  destruct Hcase as [(response & n & -> & Hn & _)|(e & -> & _)].
  - destruct (format_search_results_counted response n st1 Hn)
      as (text & evs & Hf).
    exists text. eexists. split; [exact Heq|]. split; [exact Hf|].
    split; [exact (format_search_results_nonempty _ _ _ _ Hf)|].
    cbn. auto.
  - exists no_search_results, st1. split; [exact Heq|].
    split; [reflexivity|]. split; [discriminate|]. auto.
Qed.

(** X6. The formatter raises on exactly one kind of input, a response
    whose [results] is [None]: the per-article loop is outside the [try]
    and fails with a [TypeError], the state being left as it was. On every
    other input it returns, and what it returns is never the empty
    string. *)
Theorem format_raises_only_on_results_none r st :
  if results_is_none r then
    format_search_results r st =
      (Raise "'NoneType' object is not iterable", st)
  else
    exists text st',
      format_search_results r st = (Ok text, st') /\ text <> EmptyString.
Proof.
  destruct (results_is_none r) eqn:Hr.
  - destruct r as [[[[l|]|]|[[l|]|]]|]; cbn in Hr; try discriminate;
      reflexivity.
  - assert (H : exists text st', format_search_results r st = (Ok text, st')).
    { destruct r as [[[[l|]|]|[[l|]|]]|]; cbn in Hr; try discriminate.
      - rewrite (format_search_results_list (SObj (Some (RList l))) l st
                   eq_refl). eauto.
      - do 2 eexists. reflexivity.
      - rewrite (format_search_results_list (SDict (Some (RList l))) l st
                   eq_refl). eauto.
      - do 2 eexists. reflexivity.
      - do 2 eexists. reflexivity. }
    destruct H as (text & st' & H). exists text, st'.
    split; [exact H | exact (format_search_results_nonempty _ _ _ _ H)].
Qed.

(** ** Further properties of the fetch adapter *)

Lemma slice_to_all s : forall n, (slen s <= n)%N -> slice_to n s = s.
Proof.
  induction s as [|c s IH]; intros n H; cbn [slice_to slen] in *;
    [reflexivity|].
  destruct (N.eqb_spec n 0) as [->|Hn]; [lia|].
  rewrite IH by lia. reflexivity.
Qed.

Lemma get_full_content_raises w url st e :
  firecrawl w (tick st) url = Raise e ->
  get_full_content w url st =
  (Ok error_retrieving_content,
   mkState (messages st) (research_iterations st) (search_history st)
     (content_retrieval_history st ++
        [mkFetchRecord url (now_isoformat w (S (tick st))) false None (Some e)])
     (progress st ++
        [mkEvent ("Retrieving content from: " ++ str url) PContent None None] ++
        [mkEvent ("Content retrieval error: " ++ e) PError None None])
     (S (S (tick st)))).
Proof.
  intros Hf. unfold get_full_content. run_monad. rewrite Hf. run_monad.
  rewrite <- app_assoc. reflexivity.
Qed.

Lemma get_full_content_not_str w url st response :
  firecrawl w (tick st) url = Ok response ->
  is_str (scraped_markdown response) = false ->
  get_full_content w url st =
  (Ok error_retrieving_content,
   mkState (messages st) (research_iterations st) (search_history st)
     (content_retrieval_history st ++
        [mkFetchRecord url (now_isoformat w (S (S (tick st)))) false None
           (Some ("object of type '" ++
                    type_name (scraped_markdown response) ++
                    "' has no len()"))])
     (progress st ++
        [mkEvent ("Retrieving content from: " ++ str url) PContent None None] ++
        [mkEvent ("Content retrieval error: " ++
                    ("object of type '" ++
                       type_name (scraped_markdown response) ++
                       "' has no len()")) PError None None])
     (S (S (S (tick st))))).
Proof.
  intros Hf Hs. unfold get_full_content. run_monad. rewrite Hf. run_monad.
  destruct (scraped_markdown response) as [ |s|z]; cbn in Hs;
    try discriminate; cbn [len type_name]; run_monad;
    rewrite <- app_assoc; reflexivity.
Qed.

(** X7. When the provider's scrape call raises [e], the fetch does not
    raise: it returns the marker ["Error retrieving content"], having
    appended exactly one record, a failure that carries [e] and no content
    length, and logged an [error] progress event; the search history, the
    ledger and the conversation are untouched. *)
Theorem fetch_fault_is_contained w url st e :
  firecrawl w (tick st) url = Raise e ->
  exists st',
    get_full_content w url st = (Ok error_retrieving_content, st') /\
    content_retrieval_history st' =
      (content_retrieval_history st ++
       [mkFetchRecord url (now_isoformat w (S (tick st))) false None
                      (Some e)])%list /\
    search_history st' = search_history st /\
    research_iterations st' = research_iterations st /\
    messages st' = messages st /\
    In (mkEvent ("Content retrieval error: " ++ e) PError None None)
       (progress st').
Proof.
  intros Hf. rewrite (get_full_content_raises w url st e Hf).
  eexists. split; [reflexivity|]. cbn. repeat split.
  apply in_or_app. right. right. now left.
Qed.

Lemma fetch_fault_witness :
  exists st',
    get_full_content failing_world (PStr "https://example.org/a") init_state =
      (Ok error_retrieving_content, st') /\
    content_retrieval_history st' =
      (content_retrieval_history init_state ++
       [mkFetchRecord (PStr "https://example.org/a")
          (now_isoformat failing_world (S (tick init_state))) false None
          (Some "timeout")])%list /\
    search_history st' = search_history init_state /\
    research_iterations st' = research_iterations init_state /\
    messages st' = messages init_state /\
    In (mkEvent ("Content retrieval error: " ++ "timeout") PError None None)
       (progress st').
Proof.
  apply (fetch_fault_is_contained failing_world (PStr "https://example.org/a")
           init_state "timeout").
  reflexivity.
Defined.

(** X8. When the provider answers but no markdown is found in its answer,
    in none of the places looked at, the fetch returns the marker and the
    record says [success = False]; yet that record carries no error and a
    content length, 24, which is the length of the marker itself. *)
Theorem fetch_without_markdown w url st response :
  firecrawl w (tick st) url = Ok response ->
  scraped_markdown response = PStr error_retrieving_content ->
  exists st',
    get_full_content w url st = (Ok error_retrieving_content, st') /\
    content_retrieval_history st' =
      (content_retrieval_history st ++
       [mkFetchRecord url (now_isoformat w (S (tick st))) false (Some 24%N)
                      None])%list /\
    search_history st' = search_history st.
Proof.
  intros Hf Hs.
  rewrite (get_full_content_success w url st response _ Hf Hs).
  eexists. split; [reflexivity|]. cbn. split; reflexivity.
Qed.

Lemma fetch_without_markdown_witness :
  exists st',
    get_full_content blank_world (PStr "https://example.org/a") init_state =
      (Ok error_retrieving_content, st') /\
    content_retrieval_history st' =
      (content_retrieval_history init_state ++
       [mkFetchRecord (PStr "https://example.org/a")
          (now_isoformat blank_world (S (tick init_state))) false (Some 24%N)
          None])%list /\
    search_history st' = search_history init_state.
Proof.
  apply (fetch_without_markdown blank_world (PStr "https://example.org/a")
           init_state (FObj None (Some DOther))).
  - reflexivity.
  - reflexivity.
Defined.

(** X9. When the markdown found in the provider's answer is not a string
    ([None], a number), taking its length fails inside the [try], before
    anything is appended: the fetch returns the marker and appends one
    record only, a failure that carries the text of the [TypeError]. *)
Theorem fetch_markdown_not_a_string w url st response :
  firecrawl w (tick st) url = Ok response ->
  is_str (scraped_markdown response) = false ->
  exists st',
    get_full_content w url st = (Ok error_retrieving_content, st') /\
    content_retrieval_history st' =
      (content_retrieval_history st ++
       [mkFetchRecord url (now_isoformat w (S (S (tick st)))) false None
          (Some ("object of type '" ++
                   type_name (scraped_markdown response) ++
                   "' has no len()")%string)])%list /\
    search_history st' = search_history st.
Proof.
  intros Hf Hs. rewrite (get_full_content_not_str w url st response Hf Hs).
  eexists. split; [reflexivity|]. cbn. split; reflexivity.
Qed.

Lemma fetch_markdown_not_a_string_witness :
  exists st',
    get_full_content odd_world (PStr "https://example.org/a") init_state =
      (Ok error_retrieving_content, st') /\
    content_retrieval_history st' =
      (content_retrieval_history init_state ++
       [mkFetchRecord (PStr "https://example.org/a")
          (now_isoformat odd_world (S (S (tick init_state)))) false None
          (Some ("object of type '" ++
                   type_name (scraped_markdown (FObj (Some PNone) None)) ++
                   "' has no len()")%string)])%list /\
    search_history st' = search_history init_state.
Proof.
  apply (fetch_markdown_not_a_string odd_world (PStr "https://example.org/a")
           init_state (FObj (Some PNone) None)).
  - reflexivity.
  - reflexivity.
Defined.

(** X10. A markdown text of at most 100,000 characters is returned whole,
    and the content length logged for it is the length of what is
    returned. *)
Theorem fetch_short_text_is_whole w url st response s :
  firecrawl w (tick st) url = Ok response ->
  scraped_markdown response = PStr s ->
  (slen s <= 100000)%N ->
  exists st' rec,
    get_full_content w url st = (Ok s, st') /\
    content_retrieval_history st' =
      (content_retrieval_history st ++ [rec])%list /\
    c_content_length rec = Some (slen s) /\
    c_error rec = None.
Proof.
  intros Hf Hs Hlen.
  rewrite (get_full_content_success w url st response s Hf Hs).
  rewrite (slice_to_all s max_content Hlen).
  do 2 eexists. split; [reflexivity|]. cbn. repeat split.
Qed.

Lemma fetch_short_text_witness :
  exists st' rec,
    get_full_content steady_world (PStr "https://example.org/a") init_state =
      (Ok "# Metformin", st') /\
    content_retrieval_history st' =
      (content_retrieval_history init_state ++ [rec])%list /\
    c_content_length rec = Some (slen "# Metformin") /\
    c_error rec = None.
Proof.
  apply (fetch_short_text_is_whole steady_world (PStr "https://example.org/a")
           init_state
           (FDict (Some (DDict [("markdown", PStr "# Metformin")])) None)
           "# Metformin").
  - reflexivity.
  - reflexivity.
  - vm_compute. discriminate.
Defined.

Lemma slice_is_marker s :
  slice_to max_content s = error_retrieving_content <->
  s = error_retrieving_content.
Proof.
  split.
  - intros H. pose proof (f_equal slen H) as L.
    rewrite slen_slice_to in L.
    change (slen error_retrieving_content) with 24%N in L.
    unfold max_content in *.
    rewrite slice_to_all in H by lia. exact H.
  - intros ->. reflexivity.
Qed.

(** X11. Whatever the provider does, a fetch returns without raising a text
    of at most 100,000 characters, having appended exactly one record for
    its url and touched neither the conversation, nor the ledger, nor the
    search history. The text returned is the marker
    ["Error retrieving content"] exactly when that record says
    [success = False]. *)
Theorem fetch_always_records_once w url st :
  exists r rec st',
    get_full_content w url st = (Ok r, st') /\
    content_retrieval_history st' =
      (content_retrieval_history st ++ [rec])%list /\
    search_history st' = search_history st /\
    research_iterations st' = research_iterations st /\
    messages st' = messages st /\
    c_url rec = url /\
    (slen r <= 100000)%N /\
    (r = error_retrieving_content <-> c_success rec = false).
Proof.
  destruct (firecrawl w (tick st) url) as [response|e] eqn:Hf.
  - destruct (scraped_markdown response) as [ |s|z] eqn:Hs.
    + rewrite (get_full_content_not_str w url st response Hf)
        by (rewrite Hs; reflexivity).
      do 3 eexists. split; [reflexivity|]. cbn. repeat split; lia.
    + rewrite (get_full_content_success w url st response s Hf Hs).
      do 3 eexists. split; [reflexivity|].
      cbn [content_retrieval_history search_history research_iterations
           messages c_url c_success].
      repeat (split; [reflexivity|]).
      split; [rewrite slen_slice_to; unfold max_content; lia|].
      cbn [c_success].
      rewrite slice_is_marker, negb_false_iff, String.eqb_eq. reflexivity.
    + rewrite (get_full_content_not_str w url st response Hf)
        by (rewrite Hs; reflexivity).
      do 3 eexists. split; [reflexivity|]. cbn. repeat split; lia.
  - rewrite (get_full_content_raises w url st e Hf).
    do 3 eexists. split; [reflexivity|]. cbn. repeat split; lia.
Qed.

(** ** Further properties of the formatter *)

Lemma slen_append a b : slen (a ++ b) = (slen a + slen b)%N.
Proof. induction a as [|c a IH]; cbn [append slen]; [|rewrite IH]; lia. Qed.

Lemma excerpt_raises_iff v : (exists e, excerpt v = Raise e) <-> is_str v = false.
Proof.
  destruct v as [ |s|z]; cbn.
  - split; [reflexivity | eauto].
  - split; [|discriminate]. intros [e H].
    destruct (2000 <? slen s)%N; discriminate.
  - split; [reflexivity | eauto].
Qed.

Lemma article_lines_raises_iff f :
  (exists e, article_lines f = Raise e) <->
  (exists v, lookup "text" f = Some v /\ is_str v = false).
Proof.
  unfold article_lines. destruct (lookup "text" f) as [v|].
  - split.
    + intros [e H]. exists v. split; [reflexivity|].
      apply excerpt_raises_iff. destruct (excerpt v); [discriminate|eauto].
    + intros (v' & E & Hv). injection E as <-.
      apply excerpt_raises_iff in Hv as [e He]. rewrite He. eauto.
  - split; [intros [e H]; discriminate | intros (v & E & _); discriminate].
Qed.

(** X12. The per-article formatting fails, so that the placeholder takes
    the place of the block, exactly on the entries that have a [text]
    member which is not a string; in particular no missing member and no
    value of the other members makes it fail. *)
Theorem format_article_raises_iff idx result :
  (exists e, format_article idx result = Raise e) <->
  (exists v, lookup "text" (entry_fields result) = Some v /\ is_str v = false).
Proof.
  rewrite <- article_lines_raises_iff.
  destruct result as [d|attrs]; cbn [format_article entry_fields].
  - destruct (article_lines d) as [t|e0]; split; intros [e H];
      try discriminate; eauto.
  - destruct (article_lines attrs) as [t|e0]; split; intros [e H];
      try discriminate; eauto.
Qed.

Lemma slice_to_prefix a b : slice_to (slen a) (a ++ b) = a.
Proof.
  induction a as [|c a IH]; cbn [append slen slice_to].
  - destruct b; reflexivity.
  - destruct (N.eqb_spec (N.succ (slen a)) 0) as [E|_]; [lia|].
    rewrite N.pred_succ, IH. reflexivity.
Qed.

(** X13. The excerpt rendered for a [text] of at most 2000 characters is
    the text itself; for a longer one it is its first 2000 characters
    followed by ["..."]. So an excerpt is never longer than 2003
    characters, and agrees with the text on the first 2000. *)
Theorem excerpt_is_capped s :
  exists c,
    excerpt (PStr s) = Ok c /\
    (slen c <= 2003)%N /\
    slice_to 2000 c = slice_to 2000 s /\
    if (2000 <? slen s)%N
    then c = slice_to 2000 s ++ "..." /\ slen c = 2003%N
    else c = s.
Proof.
  unfold excerpt. cbn [len slice str].
  destruct (N.ltb_spec 2000 (slen s)) as [H|H].
  - eexists. split; [reflexivity|].
    assert (L : slen (slice_to 2000 s) = 2000%N)
      by (rewrite slen_slice_to; lia).
    assert (Lc : slen (slice_to 2000 s ++ "...") = 2003%N)
      by (rewrite slen_append, L; reflexivity).
    split; [lia|]. split; [|split; [reflexivity | exact Lc]].
    rewrite <- L at 1. apply slice_to_prefix.
  - eexists. split; [reflexivity|]. split; [lia|]. split; reflexivity.
Qed.

(** ** Further properties of the conversation driver *)

(** The conversation after the [web_search] branch. *)
Lemma handle_web_search_effect cfg w response input id st :
  exists o st' rec c tail,
    handle_web_search cfg w response input id st = (o, st') /\
    search_history st' = (search_history st ++ [rec])%list /\
    content_retrieval_history st' = content_retrieval_history st /\
    research_iterations st' = research_iterations st /\
    messages st' =
      (messages st ++
       [mkMessage Assistant (CBlocks response);
        mkMessage User (CToolResult id c)] ++ tail)%list /\
    match o with
    | Ok text =>
        exists analysis,
          tail = [mkMessage Assistant (CBlocks analysis)] /\
          text = join nl (text_items analysis)
    | Raise e => tail = [] /\ exists t req, claude w t req = Raise e
    end.
Proof.
  unfold handle_web_search. run_monad.
  match goal with
  | |- context [search_with_exa ?a ?b ?q ?n ?sd ?ed ?s] =>
      destruct (search_with_exa_spec a b q n sd ed s)
        as (r & rec & t & evs & Heq & _ & _ & Hq & Hr);
      rewrite Heq
  end.
  run_monad.
  destruct Hr as [->|(resp & n & -> & Hn)].
  - unfold format_search_results. run_monad.
    match goal with
    | |- context [claude w ?t ?req] =>
        destruct (claude w t req) as [analysis|e] eqn:Hcl
    end; run_monad;
      do 5 eexists; (split; [reflexivity|]);
      cbn [search_history content_retrieval_history research_iterations
           messages];
      repeat (split; [reflexivity|]);
      rewrite <- ?app_assoc; cbn [app];
      (split; [reflexivity|]); eauto.
  - match goal with
    | |- context [format_search_results (Some resp) ?s] =>
        destruct (format_search_results_counted resp n s Hn)
          as (text & evs' & Hf); rewrite Hf
    end.
    run_monad. rewrite Hn. run_monad.
    match goal with
    | |- context [claude w ?t ?req] =>
        destruct (claude w t req) as [analysis|e] eqn:Hcl
    end; run_monad;
      do 5 eexists; (split; [reflexivity|]);
      cbn [search_history content_retrieval_history research_iterations
           messages];
      repeat (split; [reflexivity|]);
      rewrite <- ?app_assoc; cbn [app];
      (split; [reflexivity|]); eauto.
Qed.

(** The conversation after the [get_article_content] branch. *)
Lemma handle_get_article_content_effect cfg w response input id st :
  exists o st' rec c tail,
    handle_get_article_content cfg w response input id st = (o, st') /\
    content_retrieval_history st' =
      (content_retrieval_history st ++ [rec])%list /\
    search_history st' = search_history st /\
    research_iterations st' = research_iterations st /\
    messages st' =
      (messages st ++
       [mkMessage Assistant (CBlocks response);
        mkMessage User (CToolResult id c)] ++ tail)%list /\
    match o with
    | Ok text =>
        exists analysis,
          tail = [mkMessage Assistant (CBlocks analysis)] /\
          text = join nl (text_items analysis)
    | Raise e => tail = [] /\ exists t req, claude w t req = Raise e
    end.
Proof.
  unfold handle_get_article_content. run_monad.
  match goal with
  | |- context [get_full_content ?a ?u ?s] =>
      destruct (get_full_content_spec a u s)
        as (r & rec & t & evs & Heq & _ & _ & Hu);
      rewrite Heq
  end.
  run_monad.
  match goal with
  | |- context [claude w ?t ?req] =>
      destruct (claude w t req) as [analysis|e] eqn:Hcl
  end; run_monad;
    do 5 eexists; (split; [reflexivity|]);
    cbn [search_history content_retrieval_history research_iterations
         messages];
    repeat (split; [reflexivity|]);
    rewrite <- ?app_assoc; cbn [app];
    (split; [reflexivity|]); eauto.
Qed.

(** A list of blocks holds no tool invocation, or a first one. *)
Lemma first_invocation items :
  forallb (fun b => negb (is_tool_invocation b)) items = true \/
  exists pre name input id rest,
    items = (pre ++ ToolUse name input id :: rest)%list /\
    forallb (fun b => negb (is_tool_invocation b)) pre = true /\
    is_tool_invocation (ToolUse name input id) = true.
Proof.
  induction items as [|b items IH]; [now left|].
  destruct (is_tool_invocation b) eqn:Hb.
  - right. destruct b as [t|name input id| ]; try discriminate.
    exists [], name, input, id, items. auto.
  - destruct IH as [IH|(pre & name & input & id & rest & -> & Hpre & Hinv)].
    + left. cbn [forallb]. now rewrite Hb, IH.
    + right. exists (b :: pre), name, input, id, rest.
      cbn [forallb app]. rewrite Hb, Hpre. auto.
Qed.

(** Over blocks that hold no tool invocation the loop runs to its end and
    does nothing. *)
Lemma dispatch_none cfg w response items st :
  forallb (fun b => negb (is_tool_invocation b)) items = true ->
  dispatch cfg w response items st = (Ok None, st).
Proof.
  intros H. rewrite <- (app_nil_r items).
  rewrite (dispatch_skip cfg w response items [] H). reflexivity.
Qed.

(** What the driver does when the model does not answer. *)
Lemma run_research_iteration_unanswered cfg w st e :
  claude w (tick st) (iteration_request cfg st) = Raise e ->
  run_research_iteration cfg w st =
  (Ok ("An error occurred: " ++ e),
   mkState (messages st) (research_iterations st) (search_history st)
     (content_retrieval_history st)
     (progress st ++
        [mkEvent "Requesting Claude's analysis..." PInfo None None] ++
        [mkEvent ("Error during research iteration: " ++ e) PError
                 None None])
     (S (tick st))).
Proof.
  intros H. unfold run_research_iteration, run_research_iteration_body.
  unfold iteration_request in H. run_monad. rewrite H. run_monad.
  rewrite <- app_assoc. reflexivity.
Qed.

(** What the driver does with an answer that holds no tool invocation. *)
Lemma run_research_iteration_plain cfg w st response :
  claude w (tick st) (iteration_request cfg st) = Ok response ->
  forallb (fun b => negb (is_tool_invocation b)) response = true ->
  run_research_iteration cfg w st =
  (Ok (join nl (text_items response)),
   mkState (messages st ++ [mkMessage Assistant (CBlocks response)])
     (research_iterations st) (search_history st)
     (content_retrieval_history st)
     (progress st ++
        [mkEvent "Requesting Claude's analysis..." PInfo None None] ++
        [mkEvent "Claude is analyzing the research topic..." PInfo
                 None None] ++
        [mkEvent "Claude is formulating research strategy..." PInfo
                 None None])
     (S (tick st))).
Proof.
  intros H Hno. rewrite (run_research_iteration_answered cfg w st _ H).
  unfold try_except, bind at 1.
  rewrite (dispatch_none cfg w response response _ Hno).
  run_monad. rewrite <- !app_assoc. reflexivity.
Qed.

(** One call of the driver: what it appends to the conversation and to the
    histories, by case. *)
Lemma run_research_iteration_effect cfg w st :
  exists text st' more ns nc,
    run_research_iteration cfg w st = (Ok text, st') /\
    messages st' = (messages st ++ more)%list /\
    search_history st' = (search_history st ++ ns)%list /\
    content_retrieval_history st' = (content_retrieval_history st ++ nc)%list /\
    research_iterations st' = research_iterations st /\
    length ns + length nc = length (tool_results more) /\
    ((more = [] /\ exists t req e, claude w t req = Raise e) \/
     (exists response, more = [mkMessage Assistant (CBlocks response)]) \/
     (exists response id c,
        more = [mkMessage Assistant (CBlocks response);
                mkMessage User (CToolResult id c)] /\
        exists t req e, claude w t req = Raise e) \/
     (exists response id c analysis,
        more = [mkMessage Assistant (CBlocks response);
                mkMessage User (CToolResult id c);
                mkMessage Assistant (CBlocks analysis)])).
Proof.
  destruct (claude w (tick st) (iteration_request cfg st))
    as [response|e] eqn:Hcl.
  - destruct (first_invocation response)
      as [Hno|(pre & name & input & id & rest & Hresp & Hpre & Hinv)].
    + rewrite (run_research_iteration_plain cfg w st response Hcl Hno).
      exists (join nl (text_items response)). eexists.
      exists [mkMessage Assistant (CBlocks response)], [], [].
      split; [reflexivity|]. cbn. rewrite !app_nil_r.
      repeat (split; [reflexivity|]). right. left. eauto.
    + rewrite (run_research_iteration_answered cfg w st _ Hcl).
      subst response.
      set (response := (pre ++ ToolUse name input id :: rest)%list).
      unfold try_except, bind. unfold response at 2.
      rewrite (dispatch_skip cfg w response pre _ Hpre). cbn [dispatch].
      cbn [is_tool_invocation] in Hinv.
      destruct (String.eqb name "web_search").
      * unfold bind.
        match goal with
        | |- context [handle_web_search cfg w response input id ?s] =>
            destruct (handle_web_search_effect cfg w response input id s)
              as (o & st' & rec & c & tail & Heq & Hs & Hc & Hi & Hm & Ho);
            rewrite Heq
        end.
        cbn in Hs, Hc, Hi, Hm.
        destruct o as [text|e].
        -- destruct Ho as (analysis & -> & _). run_monad.
           exists text, st'. eexists. exists [rec], [].
           split; [reflexivity|]. split; [exact Hm|].
           rewrite Hs, Hc, Hi, app_nil_r. repeat (split; [reflexivity|]).
           right. right. right. eauto.
        -- destruct Ho as (-> & Hfail). run_monad.
           do 2 eexists. eexists. exists [rec], [].
           split; [reflexivity|]. cbn. split; [exact Hm|].
           rewrite Hs, Hc, Hi, app_nil_r. repeat (split; [reflexivity|]).
           right. right. left. do 3 eexists. split; [reflexivity|].
           destruct Hfail as (t & req & Hfail). eauto.
      * cbn [orb] in Hinv. rewrite Hinv. unfold bind.
        match goal with
        | |- context [handle_get_article_content cfg w response input id ?s] =>
            destruct (handle_get_article_content_effect cfg w response input
                        id s)
              as (o & st' & rec & c & tail & Heq & Hc & Hs & Hi & Hm & Ho);
            rewrite Heq
        end.
        cbn in Hs, Hc, Hi, Hm.
        destruct o as [text|e].
        -- destruct Ho as (analysis & -> & _). run_monad.
           exists text, st'. eexists. exists [], [rec].
           split; [reflexivity|]. split; [exact Hm|].
           rewrite Hs, Hc, Hi, app_nil_r. repeat (split; [reflexivity|]).
           right. right. right. eauto.
        -- destruct Ho as (-> & Hfail). run_monad.
           do 2 eexists. eexists. exists [], [rec].
           split; [reflexivity|]. cbn. split; [exact Hm|].
           rewrite Hs, Hc, Hi, app_nil_r. repeat (split; [reflexivity|]).
           right. right. left. do 3 eexists. split; [reflexivity|].
           destruct Hfail as (t & req & Hfail). eauto.
  - rewrite (run_research_iteration_unanswered cfg w st e Hcl).
    do 2 eexists. exists [], [], [].
    split; [reflexivity|]. cbn. rewrite !app_nil_r.
    repeat (split; [reflexivity|]). left. eauto.
Qed.

(** X14. When the model's answer holds no invocation of a tool of the
    manifest (be it plain text, or a [tool_use] block that names another
    tool, such as the [get_full_content] of the system prompt), the driver
    calls no adapter: it returns the text blocks of the answer joined by
    newlines and appends the raw answer to the conversation, as one
    assistant message; the histories are untouched and the model was called
    once. *)
Theorem plain_answer_is_stored cfg w st response :
  claude w (tick st) (iteration_request cfg st) = Ok response ->
  forallb (fun b => negb (is_tool_invocation b)) response = true ->
  exists st',
    run_research_iteration cfg w st =
      (Ok (join nl (text_items response)), st') /\
    messages st' =
      (messages st ++ [mkMessage Assistant (CBlocks response)])%list /\
    search_history st' = search_history st /\
    content_retrieval_history st' = content_retrieval_history st /\
    research_iterations st' = research_iterations st /\
    tick st' = S (tick st).
Proof.
  intros H Hno. rewrite (run_research_iteration_plain cfg w st response H Hno).
  eexists. split; [reflexivity|]. cbn. auto.
Qed.

Lemma plain_answer_witness :
  exists st',
    run_research_iteration example_config odd_world init_state =
      (Ok (join nl (text_items plain_response)), st') /\
    messages st' =
      (messages init_state ++
       [mkMessage Assistant (CBlocks plain_response)])%list /\
    search_history st' = search_history init_state /\
    content_retrieval_history st' = content_retrieval_history init_state /\
    research_iterations st' = research_iterations init_state /\
    tick st' = S (tick init_state).
Proof.
  apply (plain_answer_is_stored example_config odd_world init_state
           plain_response).
  - reflexivity.
  - reflexivity.
Defined.

(** X15. When the first completion of an iteration raises [e], the driver
    returns ["An error occurred: e"] and leaves the conversation, the
    ledger and both histories exactly as they were: nothing was appended,
    and no adapter was called. *)
Theorem unanswered_iteration_changes_nothing cfg w st e :
  claude w (tick st) (iteration_request cfg st) = Raise e ->
  exists st',
    run_research_iteration cfg w st = (Ok ("An error occurred: " ++ e), st') /\
    messages st' = messages st /\
    search_history st' = search_history st /\
    content_retrieval_history st' = content_retrieval_history st /\
    research_iterations st' = research_iterations st /\
    tick st' = S (tick st).
Proof.
  intros H. rewrite (run_research_iteration_unanswered cfg w st e H).
  eexists. split; [reflexivity|]. cbn. auto.
Qed.

Lemma unanswered_iteration_witness :
  exists st',
    run_research_iteration example_config failing_world init_state =
      (Ok ("An error occurred: " ++ "overloaded"), st') /\
    messages st' = messages init_state /\
    search_history st' = search_history init_state /\
    content_retrieval_history st' = content_retrieval_history init_state /\
    research_iterations st' = research_iterations init_state /\
    tick st' = S (tick init_state).
Proof.
  apply (unanswered_iteration_changes_nothing example_config failing_world
           init_state "overloaded").
  reflexivity.
Defined.

(** X16. In every world and state, one call of the driver returns, and
    only extends the conversation and the histories at their ends: by at
    most three messages, of which at most one is a tool result, and by as
    many history records as it fed back tool results. The ledger is not
    touched. *)
Theorem driver_call_only_appends cfg w st :
  exists text st' more ns nc,
    run_research_iteration cfg w st = (Ok text, st') /\
    messages st' = (messages st ++ more)%list /\
    search_history st' = (search_history st ++ ns)%list /\
    content_retrieval_history st' = (content_retrieval_history st ++ nc)%list /\
    research_iterations st' = research_iterations st /\
    length ns + length nc = length (tool_results more) /\
    length (tool_results more) <= 1 /\
    length more <= 3.
Proof.
  destruct (run_research_iteration_effect cfg w st)
    as (text & st' & more & ns & nc & Heq & Hm & Hs & Hc & Hi & Hn & Hshape).
  exists text, st', more, ns, nc. repeat (split; [assumption|]).
  destruct Hshape as [(-> & _)|[(r & ->)|[(r & id & c & -> & _)|
                      (r & id & c & a & ->)]]]; cbn; lia.
Qed.

(** ** Iteration events *)

Lemma iteration_events_app a b :
  iteration_events (a ++ b) = (iteration_events a ++ iteration_events b)%list.
Proof.
  induction a as [|e a IH]; cbn [app iteration_events]; [reflexivity|].
  destruct (ev_type e); rewrite IH; reflexivity.
Qed.

Lemma same_turns_refl st : same_turns st st.
Proof. reflexivity. Qed.

Lemma same_turns_trans a b c : same_turns a b -> same_turns b c -> same_turns a c.
Proof. unfold same_turns. congruence. Qed.

Lemma turns_update_progress msg ty a b :
  ty <> PIteration -> keeps same_turns (update_progress msg ty a b).
Proof.
  intros Hty st. unfold same_turns. cbn.
  rewrite iteration_events_app. cbn.
  destruct ty; try contradiction; now rewrite app_nil_r.
Qed.

Ltac turns_step :=
  first
    [ apply (keeps_bind same_turns same_turns_trans); [ | intro ]
    | apply (keeps_try_except same_turns same_turns_trans); [ | intro ]
    | apply (keeps_ret same_turns same_turns_refl)
    | apply (keeps_lift same_turns same_turns_refl)
    | apply (keeps_gets same_turns same_turns_refl)
    | apply turns_update_progress; discriminate
    | apply (keeps_for_each same_turns same_turns_refl same_turns_trans);
      intro
    | match goal with
      | |- keeps same_turns (append_message _) => intro; reflexivity
      | |- keeps same_turns (append_search _) => intro; reflexivity
      | |- keeps same_turns (append_retrieval _) => intro; reflexivity
      | |- keeps same_turns (external _) => intro; reflexivity
      | |- keeps same_turns (now _) => intro; reflexivity
      end ].

Lemma turns_search_with_exa cfg w query num_results start_date end_date :
  keeps same_turns
        (search_with_exa cfg w query num_results start_date end_date).
Proof. unfold search_with_exa. repeat turns_step. Qed.

Lemma turns_get_full_content w url : keeps same_turns (get_full_content w url).
Proof. unfold get_full_content. repeat turns_step. Qed.

Lemma turns_format_search_results r :
  keeps same_turns (format_search_results r).
Proof.
  unfold format_search_results. destruct r as [response|]; [|turns_step].
  turns_step.
  - turns_step; [|repeat turns_step].
    destruct response as [[r|]|[r|]]; repeat turns_step.
  - destruct a as [early|results]; [turns_step|].
    turns_step; [turns_step|].
    destruct (map format_block (enumerate a)); turns_step.
Qed.

Lemma turns_extract_text_content bs : keeps same_turns (extract_text_content bs).
Proof. unfold extract_text_content. repeat turns_step. Qed.

Lemma turns_handle_web_search cfg w response input id :
  keeps same_turns (handle_web_search cfg w response input id).
Proof.
  unfold handle_web_search.
  turns_step; [turns_step|].
  turns_step; [turns_step|].
  turns_step; [apply turns_search_with_exa|].
  turns_step; [apply turns_format_search_results|].
  turns_step; [destruct a1; turns_step|].
  turns_step; [turns_step|].
  turns_step; [turns_step|].
  turns_step; [turns_step|].
  turns_step; [turns_step|].
  turns_step; [turns_step|].
  turns_step; [apply turns_extract_text_content|].
  repeat turns_step.
Qed.

Lemma turns_handle_get_article_content cfg w response input id :
  keeps same_turns (handle_get_article_content cfg w response input id).
Proof.
  unfold handle_get_article_content.
  turns_step; [turns_step|].
  turns_step; [turns_step|].
  turns_step; [apply turns_get_full_content|].
  turns_step; [turns_step|].
  turns_step; [turns_step|].
  turns_step; [turns_step|].
  turns_step; [turns_step|].
  turns_step; [turns_step|].
  turns_step; [apply turns_extract_text_content|].
  repeat turns_step.
Qed.

Lemma turns_dispatch cfg w response items :
  keeps same_turns (dispatch cfg w response items).
Proof.
  induction items as [|item rest IH]; cbn [dispatch]; [turns_step|].
  destruct item as [t|name input id| ]; try exact IH.
  destruct (String.eqb name "web_search").
  { turns_step; [apply turns_handle_web_search | turns_step]. }
  destruct (String.eqb name "get_article_content").
  { turns_step; [apply turns_handle_get_article_content | turns_step]. }
  exact IH.
Qed.

Lemma turns_run_research_iteration cfg w :
  keeps same_turns (run_research_iteration cfg w).
Proof.
  unfold run_research_iteration, run_research_iteration_body.
  turns_step; [|repeat turns_step].
  turns_step; [turns_step|].
  turns_step; [turns_step|].
  turns_step; [turns_step|].
  turns_step; [apply turns_extract_text_content|].
  turns_step; [turns_step|].
  turns_step; [apply turns_dispatch|].
  destruct a4; repeat turns_step.
Qed.

Lemma turns_final_synthesis cfg w user_query max_iterations :
  keeps same_turns (final_synthesis cfg w user_query max_iterations).
Proof.
  unfold final_synthesis.
  turns_step; [turns_step|].
  turns_step; [turns_step|].
  turns_step.
  - turns_step; [turns_step|].
    turns_step; [turns_step|].
    turns_step; [apply turns_extract_text_content|].
    repeat turns_step.
  - repeat turns_step.
Qed.

(** ** The loop, turn by turn *)

(** One turn of the loop, as a whole. *)
Lemma research_step_full cfg w user_query max_iterations i st text st1 ss cs :
  run_research_iteration cfg w (announced max_iterations i st) =
    (Ok text, st1) ->
  (forall st1', research_iterations st1' = research_iterations st1 ->
                search_history st1' = search_history st1 ->
                content_retrieval_history st1' = content_retrieval_history st1 ->
                iteration_slices i st1' = (Ok (ss, cs), st1')) ->
  research_step cfg w user_query max_iterations i st =
  (Ok tt,
   mkState
     (if (i <? max_iterations - 1)%Z
      then messages st1 ++ [mkMessage User (CText (next_prompt user_query))]
      else messages st1)
     (research_iterations st1 ++
        [mkIteration (i + 1) user_query text ss cs
                     (now_isoformat w (tick st1))])
     (search_history st1) (content_retrieval_history st1) (progress st1)
     (S (tick st1))).
Proof.
  intros Hrun Hsl. unfold research_step.
  unfold bind at 1. unfold update_progress at 1, modify at 1.
  unfold announced, update_progress, modify in Hrun. cbn [snd] in Hrun.
  unfold bind at 1. rewrite Hrun.
  unfold bind at 1, now at 1, external at 1.
  unfold bind at 1. rewrite Hsl by reflexivity.
  run_monad.
  destruct (i <? max_iterations - 1)%Z; run_monad; reflexivity.
Qed.

(** The slices of a turn exist as soon as the ledger allows for them. *)
Lemma iteration_slices_exist i st1 :
  i = 0%Z \/ research_iterations st1 <> [] ->
  exists ss cs, forall st1',
    research_iterations st1' = research_iterations st1 ->
    search_history st1' = search_history st1 ->
    content_retrieval_history st1' = content_retrieval_history st1 ->
    iteration_slices i st1' = (Ok (ss, cs), st1').
Proof.
  intros Hi. destruct (Z.eq_dec i 0) as [->|Hne].
  - do 2 eexists. intros st1' _ E2 E3.
    rewrite iteration_slices_first, E2, E3. reflexivity.
  - destruct Hi as [Hi|Hi]; [contradiction|].
    destruct (last_item_nonempty (research_iterations st1)) as [last Hl];
      [exact Hi|].
    do 2 eexists. intros st1' E1 E2 E3.
    rewrite (iteration_slices_later i st1' last Hne) by congruence.
    rewrite E2, E3. reflexivity.
Qed.

(** One turn of the loop: what it appends, and the event it logs. *)
Lemma research_step_effect cfg w user_query max_iterations i st :
  i = 0%Z \/ research_iterations st <> [] ->
  exists st2 more ns nc r,
    research_step cfg w user_query max_iterations i st = (Ok tt, st2) /\
    messages st2 =
      (messages st ++ more ++
       (if (i <? max_iterations - 1)%Z
        then [mkMessage User (CText (next_prompt user_query))]
        else []))%list /\
    search_history st2 = (search_history st ++ ns)%list /\
    content_retrieval_history st2 = (content_retrieval_history st ++ nc)%list /\
    research_iterations st2 = (research_iterations st ++ [r])%list /\
    iteration_events (progress st2) =
      (iteration_events (progress st) ++
       [(Some (i + 1)%Z, Some max_iterations)])%list /\
    length ns + length nc = length (tool_results more) /\
    ((more = [] /\ exists t req e, claude w t req = Raise e) \/
     (exists response, more = [mkMessage Assistant (CBlocks response)]) \/
     (exists response id c,
        more = [mkMessage Assistant (CBlocks response);
                mkMessage User (CToolResult id c)] /\
        exists t req e, claude w t req = Raise e) \/
     (exists response id c analysis,
        more = [mkMessage Assistant (CBlocks response);
                mkMessage User (CToolResult id c);
                mkMessage Assistant (CBlocks analysis)])).
Proof.
  intros Hi.
  destruct (run_research_iteration_effect cfg w
              (announced max_iterations i st))
    as (text & st1 & more & ns & nc & Hrun & Hm & Hs & Hc & Hits & Hn & Hshape).
  pose proof (turns_run_research_iteration cfg w
                (announced max_iterations i st)) as Ht.
  rewrite Hrun in Ht. unfold same_turns in Ht. cbn in Ht, Hm, Hs, Hc, Hits.
  rewrite iteration_events_app in Ht. cbn in Ht.
  destruct (iteration_slices_exist i st1) as (ss & cs & Hsl).
  { rewrite Hits. exact Hi. }
  rewrite (research_step_full cfg w user_query max_iterations i st text st1
             ss cs Hrun Hsl).
  eexists. exists more, ns, nc. eexists. split; [reflexivity|].
  cbn [messages search_history content_retrieval_history research_iterations
       progress].
  rewrite Hm, Hs, Hc, Hits, Ht.
  split.
  { destruct (i <? max_iterations - 1)%Z;
      rewrite <- ?app_assoc, ?app_nil_r; reflexivity. }
  repeat (split; [reflexivity|]). split; [exact Hn | exact Hshape].
Qed.

Lemma loop_effect cfg w user_query max_iterations : forall n k st,
  k = 0 \/ research_iterations st <> [] ->
  exists st' added ns nc,
    for_each (map Z.of_nat (seq k n))
             (research_step cfg w user_query max_iterations) st =
      (Ok tt, st') /\
    messages st' = (messages st ++ added)%list /\
    search_history st' = (search_history st ++ ns)%list /\
    content_retrieval_history st' = (content_retrieval_history st ++ nc)%list /\
    length ns + length nc = length (tool_results added) /\
    length (tool_results added) <= n /\
    iteration_events (progress st') =
      (iteration_events (progress st) ++
       map (fun i => (Some (Z.of_nat i + 1)%Z, Some max_iterations))
           (seq k n))%list.
Proof.
  induction n as [|n IH]; intros k st Hk.
  - exists st, [], [], []. cbn. rewrite !app_nil_r. repeat split. lia.
  - cbn [seq map for_each].
    destruct (research_step_effect cfg w user_query max_iterations
                (Z.of_nat k) st)
      as (st2 & more & ns & nc & r & Heq & Hm & Hs & Hc & Hi & He & Hn & Hsh).
    { destruct Hk as [->|Hk]; auto. }
    destruct (IH (S k) st2)
      as (st' & added & ns' & nc' & Hloop & Hm' & Hs' & Hc' & Hn' & Hle & He').
    { right. rewrite Hi. now destruct (research_iterations st). }
    exists st'. eexists. exists (ns ++ ns')%list, (nc ++ nc')%list.
    unfold bind. rewrite Heq, Hloop. split; [reflexivity|].
    rewrite Hm', Hm, Hs', Hs, Hc', Hc, He', He.
    split; [rewrite <- !app_assoc; reflexivity|].
    split; [now rewrite app_assoc|]. split; [now rewrite app_assoc|].
    rewrite !tool_results_app, !length_app.
    assert (Hp : tool_results
                   (if (Z.of_nat k <? max_iterations - 1)%Z
                    then [mkMessage User (CText (next_prompt user_query))]
                    else []) = []) by (destruct (_ <? _)%Z; reflexivity).
    rewrite Hp. cbn [length].
    assert (Hone : length (tool_results more) <= 1).
    { destruct Hsh as [(-> & _)|[(x & ->)|[(x & id & c & -> & _)|
                       (x & id & c & a & ->)]]]; cbn; lia. }
    split; [lia|]. split; [lia|].
    rewrite <- app_assoc. reflexivity.
Qed.

Lemma alternates_app e a b :
  alternates e (a ++ b) = alternates e a && alternates (turn_after e a) b.
Proof.
  revert e. induction a as [|m a IH]; intros e; cbn [app alternates turn_after];
    [reflexivity|].
  rewrite IH. now rewrite andb_assoc.
Qed.

Lemma turn_after_app e a b :
  turn_after e (a ++ b) = turn_after (turn_after e a) b.
Proof.
  revert e. induction a as [|m a IH]; intros e; cbn [app turn_after];
    [reflexivity | apply IH].
Qed.

(** With a model that always answers, the loop leaves a conversation that
    takes turns, and whose last word is the model's unless no turn was
    run. *)
Lemma loop_alternates cfg w user_query max_iterations :
  never_fails w ->
  forall n k st,
    Z.of_nat (k + n) = max_iterations ->
    k = 0 \/ research_iterations st <> [] ->
    alternates User (messages st) = true ->
    turn_after User (messages st) = Assistant ->
    exists st',
      for_each (map Z.of_nat (seq k n))
               (research_step cfg w user_query max_iterations) st =
        (Ok tt, st') /\
      alternates User (messages st') = true /\
      turn_after User (messages st') =
        match n with
        | O => Assistant
        | S _ => User
        end.
Proof.
  intros Hw. induction n as [|n IH]; intros k st HN Hk Ha Ht.
  - exists st. auto.
  - cbn [seq map for_each].
    destruct (research_step_effect cfg w user_query max_iterations
                (Z.of_nat k) st)
      as (st2 & more & ns & nc & r & Heq & Hm & _ & _ & Hi & _ & _ & Hsh).
    { destruct Hk as [->|Hk]; auto. }
    assert (Hmore : alternates Assistant more = true /\
                    turn_after Assistant more = User).
    { destruct Hsh as [(_ & t & req & e & Hf)|[(x & ->)|
                       [(x & id & c & _ & t & req & e & Hf)|
                        (x & id & c & a & ->)]]]; try (split; reflexivity);
        destruct (Hw t req) as [response Hok]; congruence. }
    destruct Hmore as [Ha1 Ht1].
    unfold bind. rewrite Heq.
    destruct n as [|n].
    + assert (Hlast : (Z.of_nat k <? max_iterations - 1)%Z = false)
        by (apply Z.ltb_ge; lia).
      rewrite Hlast, app_nil_r in Hm.
      exists st2. split; [reflexivity|]. rewrite Hm.
      rewrite alternates_app, turn_after_app, Ha, Ht, Ha1, Ht1. auto.
    + assert (Hlast : (Z.of_nat k <? max_iterations - 1)%Z = true)
        by (apply Z.ltb_lt; lia).
      rewrite Hlast in Hm.
      destruct (IH (S k) st2) as (st' & Hloop & Ha' & Ht').
      * lia.
      * right. rewrite Hi. now destruct (research_iterations st).
      * rewrite Hm. rewrite !alternates_app, Ha, Ht, Ha1, Ht1. reflexivity.
      * rewrite Hm. rewrite !turn_after_app, Ht, Ht1. reflexivity.
      * exists st'. rewrite Hloop. auto.
Qed.

(** ** The run as a whole *)

(** The state in which the loop is entered. *)
Lemma run_iterations_prelude cfg w user_query max_iterations st :
  run_iterations cfg w user_query max_iterations st =
  for_each (range max_iterations)
    (research_step cfg w user_query max_iterations)
    (mkState [initial_message user_query] (research_iterations st)
       (search_history st) (content_retrieval_history st)
       (progress st ++
          [mkEvent ("Starting research on: '" ++ user_query ++ "'") PInfo
                   None None] ++
          [mkEvent ("Planning " ++ str_of_Z max_iterations ++
                      " research iterations") PInfo None None])
       (tick st)).
Proof.
  unfold run_iterations, initialize_conversation. run_monad.
  rewrite <- app_assoc. reflexivity.
Qed.

(** The two ways in which the synthesis ends. *)
Lemma final_synthesis_cases cfg w user_query max_iterations st :
  exists report data st',
    final_synthesis cfg w user_query max_iterations st =
      (Ok (report, data), st') /\
    messages st' =
      (messages st ++
       [mkMessage User (CText (final_prompt user_query max_iterations))])%list /\
    research_iterations st' = research_iterations st /\
    search_history st' = search_history st /\
    content_retrieval_history st' = content_retrieval_history st /\
    rd_query data = user_query /\
    rd_iterations data = research_iterations st /\
    rd_search_history data = search_history st /\
    rd_content_retrieval_history data = content_retrieval_history st /\
    ((exists response,
        claude w (tick st)
               (synthesis_request cfg user_query max_iterations st) =
          Ok response /\
        report = join nl (text_items response) /\
        rd_final_report data = Some report /\ rd_error data = None /\
        rd_model data = Some (model cfg)) \/
     (exists e,
        claude w (tick st)
               (synthesis_request cfg user_query max_iterations st) =
          Raise e /\
        report = final_report_error e /\
        rd_final_report data = None /\ rd_error data = Some e /\
        rd_model data = None)).
Proof.
  unfold final_synthesis, synthesis_request. run_monad.
  destruct (claude w (tick st) _) as [response|e]; run_monad;
    do 3 eexists; (split; [reflexivity|]); cbn;
    repeat (split; [reflexivity|]).
  - left. eauto 10.
  - right. eauto 10.
Qed.

(** A run from its first to its last state. *)
Lemma run_research_loop_effect cfg w user_query max_iterations st :
  exists report data st' new added ns nc,
    run_research_loop cfg w user_query max_iterations st =
      (Ok (report, data), st') /\
    messages st' =
      (initial_message user_query :: added ++
       [mkMessage User (CText (final_prompt user_query max_iterations))])%list /\
    research_iterations st' = (research_iterations st ++ new)%list /\
    length new = Z.to_nat max_iterations /\
    search_history st' = (search_history st ++ ns)%list /\
    content_retrieval_history st' = (content_retrieval_history st ++ nc)%list /\
    length ns + length nc = length (tool_results added) /\
    length (tool_results added) <= Z.to_nat max_iterations /\
    iteration_events (progress st') =
      (iteration_events (progress st) ++
       map (fun i => (Some (i + 1)%Z, Some max_iterations))
           (range max_iterations))%list /\
    rd_query data = user_query /\
    rd_iterations data = research_iterations st' /\
    rd_search_history data = search_history st' /\
    rd_content_retrieval_history data = content_retrieval_history st' /\
    ((rd_final_report data = Some report /\ rd_error data = None /\
      rd_model data = Some (model cfg)) \/
     (exists e,
        report = final_report_error e /\
        rd_final_report data = None /\ rd_error data = Some e /\
        rd_model data = None)).
Proof.
  unfold run_research_loop, bind.
  rewrite (run_iterations_prelude cfg w user_query max_iterations st).
  unfold range.
  match goal with
  | |- context [for_each _ _ ?s0] =>
      destruct (loop_effect cfg w user_query max_iterations
                  (Z.to_nat max_iterations) 0 s0 (or_introl eq_refl))
        as (st1 & added & ns & nc & Hloop & Hm & Hs & Hc & Hn & Hle & He);
      destruct (loop_ledger cfg w user_query max_iterations
                  (Z.to_nat max_iterations) 0 s0 (or_introl eq_refl))
        as (st1' & new & Hloop' & Hi & Hnum)
  end.
  rewrite Hloop in Hloop'. injection Hloop' as <-. rewrite Hloop.
  cbn in Hm, Hs, Hc, He, Hi.
  destruct (final_synthesis_cases cfg w user_query max_iterations st1)
    as (report & data & st' & Hf & Fm & Fi & Fs & Fc & Dq & Di & Ds & Dc & Dx).
  pose proof (turns_final_synthesis cfg w user_query max_iterations st1) as Ft.
  rewrite Hf in Ft. unfold same_turns in Ft. cbn in Ft.
  rewrite Hf. exists report, data, st', new, added, ns, nc.
  split; [reflexivity|].
  rewrite Fm, Fi, Fs, Fc, Ft, Hm, Hs, Hc, He, Hi, Di, Ds, Dc.
  split; [reflexivity|]. split; [reflexivity|].
  split.
  { rewrite <- (length_map it_iteration), Hnum, length_map, length_seq.
    reflexivity. }
  repeat (split; [reflexivity|]). split; [exact Hn|]. split; [exact Hle|].
  split.
  { rewrite !iteration_events_app. cbn. rewrite app_nil_r, map_map.
    reflexivity. }
  split; [exact Dq|]. repeat (split; [assumption|]).
  destruct Dx as [(response & _ & _ & D1 & D2 & D3)|(e & _ & D0 & D1 & D2 & D3)];
    [left; auto | right; eauto].
Qed.

(** X17. Every run returns a pair, of which the record holds the query, the
    iteration ledger and the two histories of the instance as the run
    leaves them, and is of one of two kinds: either it has a
    [final_report], which is the text returned, and a [model], and no
    [error]; or it has an [error], the text returned being the report of
    that error, and neither [final_report] nor [model]. *)
Theorem run_ends_in_report_or_error cfg w user_query max_iterations st :
  exists report data st',
    run_research_loop cfg w user_query max_iterations st =
      (Ok (report, data), st') /\
    rd_query data = user_query /\
    rd_iterations data = research_iterations st' /\
    rd_search_history data = search_history st' /\
    rd_content_retrieval_history data = content_retrieval_history st' /\
    ((rd_final_report data = Some report /\ rd_error data = None /\
      rd_model data = Some (model cfg)) \/
     (exists e,
        report = final_report_error e /\
        rd_final_report data = None /\ rd_error data = Some e /\
        rd_model data = None)).
Proof.
  destruct (run_research_loop_effect cfg w user_query max_iterations st)
    as (report & data & st' & new & added & ns & nc & Heq & _ & _ & _ & _ & _
        & _ & _ & _ & Dq & Di & Ds & Dc & Dx).
  exists report, data, st'. auto 10.
Qed.

(** X18. When the completion requested for the final synthesis answers,
    the run returns the text blocks of the answer joined by newlines, with
    a record that holds this text as [final_report], the model, and the
    ledger and histories as they stood when the loop ended; the answer is
    not appended to the conversation, which ends with the final prompt. *)
Theorem synthesis_success_returns_report
    cfg w user_query max_iterations st st1 response :
  run_iterations cfg w user_query max_iterations st = (Ok tt, st1) ->
  claude w (tick st1) (synthesis_request cfg user_query max_iterations st1) =
    Ok response ->
  exists st2,
    run_research_loop cfg w user_query max_iterations st =
      (Ok (join nl (text_items response),
           mkResearchData user_query (Some (model cfg))
             (research_iterations st1) (search_history st1)
             (content_retrieval_history st1)
             (Some (join nl (text_items response))) None
             (now_isoformat w (S (tick st1)))), st2) /\
    messages st2 =
      (messages st1 ++
       [mkMessage User (CText (final_prompt user_query max_iterations))])%list /\
    In (mkEvent "Research complete!" PInfo None None) (progress st2).
Proof.
  intros Hloop Hcl. unfold run_research_loop, bind. rewrite Hloop.
  unfold final_synthesis, synthesis_request in *. run_monad.
  rewrite Hcl. run_monad.
  eexists. split; [reflexivity|]. cbn. split; [reflexivity|].
  apply in_or_app. right. now left.
Qed.

Lemma synthesis_success_witness :
  exists st2,
    run_research_loop example_config steady_world example_query 3 init_state =
      (Ok (join nl (text_items [TextBlock "analysis"]),
           mkResearchData example_query (Some (model example_config))
             (research_iterations
                (snd (run_iterations example_config steady_world
                        example_query 3 init_state)))
             (search_history
                (snd (run_iterations example_config steady_world
                        example_query 3 init_state)))
             (content_retrieval_history
                (snd (run_iterations example_config steady_world
                        example_query 3 init_state)))
             (Some (join nl (text_items [TextBlock "analysis"]))) None
             (now_isoformat steady_world
                (S (tick (snd (run_iterations example_config steady_world
                                 example_query 3 init_state)))))), st2) /\
    messages st2 =
      (messages (snd (run_iterations example_config steady_world
                        example_query 3 init_state)) ++
       [mkMessage User (CText (final_prompt example_query 3))])%list /\
    In (mkEvent "Research complete!" PInfo None None) (progress st2).
Proof.
  apply (synthesis_success_returns_report example_config steady_world
           example_query 3 init_state
           (snd (run_iterations example_config steady_world example_query 3
                   init_state))
           [TextBlock "analysis"]).
  - vm_compute. reflexivity.
  - vm_compute. reflexivity.
Defined.

(** X19. Every run starts its conversation afresh, with the initial prompt
    as first message and the final prompt as last one, whatever the
    conversation was before. During the run at most one record per
    iteration is added to the two histories together, at most
    [max_iterations] in all, and each of them is fed back to the model: the
    conversation holds exactly as many tool results as records were
    added. *)
Theorem run_feeds_back_every_record cfg w user_query max_iterations st :
  exists report data st' added ns nc,
    run_research_loop cfg w user_query max_iterations st =
      (Ok (report, data), st') /\
    messages st' =
      (initial_message user_query :: added ++
       [mkMessage User (CText (final_prompt user_query max_iterations))])%list /\
    search_history st' = (search_history st ++ ns)%list /\
    content_retrieval_history st' = (content_retrieval_history st ++ nc)%list /\
    length ns + length nc = length (tool_results (messages st')) /\
    length ns + length nc <= Z.to_nat max_iterations.
Proof.
  destruct (run_research_loop_effect cfg w user_query max_iterations st)
    as (report & data & st' & new & added & ns & nc & Heq & Hm & _ & _ & Hs
        & Hc & Hn & Hle & _).
  exists report, data, st', added, ns, nc.
  repeat (split; [assumption|]). rewrite Hm.
  change (initial_message user_query :: added ++
            [mkMessage User (CText (final_prompt user_query max_iterations))])%list
    with ([initial_message user_query] ++ added ++
            [mkMessage User (CText (final_prompt user_query max_iterations))])%list.
  rewrite !tool_results_app. cbn [tool_results initial_message app].
  rewrite app_nil_r. split; lia.
Qed.

(** X20. When the model answers every request and at least one iteration
    is asked for, the conversation of a run takes turns: from the initial
    prompt to the final prompt, which is the last message of the request
    for the synthesis, user and assistant messages alternate. The run then
    ends with a report and no error. *)
Theorem conversation_takes_turns cfg w user_query max_iterations st :
  never_fails w -> (1 <= max_iterations)%Z ->
  exists report data st1 st',
    run_iterations cfg w user_query max_iterations st = (Ok tt, st1) /\
    run_research_loop cfg w user_query max_iterations st =
      (Ok (report, data), st') /\
    messages st' =
      req_messages (synthesis_request cfg user_query max_iterations st1) /\
    alternates User (messages st') = true /\
    rd_final_report data = Some report /\ rd_error data = None.
Proof.
  intros Hw HN. unfold run_research_loop, bind.
  rewrite (run_iterations_prelude cfg w user_query max_iterations st).
  unfold range.
  match goal with
  | |- context [for_each _ _ ?s0] =>
      destruct (loop_alternates cfg w user_query max_iterations Hw
                  (Z.to_nat max_iterations) 0 s0)
        as (st1 & Hloop & Ha & Ht);
        [ cbn; lia | now left | reflexivity | reflexivity | ]
  end.
  rewrite Hloop.
  destruct (final_synthesis_cases cfg w user_query max_iterations st1)
    as (report & data & st' & Hf & Fm & _ & _ & _ & _ & _ & _ & _ & Dx).
  rewrite Hf. exists report, data, st1, st'.
  split; [reflexivity|]. split; [reflexivity|]. split; [exact Fm|].
  split.
  - rewrite Fm, alternates_app, Ha, Ht.
    destruct (Z.to_nat max_iterations) eqn:E; [lia | reflexivity].
  - destruct Dx as [(response & _ & _ & D1 & D2 & _)|(e & Hfail & _)];
      [auto|].
    destruct (Hw (tick st1)
                (synthesis_request cfg user_query max_iterations st1))
      as [response Hok].
    congruence.
Qed.

Lemma steady_world_never_fails : never_fails steady_world.
Proof.
  intros t req. cbn [claude steady_world].
  destruct (req_tools req); eauto.
Qed.

Lemma conversation_takes_turns_witness :
  exists report data st1 st',
    run_iterations example_config steady_world example_query 3 init_state =
      (Ok tt, st1) /\
    run_research_loop example_config steady_world example_query 3 init_state =
      (Ok (report, data), st') /\
    messages st' =
      req_messages (synthesis_request example_config example_query 3 st1) /\
    alternates User (messages st') = true /\
    rd_final_report data = Some report /\ rd_error data = None.
Proof.
  apply (conversation_takes_turns example_config steady_world example_query 3
           init_state).
  - exact steady_world_never_fails.
  - lia.
Defined.

(** X21. The [iteration] progress events that a run logs are, in this
    order, one per iteration, numbered 1, 2, ..., [max_iterations], each
    with [max_iterations] as its total: no iteration goes unannounced,
    whatever fails in it, and nothing else is announced as one. *)
Theorem run_announces_each_iteration cfg w user_query max_iterations st :
  exists report data st',
    run_research_loop cfg w user_query max_iterations st =
      (Ok (report, data), st') /\
    iteration_events (progress st') =
      (iteration_events (progress st) ++
       map (fun i => (Some (i + 1)%Z, Some max_iterations))
           (range max_iterations))%list.
Proof.
  destruct (run_research_loop_effect cfg w user_query max_iterations st)
    as (report & data & st' & new & added & ns & nc & Heq & _ & _ & _ & _ & _
        & _ & _ & He & _).
  exists report, data, st'. auto.
Qed.

(** ** The statistics panel *)

(** X22. For the record returned by a run of [N >= 0] iterations on a
    fresh instance, the statistics panel of [main.py] shows [N] under
    "Iterations", and the numbers it shows under "Searches" and "Articles
    Retrieved" add up to at most [N]. *)
Theorem statistics_of_a_fresh_run cfg w user_query max_iterations st :
  fresh st -> (0 <= max_iterations)%Z ->
  exists report data st',
    run_research_loop cfg w user_query max_iterations st =
      (Ok (report, data), st') /\
    metric_iterations data = Z.to_N max_iterations /\
    (metric_searches data + metric_articles_retrieved data <=
       metric_iterations data)%N.
Proof.
  intros (Hi0 & Hs0 & Hc0) HN.
  destruct (run_research_loop_effect cfg w user_query max_iterations st)
    as (report & data & st' & new & added & ns & nc & Heq & _ & Hi & Hlen & Hs
        & Hc & Hn & Hle & _ & _ & Di & Ds & Dc & _).
  exists report, data, st'. split; [exact Heq|].
  unfold metric_iterations, metric_searches, metric_articles_retrieved.
  rewrite Di, Ds, Dc, Hi, Hs, Hc, Hi0, Hs0, Hc0. cbn [app].
  rewrite Hlen. split; lia.
Qed.

Lemma statistics_witness :
  exists report data st',
    run_research_loop example_config steady_world example_query 3 init_state =
      (Ok (report, data), st') /\
    metric_iterations data = Z.to_N 3 /\
    (metric_searches data + metric_articles_retrieved data <=
       metric_iterations data)%N.
Proof.
  apply (statistics_of_a_fresh_run example_config steady_world example_query 3
           init_state).
  - repeat split.
  - lia.
Defined.


(** ** Text extraction *)

Lemma text_items_filter bs :
  text_items (filter is_text_block bs) = text_items bs.
Proof.
  induction bs as [|[t|name input id| ] bs IH]; cbn; [reflexivity| |exact IH..].
  now rewrite IH.
Qed.

Lemma text_items_app a b :
  text_items (a ++ b) = (text_items a ++ text_items b)%list.
Proof.
  induction a as [|[t|name input id| ] a IH]; cbn; [reflexivity| |exact IH..].
  now rewrite IH.
Qed.

(** X23. The text extracted from a response is made of its text blocks
    only, in their order: blocks of any other type, tool invocations
    included, can be removed without changing it, and a response without
    text block extracts to the empty string. The extraction does not
    raise and leaves the state as it is. *)
Theorem extract_reads_text_blocks_only content_list st :
  extract_text_content content_list st =
    (Ok (join nl (text_items content_list)), st) /\
  extract_text_content (filter is_text_block content_list) st =
    extract_text_content content_list st /\
  (if forallb (fun b => negb (is_text_block b)) content_list
   then extract_text_content content_list st = (Ok EmptyString, st)
   else True).
Proof.
  rewrite !extract_text_content_eq, text_items_filter.
  split; [reflexivity|]. split; [reflexivity|].
  destruct (forallb _ content_list) eqn:H; [|exact I].
  assert (E : text_items content_list = []).
  { induction content_list as [|[t|name input id| ] bs IH]; cbn in *;
      [reflexivity | discriminate | exact (IH H) | exact (IH H)]. }
  rewrite E. reflexivity.
Qed.

(** ** Faults seen from the model's side *)

(** X24. When the first tool invocation of an answer is a [web_search] and
    the provider's search call raises [e], the driver still returns, the
    failed search is recorded with [e], and what is fed back to the model
    as the result of the invocation is the sentence
    ["No search results found."]. *)
Theorem failed_search_is_fed_back cfg w st pre input id rest e :
  claude w (tick st) (iteration_request cfg st) =
    Ok (pre ++ ToolUse "web_search" input id :: rest)%list ->
  forallb (fun b => negb (is_tool_invocation b)) pre = true ->
  exa w (S (tick st))
      (search_params_of cfg (get "query" (PStr EmptyString) input) None
         (get "start_date" PNone input) (get "end_date" PNone input)) =
    Raise e ->
  exists text st' rec,
    run_research_iteration cfg w st = (Ok text, st') /\
    In (mkMessage User (CToolResult id no_search_results)) (messages st') /\
    search_history st' = (search_history st ++ [rec])%list /\
    s_error rec = Some e /\
    content_retrieval_history st' = content_retrieval_history st.
Proof.
  intros Hresp Hpre Hexa.
  rewrite (run_research_iteration_answered cfg w st _ Hresp).
  set (response := (pre ++ ToolUse "web_search" input id :: rest)%list).
  unfold try_except, bind. unfold response at 2.
  rewrite (dispatch_skip cfg w response pre _ Hpre). cbn [dispatch].
  change (String.eqb "web_search" "web_search") with true. cbn iota.
  unfold bind, handle_web_search. run_monad.
  match goal with
  | |- context [search_with_exa ?a ?b ?q ?n ?sd ?ed ?s] =>
      rewrite (search_with_exa_raises a b q n sd ed s e Hexa)
  end.
  unfold format_search_results. run_monad.
  match goal with
  | |- context [claude w ?t ?req] => destruct (claude w t req) as [analysis|e']
  end; run_monad; do 3 eexists; (split; [reflexivity|]); cbn;
    (split; [|auto]); rewrite !in_app_iff; cbn; auto 10.
Qed.

Lemma failed_search_witness :
  exists text st' rec,
    run_research_iteration example_config
      (mkWorld example_clock (claude example_world) (exa failing_world)
               (firecrawl failing_world)) init_state = (Ok text, st') /\
    In (mkMessage User (CToolResult "toolu_1" no_search_results))
       (messages st') /\
    search_history st' = (search_history init_state ++ [rec])%list /\
    s_error rec = Some "connection refused" /\
    content_retrieval_history st' = content_retrieval_history init_state.
Proof.
  apply (failed_search_is_fed_back example_config
           (mkWorld example_clock (claude example_world) (exa failing_world)
                    (firecrawl failing_world))
           init_state [TextBlock "I will search first."]
           [("query", PStr "metformin liver")] "toolu_1"
           [ToolUse "get_article_content"
                    [("url", PStr "https://example.org/a")] "toolu_2"]
           "connection refused").
  - reflexivity.
  - reflexivity.
  - reflexivity.
Defined.

(** X25. When the first tool invocation of an answer is a
    [get_article_content] and the provider's scrape call raises [e], the
    driver still returns, the failed retrieval is recorded with [e], and
    what is fed back to the model as the result of the invocation is the
    marker ["Error retrieving content"]. *)
Theorem failed_fetch_is_fed_back cfg w st pre input id rest e :
  claude w (tick st) (iteration_request cfg st) =
    Ok (pre ++ ToolUse "get_article_content" input id :: rest)%list ->
  forallb (fun b => negb (is_tool_invocation b)) pre = true ->
  firecrawl w (S (tick st)) (get "url" (PStr EmptyString) input) = Raise e ->
  exists text st' rec,
    run_research_iteration cfg w st = (Ok text, st') /\
    In (mkMessage User (CToolResult id error_retrieving_content))
       (messages st') /\
    content_retrieval_history st' =
      (content_retrieval_history st ++ [rec])%list /\
    c_success rec = false /\ c_error rec = Some e /\
    search_history st' = search_history st.
Proof.
  intros Hresp Hpre Hfc.
  rewrite (run_research_iteration_answered cfg w st _ Hresp).
  set (response := (pre ++ ToolUse "get_article_content" input id :: rest)%list).
  unfold try_except, bind. unfold response at 2.
  rewrite (dispatch_skip cfg w response pre _ Hpre). cbn [dispatch].
  change (String.eqb "get_article_content" "web_search") with false.
  change (String.eqb "get_article_content" "get_article_content") with true.
  cbn iota.
  unfold bind, handle_get_article_content. run_monad.
  match goal with
  | |- context [get_full_content ?a ?u ?s] =>
      rewrite (get_full_content_raises a u s e Hfc)
  end.
  run_monad.
  match goal with
  | |- context [claude w ?t ?req] => destruct (claude w t req) as [analysis|e']
  end; run_monad; do 3 eexists; (split; [reflexivity|]); cbn;
    (split; [|auto]); rewrite !in_app_iff; cbn; auto 10.
Qed.

Lemma failed_fetch_witness :
  exists text st' rec,
    run_research_iteration example_config
      (mkWorld example_clock
         (fun _ _ =>
            Ok [ToolUse "get_article_content"
                        [("url", PStr "https://example.org/a")] "toolu_2"])
         (exa failing_world) (firecrawl failing_world)) init_state =
      (Ok text, st') /\
    In (mkMessage User (CToolResult "toolu_2" error_retrieving_content))
       (messages st') /\
    content_retrieval_history st' =
      (content_retrieval_history init_state ++ [rec])%list /\
    c_success rec = false /\ c_error rec = Some "timeout" /\
    search_history st' = search_history init_state.
Proof.
  apply (failed_fetch_is_fed_back example_config
           (mkWorld example_clock
              (fun _ _ =>
                 Ok [ToolUse "get_article_content"
                             [("url", PStr "https://example.org/a")] "toolu_2"])
              (exa failing_world) (firecrawl failing_world))
           init_state [] [("url", PStr "https://example.org/a")] "toolu_2" []
           "timeout").
  - reflexivity.
  - reflexivity.
  - reflexivity.
Defined.

(** ** The timestamps of the ledger *)

Lemma loop_stamps cfg w user_query max_iterations : forall n k st,
  k = 0 \/ research_iterations st <> [] ->
  exists st' new,
    for_each (map Z.of_nat (seq k n))
             (research_step cfg w user_query max_iterations) st =
      (Ok tt, st') /\
    research_iterations st' = (research_iterations st ++ new)%list /\
    stamped w (tick st) (tick st') (map it_timestamp new).
Proof.
  induction n as [|n IH]; intros k st Hk.
  - exists st, []. cbn. rewrite app_nil_r. repeat split. constructor. lia.
  - cbn [seq map for_each].
    destruct (run_research_iteration_spec cfg w
                (announced max_iterations (Z.of_nat k) st))
      as (text & st1 & Hrun & Hst).
    pose proof (step_iterations _ _ _ Hst) as Hits.
    pose proof (step_tick _ _ _ Hst) as Htick.
    cbn in Hits, Htick.
    destruct (iteration_slices_exist (Z.of_nat k) st1) as (ss & cs & Hsl).
    { rewrite Hits. destruct Hk as [->|Hk]; auto. }
    unfold bind.
    rewrite (research_step_full cfg w user_query max_iterations (Z.of_nat k)
               st text st1 ss cs Hrun Hsl).
    match goal with
    | |- context [for_each _ _ ?s2] =>
        destruct (IH (S k) s2) as (st' & new & Hloop & Hi & Hstamp)
    end.
    { right. cbn. now destruct (research_iterations st1). }
    cbn in Hi, Hstamp. rewrite Hloop.
    eexists. eexists. split; [reflexivity|].
    rewrite Hi, Hits, <- app_assoc. split; [reflexivity|].
    cbn [app map it_timestamp]. constructor; assumption.
Qed.

Lemma stamped_sorted w lo hi l :
  strictly_increasing w -> stamped w lo hi l ->
  forall i j a b, i < j ->
    nth_error l i = Some a -> nth_error l j = Some b ->
    String.ltb a b = true.
Proof.
  intros Hw. induction 1 as [lo hi Hle | lo hi t l Hlo Hl IH];
    intros i j a b Hij Hi Hj.
  - destruct i; discriminate.
  - destruct j as [|j]; [lia|]. cbn in Hj.
    destruct i as [|i]; cbn in Hi.
    + injection Hi as <-.
      destruct (stamped_in _ _ _ _ Hl b (nth_error_In _ _ Hj))
        as (t' & Ht' & ->).
      apply Hw. lia.
    + apply (IH i j a b); [lia | assumption | assumption].
Qed.

(** X26. In a world whose clock is strictly increasing, the iteration
    records that a run appends to the ledger carry strictly increasing
    timestamps, in the order of the iterations. *)
Theorem iteration_timestamps_increase cfg w user_query max_iterations st :
  strictly_increasing w ->
  exists report data st' new,
    run_research_loop cfg w user_query max_iterations st =
      (Ok (report, data), st') /\
    rd_iterations data = (research_iterations st ++ new)%list /\
    forall i j a b, i < j ->
      nth_error new i = Some a -> nth_error new j = Some b ->
      String.ltb (it_timestamp a) (it_timestamp b) = true.
Proof.
  intros Hw. unfold run_research_loop, bind.
  rewrite (run_iterations_prelude cfg w user_query max_iterations st).
  unfold range.
  match goal with
  | |- context [for_each _ _ ?s0] =>
      destruct (loop_stamps cfg w user_query max_iterations
                  (Z.to_nat max_iterations) 0 s0 (or_introl eq_refl))
        as (st1 & new & Hloop & Hi & Hstamp)
  end.
  cbn in Hi. rewrite Hloop.
  destruct (final_synthesis_spec cfg w user_query max_iterations st1)
    as (report & data & st' & Hf & Di & _).
  rewrite Hf. exists report, data, st', new.
  split; [reflexivity|]. split; [congruence|].
  intros i j a b Hij Ha Hb.
  apply (stamped_sorted w _ _ _ Hw Hstamp i j); [exact Hij | |];
    rewrite nth_error_map; [rewrite Ha | rewrite Hb]; reflexivity.
Qed.

Lemma iteration_timestamps_witness :
  exists report data st' new,
    run_research_loop example_config example_world example_query 3 init_state =
      (Ok (report, data), st') /\
    rd_iterations data = (research_iterations init_state ++ new)%list /\
    forall i j a b, i < j ->
      nth_error new i = Some a -> nth_error new j = Some b ->
      String.ltb (it_timestamp a) (it_timestamp b) = true.
Proof.
  apply (iteration_timestamps_increase example_config example_world
           example_query 3 init_state).
  exact example_clock_increasing.
Defined.


(** ** The session state *)

Lemma get_set_same key v session :
  get_item key (set_item key v session) = Some v.
Proof.
  induction session as [|[k x] rest IH]; cbn [set_item get_item].
  - now rewrite String.eqb_refl.
  - destruct (String.eqb key k) eqn:E; cbn [get_item]; rewrite E;
      [reflexivity | exact IH].
Qed.

Lemma get_set_other key key' v session :
  key <> key' -> get_item key (set_item key' v session) = get_item key session.
Proof.
  intros Hne. apply String.eqb_neq in Hne.
  induction session as [|[k x] rest IH]; cbn [set_item get_item].
  - now rewrite Hne.
  - destruct (String.eqb key' k) eqn:E; cbn [get_item].
    + apply String.eqb_eq in E. subst k. now rewrite Hne.
    + destruct (String.eqb key k); [reflexivity | exact IH].
Qed.

Lemma get_after_clearing key keys : forall session,
  get_item key
    (fold_left (fun s k => set_item k (cleared_value k) s) keys session) =
  if existsb (String.eqb key) keys then Some (cleared_value key)
  else get_item key session.
Proof.
  induction keys as [|k keys IH]; intros session; cbn [fold_left existsb];
    [reflexivity|].
  rewrite IH. destruct (existsb (String.eqb key) keys).
  - now rewrite orb_true_r.
  - rewrite orb_false_r. destruct (String.eqb_spec key k) as [->|Hne].
    + apply get_set_same.
    + now apply get_set_other.
Qed.

(** X27. Whatever the session holds, the "New Research" button of
    [main.py] puts every one of the eight keys of the session state back to
    the value with which the head of the script initialises it in an empty
    session, and leaves every other key as it is. *)
Theorem new_research_restores_defaults session key :
  get_item key (new_research session) =
  if existsb (String.eqb key) cleared_keys
  then get_item key (initialize_session [])
  else get_item key session.
Proof.
  unfold new_research. rewrite get_after_clearing.
  destruct (existsb (String.eqb key) cleared_keys) eqn:E; [|reflexivity].
  apply existsb_exists in E as (k & Hin & Hk).
  apply String.eqb_eq in Hk. subst k. cbn [cleared_keys In] in Hin.
  repeat (destruct Hin as [<-|Hin]; [reflexivity|]). destruct Hin.
Qed.

(** X28. The head of [main.py], which runs on every rerun of the script,
    never overwrites what the session already holds under a key: it only
    gives its default to each of the eight keys that is missing. *)
Theorem initialize_session_only_fills_gaps session key :
  get_item key (initialize_session session) =
  match get_item key session with
  | Some v => Some v
  | None => get_item key session_defaults
  end.
Proof.
  unfold initialize_session. revert session.
  generalize session_defaults as defaults.
  induction defaults as [|[k d] defaults IH]; intros session;
    cbn [fold_left fst snd get_item].
  - now destruct (get_item key session).
  - rewrite IH. destruct (String.eqb_spec key k) as [->|Hne].
    + destruct (get_item k session) as [v|] eqn:E.
      * now rewrite E.
      * now rewrite get_set_same.
    + destruct (get_item k session) as [v|] eqn:E; [reflexivity|].
      now rewrite (get_set_other key k d session Hne).
Qed.

(** ** A provider that always fails *)

Lemma failures_refl st : keeps_failures st st.
Proof. intros H. exact H. Qed.

Lemma failures_trans a b c :
  keeps_failures a b -> keeps_failures b c -> keeps_failures a c.
Proof. unfold keeps_failures. auto. Qed.

Ltac failures_step :=
  first
    [ apply (keeps_bind keeps_failures failures_trans); [ | intro ]
    | apply (keeps_try_except keeps_failures failures_trans); [ | intro ]
    | apply (keeps_ret keeps_failures failures_refl)
    | apply (keeps_lift keeps_failures failures_refl)
    | apply (keeps_gets keeps_failures failures_refl)
    | apply (keeps_for_each keeps_failures failures_refl failures_trans);
      intro
    | match goal with
      | |- keeps keeps_failures (update_progress _ _ _ _) =>
          intros ? H; exact H
      | |- keeps keeps_failures (append_message _) => intros ? H; exact H
      | |- keeps keeps_failures (set_messages _) => intros ? H; exact H
      | |- keeps keeps_failures (append_retrieval _) => intros ? H; exact H
      | |- keeps keeps_failures (append_iteration _) => intros ? H; exact H
      | |- keeps keeps_failures (external _) => intros ? H; exact H
      | |- keeps keeps_failures (now _) => intros ? H; exact H
      end ].

Lemma failures_search_with_exa cfg w query num_results start_date end_date :
  searches_always_fail w ->
  keeps keeps_failures
        (search_with_exa cfg w query num_results start_date end_date).
Proof.
  intros Hw st.
  destruct (Hw (tick st)
              (search_params_of cfg query num_results start_date end_date))
    as [e He].
  rewrite (search_with_exa_raises cfg w query num_results start_date end_date
             st e He).
  intros H. unfold all_searches_failed in *. cbn.
  apply Forall_app. split; [exact H|].
  constructor; [|constructor]. cbn. split; [discriminate | reflexivity].
Qed.

Lemma failures_get_full_content w url :
  keeps keeps_failures (get_full_content w url).
Proof. unfold get_full_content. repeat failures_step. Qed.

Lemma failures_format_search_results r :
  keeps keeps_failures (format_search_results r).
Proof.
  unfold format_search_results. destruct r as [response|]; [|failures_step].
  failures_step.
  - failures_step; [|repeat failures_step].
    destruct response as [[r|]|[r|]]; repeat failures_step.
  - destruct a as [early|results]; [failures_step|].
    failures_step; [failures_step|].
    destruct (map format_block (enumerate a)); failures_step.
Qed.

Lemma failures_handle_web_search cfg w response input id :
  searches_always_fail w ->
  keeps keeps_failures (handle_web_search cfg w response input id).
Proof.
  intros Hw. unfold handle_web_search.
  failures_step; [failures_step|].
  failures_step; [failures_step|].
  failures_step; [apply failures_search_with_exa; exact Hw|].
  failures_step; [apply failures_format_search_results|].
  failures_step; [destruct a1; failures_step|].
  repeat failures_step.
Qed.

Lemma failures_handle_get_article_content cfg w response input id :
  keeps keeps_failures (handle_get_article_content cfg w response input id).
Proof.
  unfold handle_get_article_content.
  failures_step; [failures_step|].
  failures_step; [failures_step|].
  failures_step; [apply failures_get_full_content|].
  repeat failures_step.
Qed.

Lemma failures_dispatch cfg w response items :
  searches_always_fail w ->
  keeps keeps_failures (dispatch cfg w response items).
Proof.
  intros Hw.
  induction items as [|item rest IH]; cbn [dispatch]; [failures_step|].
  destruct item as [t|name input id| ]; try exact IH.
  destruct (String.eqb name "web_search").
  { failures_step; [apply failures_handle_web_search; exact Hw|].
    failures_step. }
  destruct (String.eqb name "get_article_content").
  { failures_step; [apply failures_handle_get_article_content|].
    failures_step. }
  exact IH.
Qed.

Lemma failures_run_research_iteration cfg w :
  searches_always_fail w ->
  keeps keeps_failures (run_research_iteration cfg w).
Proof.
  intros Hw. unfold run_research_iteration, run_research_iteration_body.
  failures_step; [|repeat failures_step].
  failures_step; [failures_step|].
  failures_step; [failures_step|].
  failures_step; [failures_step|].
  failures_step; [repeat failures_step|].
  failures_step; [failures_step|].
  failures_step; [apply failures_dispatch; exact Hw|].
  destruct a4; repeat failures_step.
Qed.

Lemma failures_research_step cfg w user_query max_iterations i :
  searches_always_fail w ->
  keeps keeps_failures (research_step cfg w user_query max_iterations i).
Proof.
  intros Hw. unfold research_step.
  failures_step; [failures_step|].
  failures_step; [apply failures_run_research_iteration; exact Hw|].
  failures_step; [failures_step|].
  failures_step.
  { unfold iteration_slices. destruct (i =? 0)%Z; repeat failures_step. }
  failures_step; [failures_step|].
  destruct (i <? max_iterations - 1)%Z; failures_step.
Qed.

Lemma failures_run_research_loop cfg w user_query max_iterations :
  searches_always_fail w ->
  keeps keeps_failures (run_research_loop cfg w user_query max_iterations).
Proof.
  intros Hw. unfold run_research_loop, run_iterations, initialize_conversation.
  failures_step.
  - failures_step; [failures_step|].
    failures_step; [failures_step|].
    failures_step; [failures_step|].
    failures_step. apply failures_research_step. exact Hw.
  - unfold final_synthesis. repeat failures_step.
Qed.

(** X29. When the provider fails every search, every record that a run
    adds to the search history carries an error and counts 0 results: if
    the history held only such records before the run, the history that
    the run returns holds only such records; and the run returns all the
    same. *)
Theorem failing_provider_leaves_only_failures
    cfg w user_query max_iterations st :
  searches_always_fail w -> all_searches_failed st ->
  exists report data st',
    run_research_loop cfg w user_query max_iterations st =
      (Ok (report, data), st') /\
    Forall (fun r => s_error r <> None /\ s_num_results r = 0%N)
           (rd_search_history data).
Proof.
  intros Hw H0.
  pose proof (failures_run_research_loop cfg w user_query max_iterations Hw
                st H0) as K.
  destruct (run_research_loop_effect cfg w user_query max_iterations st)
    as (report & data & st' & new & added & ns & nc & Heq & _ & _ & _ & _ & _
        & _ & _ & _ & _ & _ & Ds & _).
  rewrite Heq in K. cbn [snd] in K.
  exists report, data, st'. split; [exact Heq|]. rewrite Ds. exact K.
Qed.

Lemma offline_world_searches_fail : searches_always_fail offline_world.
Proof. intros t params. cbn. eauto. Qed.

Lemma failing_provider_witness :
  exists report data st',
    run_research_loop example_config offline_world example_query 3 init_state =
      (Ok (report, data), st') /\
    Forall (fun r => s_error r <> None /\ s_num_results r = 0%N)
           (rd_search_history data).
Proof.
  apply (failing_provider_leaves_only_failures example_config offline_world
           example_query 3 init_state).
  - exact offline_world_searches_fail.
  - constructor.
Defined.

(** ** Faults of an iteration: what reaches the driver's handler *)

(** What the body of the driver does once the model has answered. *)
Lemma run_research_iteration_body_answered cfg w st response :
  claude w (tick st) (iteration_request cfg st) = Ok response ->
  run_research_iteration_body cfg w st =
  (returned <- dispatch cfg w response response ;;
   match returned with
   | Some analysis_text => ret analysis_text
   | None =>
       update_progress "Claude is formulating research strategy..." PInfo
                       None None ;;;
       append_message (mkMessage Assistant (CBlocks response)) ;;;
       ret (join nl (text_items response))
   end)
    (mkState (messages st) (research_iterations st) (search_history st)
       (content_retrieval_history st)
       (progress st ++
          [mkEvent "Requesting Claude's analysis..." PInfo None None] ++
          [mkEvent "Claude is analyzing the research topic..." PInfo
                   None None])
       (S (tick st))).
Proof.
  intros H. unfold run_research_iteration_body.
  unfold iteration_request in H.
  unfold bind at 1. unfold update_progress at 1.
  unfold modify at 1. unfold bind at 1, gets at 1. unfold bind at 1.
  unfold external at 1. cbn [tick messages]. rewrite H.
  unfold bind at 1. rewrite extract_text_content_eq.
  unfold bind at 1. unfold update_progress at 1, modify at 1.
  cbn [messages research_iterations search_history content_retrieval_history
       progress tick].
  rewrite <- app_assoc. reflexivity.
Qed.

(** The loop over the blocks raises only what a completion raised. *)
Lemma dispatch_raises cfg w response items : forall st e st',
  dispatch cfg w response items st = (Raise e, st') ->
  exists t req, claude w t req = Raise e.
Proof.
  induction items as [|item rest IH]; intros st e st' H; cbn [dispatch] in H.
  - discriminate H.
  - destruct item as [text|name input id| ]; try (exact (IH _ _ _ H)).
    destruct (String.eqb name "web_search").
    { unfold bind in H.
      destruct (handle_web_search_effect cfg w response input id st)
        as (o & s1 & rec & c & tail & Heq & _ & _ & _ & _ & Ho).
      rewrite Heq in H. destruct o as [text|e0]; [discriminate H|].
      injection H as <- _. exact (proj2 Ho). }
    destruct (String.eqb name "get_article_content").
    { unfold bind in H.
      destruct (handle_get_article_content_effect cfg w response input id st)
        as (o & s1 & rec & c & tail & Heq & _ & _ & _ & _ & Ho).
      rewrite Heq in H. destruct o as [text|e0]; [discriminate H|].
      injection H as <- _. exact (proj2 Ho). }
    exact (IH _ _ _ H).
Qed.

(** The body of the driver raises only what a completion raised: the
    faults of the providers stay inside the adapters. *)
Lemma run_research_iteration_body_raises cfg w st e st1 :
  run_research_iteration_body cfg w st = (Raise e, st1) ->
  exists t req, claude w t req = Raise e.
Proof.
  intros H.
  destruct (claude w (tick st) (iteration_request cfg st))
    as [response|e0] eqn:Hcl.
  - rewrite (run_research_iteration_body_answered cfg w st response Hcl) in H.
    unfold bind at 1 in H.
    match type of H with
    | context [dispatch cfg w response response ?s] =>
        destruct (dispatch cfg w response response s) as [[returned|e0] s1]
          eqn:Hd
    end.
    + destruct returned as [text|]; discriminate H.
    + injection H as <- _. exact (dispatch_raises _ _ _ _ _ _ _ Hd).
  - unfold run_research_iteration_body, iteration_request in *.
    unfold bind at 1 in H. unfold update_progress at 1, modify at 1 in H.
    unfold bind at 1, gets at 1 in H. unfold bind at 1 in H.
    unfold external at 1 in H. cbn [tick messages] in H.
    rewrite Hcl in H. injection H as <- _. eauto.
Qed.

(** C3, as stated, fails for an adapter error. With both providers down
    the search made during the iteration raises, and an [error] progress
    event reports it; but the fault stays inside the adapter: the driver
    feeds the sentence ["No search results found."] back to the model and
    returns the model's analysis, not an error message, and its own handler
    logs nothing. *)
Lemma adapter_fault_returns_analysis :
  exa offline_world 1
      (search_params_of example_config (PStr "metformin liver") None
                        PNone PNone) = Raise "connection refused" /\
  exists st',
    run_research_iteration example_config offline_world init_state =
      (Ok "analysis", st') /\
    "analysis" <> "An error occurred: " ++ "connection refused" /\
    map s_error (search_history st') = [Some "connection refused"] /\
    In (mkEvent ("Search error: " ++ "connection refused") PError None None)
       (progress st') /\
    ~ In (mkEvent ("Error during research iteration: " ++
                     "connection refused") PError None None)
         (progress st').
Proof.
  split; [reflexivity|].
  eexists. split; [vm_compute; reflexivity|].
  split; [discriminate|]. split; [reflexivity|].
  split.
  - cbn. repeat ((left; reflexivity) || right).
  - cbn. intros H.
    repeat (destruct H as [H|H]; [discriminate H|]). exact H.
Qed.

(** C3, amended. If the body of the model/tool cycle of an iteration raises
    [e], then [e] was raised by a model completion (the faults of the
    providers are caught inside the adapters and never reach the driver's
    handler), and [run_research_iteration] does not raise: it logs an
    [error] progress event and returns the text ["An error occurred: e"]
    in place of the analysis. The turn of the loop that called it then
    completes: it stores an iteration record whose response is that text,
    and returns, so that the loop goes on. *)
Theorem iteration_fault_is_contained
    cfg w user_query max_iterations i st e st1 :
  i = 0%Z \/ research_iterations st <> [] ->
  run_research_iteration_body cfg w (announced max_iterations i st) =
    (Raise e, st1) ->
  (exists t req, claude w t req = Raise e) /\
  run_research_iteration cfg w (announced max_iterations i st) =
    (Ok ("An error occurred: " ++ e),
     mkState (messages st1) (research_iterations st1) (search_history st1)
       (content_retrieval_history st1)
       (progress st1 ++
          [mkEvent ("Error during research iteration: " ++ e) PError
                   None None])
       (tick st1)) /\
  exists st2 r,
    research_step cfg w user_query max_iterations i st = (Ok tt, st2) /\
    research_iterations st2 = (research_iterations st ++ [r])%list /\
    it_iteration r = (i + 1)%Z /\
    it_response r = "An error occurred: " ++ e.
Proof.
  intros Hi Hbody.
  split; [exact (run_research_iteration_body_raises _ _ _ _ _ Hbody)|].
  assert (Hrun : run_research_iteration cfg w (announced max_iterations i st) =
    (Ok ("An error occurred: " ++ e),
     mkState (messages st1) (research_iterations st1) (search_history st1)
       (content_retrieval_history st1)
       (progress st1 ++
          [mkEvent ("Error during research iteration: " ++ e) PError
                   None None])
       (tick st1))).
  { unfold run_research_iteration, try_except. rewrite Hbody. reflexivity. }
  split; [exact Hrun|].
  destruct (research_step_returns cfg w user_query max_iterations i st Hi)
    as (st2 & r & text & st1' & Hstep & Hrun' & Hits & Hnum & Hresp).
  rewrite Hrun in Hrun'. injection Hrun' as <- _.
  exists st2, r. auto.
Qed.

Lemma iteration_fault_witness :
  (exists t req, claude failing_world t req = Raise "overloaded") /\
  run_research_iteration example_config failing_world
                         (announced 3 0 init_state) =
    (Ok ("An error occurred: " ++ "overloaded"),
     mkState
       (messages (snd (run_research_iteration_body example_config failing_world
                         (announced 3 0 init_state))))
       (research_iterations
          (snd (run_research_iteration_body example_config failing_world
                  (announced 3 0 init_state))))
       (search_history
          (snd (run_research_iteration_body example_config failing_world
                  (announced 3 0 init_state))))
       (content_retrieval_history
          (snd (run_research_iteration_body example_config failing_world
                  (announced 3 0 init_state))))
       (progress
          (snd (run_research_iteration_body example_config failing_world
                  (announced 3 0 init_state))) ++
          [mkEvent ("Error during research iteration: " ++ "overloaded")
                   PError None None])
       (tick (snd (run_research_iteration_body example_config failing_world
                     (announced 3 0 init_state))))) /\
  exists st2 r,
    research_step example_config failing_world example_query 3 0 init_state =
      (Ok tt, st2) /\
    research_iterations st2 = (research_iterations init_state ++ [r])%list /\
    it_iteration r = (0 + 1)%Z /\
    it_response r = "An error occurred: " ++ "overloaded".
Proof.
  apply (iteration_fault_is_contained example_config failing_world
           example_query 3 0 init_state "overloaded"
           (snd (run_research_iteration_body example_config failing_world
                   (announced 3 0 init_state)))).
  - left. reflexivity.
  - vm_compute. reflexivity.
Defined.
